(** * Data-Quality-Auditor-Pro: the quality-assessment pipeline and the cleaner

    A shallow embedding of [src/profiler.py], [src/missing_analyzer.py],
    [src/outlier_detector.py], [src/validator.py] and [src/cleaner.py].

    Numbers.  A pandas float is modelled by a rational [Q] and the missing
    marker (NaN / None) by a cell of its own, so every formula of the source
    is read in exact arithmetic.  The dtype tag [DNumeric] stands for pandas'
    [int64] and [float64]: the source never tells them apart (it selects
    [np.number] columns, or tests [dtype in ['int64', 'float64']]).
    Datetime columns are outside the model.

    Frames.  A frame is its list of (name, dtype) columns and its rows, each
    a list of cells; a column is addressed by the position of its name, as
    [df[col]] does when the names are pairwise different.  A Python dict is
    an association list in insertion order.

    Exceptions.  A call that can raise returns a [result]; a method of the
    cleaner, which may have changed its frame before it raises, returns the
    state it leaves together with the exception.

    Library calls whose result is not determined by the repository
    (expression evaluation of [DataFrame.query], [scipy.stats.zscore],
    [IsolationForest], [pd.to_numeric]'s parser, Python's [str]) are Section
    variables of the component that calls them. *)

From Stdlib Require Import QArith Qround Qminmax Lqa Lia List String Bool ZArith.
From Stdlib Require Import Sorting.Sorted.
From stdpp Require Import base gmap strings list pretty.

Import ListNotations.

(** ** Exceptions *)

Inductive exn : Type :=
| TypeError
| KeyError.

Inductive result (A : Type) : Type :=
| Ok (a : A)
| Raise (e : exn).

Arguments Ok {A} a.
Arguments Raise {A} e.

Definition bind {A B : Type} (r : result A) (k : A -> result B) : result B :=
  match r with
  | Ok a => k a
  | Raise e => Raise e
  end.

Notation "'let!' x ':=' r 'in' k" := (bind r (fun x => k))
  (at level 10, x name, r at level 100, k at level 200).

Fixpoint mapM {A B : Type} (f : A -> result B) (l : list A) : result (list B) :=
  match l with
  | [] => Ok []
  | a :: l' => let! b := f a in let! bs := mapM f l' in Ok (b :: bs)
  end.

(** ** The tabular data model *)

Inductive dtype : Type :=
| DNumeric
| DObject
| DBool.

Inductive cell : Type :=
| CNum (q : Q)
| CStr (s : string)
| CBool (b : bool)
| CNaN.

Record DataFrame : Type := mkDF {
  columns : list (string * dtype);
  rows : list (list cell)
}.

Definition dtype_eqb (a b : dtype) : bool :=
  match a, b with
  | DNumeric, DNumeric | DObject, DObject | DBool, DBool => true
  | _, _ => false
  end.

(** Equality of two cells the way [duplicated] sees it: numbers by value,
    and two missing cells are equal. *)
Definition cell_eqb (a b : cell) : bool :=
  match a, b with
  | CNum x, CNum y => Qeq_bool x y
  | CStr s, CStr t => String.eqb s t
  | CBool x, CBool y => Bool.eqb x y
  | CNaN, CNaN => true
  | _, _ => false
  end.

Fixpoint row_eqb (r1 r2 : list cell) : bool :=
  match r1, r2 with
  | [], [] => true
  | a :: r1', b :: r2' => cell_eqb a b && row_eqb r1' r2'
  | _, _ => false
  end.

Definition Qltb (x y : Q) : bool := negb (Qle_bool y x).

Definition nat2Q (n : nat) : Q := inject_Z (Z.of_nat n).

Definition bool2Q (b : bool) : Q := if b then 1%Q else 0%Q.

(** [len(df)], [len(df.columns)] and [col in df.columns]. *)
Definition len (df : DataFrame) : nat := length (rows df).

Definition ncols (df : DataFrame) : nat := length (columns df).

Fixpoint index_of (name : string) (cols : list (string * dtype)) : option nat :=
  match cols with
  | [] => None
  | (c, _) :: cols' =>
      if String.eqb name c then Some 0%nat
      else match index_of name cols' with
           | Some i => Some (S i)
           | None => None
           end
  end.

Definition has_column (df : DataFrame) (name : string) : bool :=
  match index_of name (columns df) with
  | Some _ => true
  | None => false
  end.

(** [df[col]] as the list of its cells, top row first. *)
Definition column_at (df : DataFrame) (i : nat) : list cell :=
  map (fun r => nth i r CNaN) (rows df).

Definition dtype_at (df : DataFrame) (i : nat) : dtype :=
  snd (nth i (columns df) (EmptyString, DObject)).

Definition isna (c : cell) : bool :=
  match c with
  | CNaN => true
  | _ => false
  end.

(** [series.dropna()] *)
Definition dropna_cells (l : list cell) : list cell :=
  List.filter (fun c => negb (isna c)) l.

(** The numbers held by a numeric column, missing cells left out. *)
Fixpoint numbers (l : list cell) : list Q :=
  match l with
  | [] => []
  | CNum q :: l' => q :: numbers l'
  | _ :: l' => numbers l'
  end.

Definition count_true (l : list bool) : nat :=
  length (List.filter (fun b => b) l).

(** [df.empty]: no row or no column. *)
Definition df_empty (df : DataFrame) : bool :=
  (len df =? 0)%nat || (ncols df =? 0)%nat.

(** The elements of [l] at the positions where [mask] is true. *)
Fixpoint select {A : Type} (mask : list bool) (l : list A) : list A :=
  match mask, l with
  | true :: mask', x :: l' => x :: select mask' l'
  | false :: mask', _ :: l' => select mask' l'
  | _, _ => []
  end.

(** [df[mask]]: the rows where the boolean series is true. *)
Definition select_rows (df : DataFrame) (mask : list bool) : DataFrame :=
  mkDF (columns df) (select mask (rows df)).

(** [df.isna().sum().sum()] *)
Definition total_missing (df : DataFrame) : nat :=
  list_sum (map (fun r => length (List.filter isna r)) (rows df)).

(** ** src/validator.py *)

Inductive scalar : Type :=
| SNum (q : Q)
| SStr (s : string).

Record rules : Type := mkRules {
  rule_min : option scalar;
  rule_max : option scalar;
  rule_relationship : option string
}.

Inductive constraint_kind : Type :=
| min_value
| max_value
| business_rule.

Inductive severity_level : Type :=
| sev_error
| sev_warning.

Inductive violation_detail : Type :=
| Expected (op : string) (bound : scalar)
| Rule (expression : string).

Record violation : Type := mkViolation {
  v_column : string;
  v_constraint : constraint_kind;
  v_violations : nat;
  v_percentage : Q;
  v_detail : violation_detail;
  v_severity : severity_level
}.

Record validation_summary : Type := mkSummary {
  data_quality_score : Q;
  validation_passed : bool;
  total_issues : nat;
  breakdown_error : nat;
  breakdown_warning : nat
}.

Record validation_results : Type := mkResults {
  summary : validation_summary;
  constraint_violations : list violation;
  categorical_consistency : list unit
}.

(** One element of [self.df[col] < bound] (with [lt]) or of
    [self.df[col] > bound] (with [lt] flipped) once the column's dtype has
    accepted the bound: a missing cell compares false, a number or a boolean
    compares with a number, text with text, and any other pair raises
    [TypeError]. *)
Definition cell_lt (c : cell) (b : scalar) : result bool :=
  match c, b with
  | CNaN, _ => Ok false
  | CNum x, SNum y => Ok (Qltb x y)
  | CBool x, SNum y => Ok (Qltb (bool2Q x) y)
  | CStr s, SStr t => Ok (String.ltb s t)
  | _, _ => Raise TypeError
  end.

Definition cell_gt (c : cell) (b : scalar) : result bool :=
  match c, b with
  | CNaN, _ => Ok false
  | CNum x, SNum y => Ok (Qltb y x)
  | CBool x, SNum y => Ok (Qltb y (bool2Q x))
  | CStr s, SStr t => Ok (String.ltb t s)
  | _, _ => Raise TypeError
  end.

(** [self.df[col] < bound] and [self.df[col] > bound] on the whole column.
    The comparison is dispatched on the column's dtype: a numeric or boolean
    column rejects a text bound with [TypeError] whatever its cells are
    (also when every cell is missing, or when the frame has no row) and is
    compared cell by cell with a number; an object column is compared cell
    by cell with any bound. *)
Definition series_compare (compare : cell -> scalar -> result bool)
    (d : dtype) (values : list cell) (b : scalar) : result (list bool) :=
  match d, b with
  | DNumeric, SStr _ | DBool, SStr _ => Raise TypeError
  | _, _ => mapM (fun c => compare c b) values
  end.

Definition series_lt : dtype -> list cell -> scalar -> result (list bool) :=
  series_compare cell_lt.

Definition series_gt : dtype -> list cell -> scalar -> result (list bool) :=
  series_compare cell_gt.

Definition severity_eqb (a b : severity_level) : bool :=
  match a, b with
  | sev_error, sev_error | sev_warning, sev_warning => true
  | _, _ => false
  end.

Definition percentage (k n : nat) : Q := ((nat2Q k / nat2Q n) * 100)%Q.

Section DataValidator.

(** [self.df.query(expr)]: the selected sub-frame, or [None] when the
    evaluation raises. *)
Variable query : DataFrame -> string -> option DataFrame.

(** The loop state: [violations] and [total_violations_count]. *)
Definition vstate : Type := (list violation * nat)%type.

Definition check_min (df : DataFrame) (col : string) (i : nat)
    (r : rules) (st : vstate) : result vstate :=
  match rule_min r with
  | None => Ok st
  | Some b =>
      let! mask := series_lt (dtype_at df i) (column_at df i) b in
      let invalid := select_rows df mask in
      if negb (df_empty invalid) then
        Ok (fst st ++ [mkViolation col min_value (len invalid)
                         (percentage (len invalid) (len df))
                         (Expected ">=" b) sev_error],
            (snd st + len invalid)%nat)
      else Ok st
  end.

Definition check_max (df : DataFrame) (col : string) (i : nat)
    (r : rules) (st : vstate) : result vstate :=
  match rule_max r with
  | None => Ok st
  | Some b =>
      let! mask := series_gt (dtype_at df i) (column_at df i) b in
      let invalid := select_rows df mask in
      if negb (df_empty invalid) then
        Ok (fst st ++ [mkViolation col max_value (len invalid)
                         (percentage (len invalid) (len df))
                         (Expected "<=" b) sev_error],
            (snd st + len invalid)%nat)
      else Ok st
  end.

Definition check_relationship (df : DataFrame) (col : string)
    (r : rules) (st : vstate) : vstate :=
  match rule_relationship r with
  | None => st
  | Some rel =>
      match query df ("not (" ++ rel ++ ")") with
      | None => st
      | Some rel_invalid =>
          if negb (df_empty rel_invalid) then
            (fst st ++ [mkViolation col business_rule (len rel_invalid)
                          (percentage (len rel_invalid) (len df))
                          (Rule rel) sev_warning],
             (snd st + len rel_invalid)%nat)
          else st
      end
  end.

Definition check_column (df : DataFrame) (cr : string * rules)
    (st : vstate) : result vstate :=
  match index_of (fst cr) (columns df) with
  | None => Ok st
  | Some i =>
      let! st1 := check_min df (fst cr) i (snd cr) st in
      let! st2 := check_max df (fst cr) i (snd cr) st1 in
      Ok (check_relationship df (fst cr) (snd cr) st2)
  end.

Fixpoint check_all (df : DataFrame) (cs : list (string * rules))
    (st : vstate) : result vstate :=
  match cs with
  | [] => Ok st
  | cr :: cs' => let! st1 := check_column df cr st in check_all df cs' st1
  end.

(** [len(self.df) * len(self.df.columns) or 1] *)
Definition cells_or_1 (df : DataFrame) : nat :=
  if (len df * ncols df =? 0)%nat then 1%nat else (len df * ncols df)%nat.

(** [max(0, 100 - (total / cells) * 1000)], then the flat penalty. *)
Definition clamped_score (df : DataFrame) (total : nat) : Q :=
  Qmax 0 (100 - (nat2Q total / nat2Q (cells_or_1 df)) * 1000)%Q.

Definition score_of (df : DataFrame) (total : nat) : Q :=
  if (0 <? total_missing df)%nat then (clamped_score df total - 5)%Q
  else clamped_score df total.

Definition count_severity (s : severity_level) (vs : list violation) : nat :=
  length (List.filter (fun v => severity_eqb (v_severity v) s) vs).

Definition validate_all (df : DataFrame) (constraints : list (string * rules))
    : result validation_results :=
  let! st := check_all df constraints ([], 0%nat) in
  let score := score_of df (snd st) in
  Ok (mkResults
        (mkSummary score (Qle_bool 80 score) (length (fst st))
           (count_severity sev_error (fst st))
           (count_severity sev_warning (fst st)))
        (fst st) []).

End DataValidator.

(** ** Order statistics of a series *)

Fixpoint insert_sorted (x : Q) (l : list Q) : list Q :=
  match l with
  | [] => [x]
  | y :: l' => if Qle_bool x y then x :: l else y :: insert_sorted x l'
  end.

Definition sort_values (l : list Q) : list Q := fold_right insert_sorted [] l.

Definition Qsum (l : list Q) : Q := fold_right Qplus 0%Q l.

(** Linear interpolation between the two neighbours of the position
    [(n - 1) * q] in the sorted values. *)
Definition interpolate (s : list Q) (q : Q) : Q :=
  let pos := (nat2Q (length s - 1) * q)%Q in
  let lo := Z.to_nat (Qfloor pos) in
  let hi := Nat.min (S lo) (length s - 1) in
  let a := nth lo s 0%Q in
  let b := nth hi s 0%Q in
  (a + (b - a) * (pos - inject_Z (Qfloor pos)))%Q.

(** [series.quantile(q)]; [None] is NaN, the answer for a series without
    values. *)
Definition quantile (q : Q) (l : list Q) : option Q :=
  match l with
  | [] => None
  | _ => Some (interpolate (sort_values l) q)
  end.

(** [series.median()] *)
Definition median (l : list Q) : option Q :=
  match l with
  | [] => None
  | _ =>
      let s := sort_values l in
      let n := length s in
      if Nat.even n
      then Some ((nth (n / 2 - 1) s 0 + nth (n / 2) s 0) / 2)%Q
      else Some (nth (n / 2) s 0%Q)
  end.

Definition mean (l : list Q) : option Q :=
  match l with
  | [] => None
  | _ => Some (Qsum l / nat2Q (length l))%Q
  end.

Fixpoint Qmin_list (x : Q) (l : list Q) : Q :=
  match l with
  | [] => x
  | y :: l' => Qmin_list (Qmin x y) l'
  end.

Fixpoint Qmax_list (x : Q) (l : list Q) : Q :=
  match l with
  | [] => x
  | y :: l' => Qmax_list (Qmax x y) l'
  end.

Definition series_min (l : list Q) : option Q :=
  match l with
  | [] => None
  | x :: l' => Some (Qmin_list x l')
  end.

Definition series_max (l : list Q) : option Q :=
  match l with
  | [] => None
  | x :: l' => Some (Qmax_list x l')
  end.

(** ** Duplicates and distinct values *)

Section KeepFirst.

Context {A : Type} (eqb : A -> A -> bool).

(** [duplicated(keep='first')]: a row is marked when an earlier row equals
    it. *)
Fixpoint duplicated_from (seen l : list A) : list bool :=
  match l with
  | [] => []
  | x :: l' => existsb (eqb x) seen :: duplicated_from (x :: seen) l'
  end.

Fixpoint keep_first (seen l : list A) : list A :=
  match l with
  | [] => []
  | x :: l' =>
      if existsb (eqb x) seen then keep_first seen l'
      else x :: keep_first (x :: seen) l'
  end.

(** No element equals an earlier one. *)
Fixpoint distinct (l : list A) : Prop :=
  match l with
  | [] => True
  | x :: l' => Forall (fun y => eqb y x = false) l' /\ distinct l'
  end.

End KeepFirst.

(** [series.nunique()]: distinct values, the missing ones not counted. *)
Definition nunique (l : list cell) : nat :=
  length (keep_first cell_eqb [] (dropna_cells l)).

(** [df.duplicated()] *)
Definition duplicated (df : DataFrame) : list bool :=
  if df_empty df then [] else duplicated_from row_eqb [] (rows df).

(** ** src/profiler.py *)

(** A Python value that is [None], the float NaN, or a float. *)
Inductive pyfloat : Type :=
| PyNone
| PyNaN
| PyFloat (q : Q).

Definition float_of (o : option Q) : pyfloat :=
  match o with
  | Some q => PyFloat q
  | None => PyNaN
  end.

Record numeric_stats : Type := mkNumeric {
  ns_mean : pyfloat;
  ns_std : pyfloat;
  ns_min : pyfloat;
  ns_max : pyfloat;
  ns_median : pyfloat
}.

Record column_stats : Type := mkColumnStats {
  cs_dtype : dtype;
  cs_missing_count : nat;
  cs_missing_percentage : pyfloat;
  cs_unique_count : nat;
  cs_is_constant : bool;
  cs_numeric : option numeric_stats
}.

Record profile_metadata : Type := mkMetadata {
  total_rows : nat;
  total_columns : nat;
  duplicate_rows : nat;
  constant_columns : list string
}.

Record data_types : Type := mkDataTypes {
  dt_numeric : list string;
  dt_categorical : list string;
  dt_datetime : list string;
  dt_boolean : list string
}.

Record profile : Type := mkProfile {
  metadata : profile_metadata;
  types : data_types;
  profile_columns : list (string * column_stats)
}.

Definition names_of (d : dtype) (cols : list (string * dtype)) : list string :=
  map fst (List.filter (fun c => dtype_eqb (snd c) d) cols).

Definition indexed {A : Type} (l : list A) : list (nat * A) :=
  combine (seq 0 (length l)) l.

Section DatasetProfiler.

(** The square root used by [Series.std]. *)
Variable sqrtQ : Q -> Q.

(** [series.std()], the sample standard deviation: NaN below two values. *)
Definition std (l : list Q) : option Q :=
  match l with
  | [] | [_] => None
  | _ =>
      let m := (Qsum l / nat2Q (length l))%Q in
      Some (sqrtQ (Qsum (map (fun x => (x - m) * (x - m)) l)
                    / nat2Q (length l - 1)))%Q
  end.

(** [x if not col_data.empty else None], where [col_data] is the column as
    it stands in the frame. *)
Definition unless_empty (col_data : list cell) (x : option Q) : pyfloat :=
  match col_data with
  | [] => PyNone
  | _ => float_of x
  end.

Definition profile_column (df : DataFrame) (constant_cols numeric_cols : list string)
    (ic : nat * (string * dtype)) : string * column_stats :=
  let col := fst (snd ic) in
  let col_data := column_at df (fst ic) in
  let missing := length (List.filter isna col_data) in
  (col,
   mkColumnStats (snd (snd ic)) missing
     (if (len df =? 0)%nat then PyNaN
      else PyFloat (nat2Q missing / nat2Q (len df) * 100)%Q)
     (nunique col_data)
     (existsb (String.eqb col) constant_cols)
     (if existsb (String.eqb col) numeric_cols
      then Some (mkNumeric
                   (unless_empty col_data (mean (numbers col_data)))
                   (unless_empty col_data (std (numbers col_data)))
                   (unless_empty col_data (series_min (numbers col_data)))
                   (unless_empty col_data (series_max (numbers col_data)))
                   (unless_empty col_data (median (numbers col_data))))
      else None)).

Definition generate_profile (df : DataFrame) : profile :=
  let numeric_cols := names_of DNumeric (columns df) in
  let constant_cols :=
    map (fun ic => fst (snd ic))
        (List.filter (fun ic => (nunique (column_at df (fst ic)) <=? 1)%nat)
                     (indexed (columns df))) in
  mkProfile
    (mkMetadata (len df) (ncols df) (count_true (duplicated df)) constant_cols)
    (mkDataTypes numeric_cols (names_of DObject (columns df)) []
                 (names_of DBool (columns df)))
    (map (profile_column df constant_cols numeric_cols) (indexed (columns df))).

End DatasetProfiler.

(** ** src/missing_analyzer.py *)

Inductive missing_severity : Type :=
| ms_none
| ms_info
| ms_warning
| ms_error.

Record column_finding : Type := mkFinding {
  cf_column : string;
  cf_missing_count : nat;
  cf_missing_percentage : Q;
  cf_severity : missing_severity;
  cf_dtype : dtype;
  cf_strategies : list string
}.

Record missing_results : Type := mkMissing {
  overall_missing_percentage : Q;
  complete_rows_percentage : Q;
  column_analysis : list column_finding;
  recommendations : list column_finding
}.

Definition is_numeric (d : dtype) : bool := dtype_eqb d DNumeric.

Definition classify (missing_pct warning_threshold critical_threshold : Q)
    : missing_severity :=
  if Qltb critical_threshold missing_pct then ms_error
  else if Qltb warning_threshold missing_pct then ms_warning
  else if Qltb 0 missing_pct then ms_info
  else ms_none.

Definition strategies_for (s : missing_severity) (d : dtype) : list string :=
  match s with
  | ms_none => []
  | _ =>
      (if is_numeric d
       then ["Impute with mean/median"; "Fill with constant (0)"]
       else ["Impute with mode"; "Fill with 'Unknown'"])
      ++ ["Drop rows if target variable"]
  end.

Definition analyze_column (df : DataFrame) (warning_threshold critical_threshold : Q)
    (ic : nat * (string * dtype)) : column_finding :=
  let missing_count := length (List.filter isna (column_at df (fst ic))) in
  let missing_pct :=
    if (0 <? len df)%nat then (nat2Q missing_count / nat2Q (len df))%Q else 0%Q in
  let severity := classify missing_pct warning_threshold critical_threshold in
  mkFinding (fst (snd ic)) missing_count (missing_pct * 100)%Q severity
            (snd (snd ic)) (strategies_for severity (snd (snd ic))).

Definition complete_row (r : list cell) : bool := negb (existsb isna r).

Definition analyze (df : DataFrame) (warning_threshold critical_threshold : Q)
    : missing_results :=
  let col_analysis :=
    map (analyze_column df warning_threshold critical_threshold)
        (indexed (columns df)) in
  let size := (len df * ncols df)%nat in
  let complete_rows := length (List.filter complete_row (rows df)) in
  mkMissing
    (if (0 <? size)%nat
     then (nat2Q (total_missing df) / nat2Q size * 100)%Q else 0%Q)
    (if (0 <? len df)%nat
     then (nat2Q complete_rows / nat2Q (len df) * 100)%Q else 0%Q)
    col_analysis
    (List.filter (fun c => Qltb 0 (cf_missing_percentage c)) col_analysis).

(** ** src/outlier_detector.py *)

Inductive outlier_severity : Type :=
| os_low
| os_medium
| os_high.

Record column_outliers : Type := mkOutliers {
  iqr_outliers : nat;
  zscore_outliers : nat;
  isolation_outliers : nat;
  severity : outlier_severity
}.

Record outlier_results : Type := mkOutlierResults {
  error : option string;
  per_column_summary : list (string * column_outliers);
  total_ml_outliers : nat
}.

(** The values of [series] outside
    [[q1 - multiplier * iqr, q3 + multiplier * iqr]]; a comparison with a NaN
    fence is false. *)
Definition iqr_outlier_count (multiplier : Q) (series : list Q) : nat :=
  match quantile (1 # 4) series, quantile (3 # 4) series with
  | Some q1, Some q3 =>
      let iqr := (q3 - q1)%Q in
      length (List.filter
                (fun x => Qltb x (q1 - multiplier * iqr)
                          || Qltb (q3 + multiplier * iqr) x)
                series)
  | _, _ => 0%nat
  end.

Definition fill_median (col_data : list cell) : list Q :=
  match median (numbers col_data) with
  | Some m => map (fun c => match c with CNum q => q | _ => m end) col_data
  | None => numbers col_data
  end.

Fixpoint transpose (n : nat) (cols : list (list Q)) : list (list Q) :=
  match n with
  | O => []
  | S n' => map (fun c => hd 0%Q c) cols :: transpose n' (map (@tl Q) cols)
  end.

Section OutlierDetector.

(** [(np.abs(stats.zscore(series)) > threshold).sum()] *)
Variable zscore_count : list Q -> Q -> nat.

(** [IsolationForest(contamination, random_state=42).fit_predict(rows)]
    followed by the count of [-1]; [None] when it raises. *)
Variable isolation_forest : Q -> list (list Q) -> option nat.

(** [select_dtypes(include=[np.number]).dropna(axis=1, how='all')] *)
Definition numeric_df (df : DataFrame) : list (nat * (string * dtype)) :=
  List.filter
    (fun ic => is_numeric (snd (snd ic))
               && negb (forallb isna (column_at df (fst ic))))
    (indexed (columns df)).

Definition numeric_df_empty (df : DataFrame) : bool :=
  (len df =? 0)%nat || (length (numeric_df df) =? 0)%nat.

Definition detect_column (df : DataFrame) (iqr_multiplier zscore_threshold : Q)
    (ic : nat * (string * dtype)) : option (string * column_outliers) :=
  let series := dropna_cells (column_at df (fst ic)) in
  if (nunique series <=? 1)%nat then None
  else
    let iqr_count := iqr_outlier_count iqr_multiplier (numbers series) in
    Some (fst (snd ic),
          mkOutliers iqr_count
            (zscore_count (numbers series) zscore_threshold)
            0%nat
            (if Qltb ((5 # 100) * nat2Q (len df)) (nat2Q iqr_count) then os_high
             else if (0 <? iqr_count)%nat then os_medium
             else os_low)).

Fixpoint detect_columns (df : DataFrame) (iqr_multiplier zscore_threshold : Q)
    (cols : list (nat * (string * dtype))) : list (string * column_outliers) :=
  match cols with
  | [] => []
  | ic :: cols' =>
      match detect_column df iqr_multiplier zscore_threshold ic with
      | Some entry =>
          entry :: detect_columns df iqr_multiplier zscore_threshold cols'
      | None => detect_columns df iqr_multiplier zscore_threshold cols'
      end
  end.

(** [numeric_df.loc[:, numeric_df.nunique() > 1].fillna(numeric_df.median())] *)
Definition valid_numeric_data (df : DataFrame) : list (list Q) :=
  map (fun ic => fill_median (column_at df (fst ic)))
      (List.filter (fun ic => (1 <? nunique (column_at df (fst ic)))%nat)
                   (numeric_df df)).

Definition detect_all (df : DataFrame)
    (iqr_multiplier zscore_threshold isolation_contamination : Q)
    : outlier_results :=
  if numeric_df_empty df then
    mkOutlierResults
      (Some "No numeric data available for outlier detection") [] 0%nat
  else
    let per_column :=
      detect_columns df iqr_multiplier zscore_threshold (numeric_df df) in
    let valid := valid_numeric_data df in
    let total_iso_outliers :=
      match valid with
      | [] => 0%nat
      | _ =>
          match isolation_forest isolation_contamination
                  (transpose (len df) valid) with
          | Some n => n
          | None => 0%nat
          end
      end in
    mkOutlierResults None per_column total_iso_outliers.

End OutlierDetector.

(** ** src/cleaner.py *)

(** The fields of a [DataCleaner]: the working frame and the action log. *)
Record DataCleaner : Type := mkCleaner {
  cleaner_df : DataFrame;
  history : list string
}.

(** What a method call leaves behind: the fields, whether [self.df] was bound
    to a new frame object (rather than changed in place), and the exception
    that ended the call, if any. *)
Record outcome : Type := mkOutcome {
  after : DataCleaner;
  rebound : bool;
  raised : option exn
}.

Definition returns (w : DataCleaner) : outcome := mkOutcome w false None.

Record expected_types : Type := mkExpected {
  numeric_columns : list string;
  categorical_columns : list string
}.

Fixpoint update_nth {A : Type} (i : nat) (f : A -> A) (l : list A) : list A :=
  match l, i with
  | [], _ => []
  | x :: l', O => f x :: l'
  | x :: l', S i' => x :: update_nth i' f l'
  end.

(** [df[col] = df[col].<elementwise f>], the result carrying dtype [d]. *)
Definition set_column (df : DataFrame) (i : nat) (f : cell -> cell) (d : dtype)
    : DataFrame :=
  mkDF (update_nth i (fun c => (fst c, d)) (columns df))
       (map (update_nth i f) (rows df)).

Definition filter_rows (df : DataFrame) (keep : list cell -> bool) : DataFrame :=
  mkDF (columns df) (List.filter keep (rows df)).

Definition join_comma (l : list string) : string :=
  match l with
  | [] => EmptyString
  | s :: l' => fold_left (fun acc t => (acc ++ ", " ++ t)%string) l' s
  end.

Definition cell_ltb (a b : cell) : bool :=
  match a, b with
  | CNum x, CNum y => Qltb x y
  | CStr s, CStr t => String.ltb s t
  | CBool x, CBool y => negb x && y
  | _, _ => false
  end.

Definition occurrences (c : cell) (l : list cell) : nat :=
  length (List.filter (cell_eqb c) l).

(** [series.mode()]: the most frequent values, missing ones left out, the
    smallest first; [mode()[0]] is its head. *)
Definition mode_head (col_data : list cell) : option cell :=
  let vals := dropna_cells col_data in
  let uniq := keep_first cell_eqb [] vals in
  let best := fold_right Nat.max 0%nat (map (fun c => occurrences c vals) uniq) in
  match List.filter (fun c => (occurrences c vals =? best)%nat) uniq with
  | [] => None
  | c :: cs => Some (fold_left (fun m x => if cell_ltb x m then x else m) cs c)
  end.

Definition fillna (fill : cell) (c : cell) : cell :=
  match c with
  | CNaN => fill
  | _ => c
  end.

(** The fences [q1 - 1.5 * iqr] and [q3 + 1.5 * iqr] of a numeric column;
    [None] when the quantiles are NaN. *)
Definition fences (series : list Q) : option (Q * Q) :=
  match quantile (1 # 4) series, quantile (3 # 4) series with
  | Some q1, Some q3 =>
      let iqr := (q3 - q1)%Q in
      Some ((q1 - (15 # 10) * iqr)%Q, (q3 + (15 # 10) * iqr)%Q)
  | _, _ => None
  end.

(** [series.clip(lower, upper)] on one cell. *)
Definition clip_cell (lower upper : Q) (c : cell) : cell :=
  match c with
  | CNum x =>
      CNum (if Qltb upper x then upper else if Qltb x lower then lower else x)
  | _ => c
  end.

(** [(df[col] >= lower) & (df[col] <= upper)] on one cell. *)
Definition within (f : option (Q * Q)) (c : cell) : bool :=
  match f, c with
  | Some (lower, upper), CNum x => Qle_bool lower x && Qle_bool x upper
  | _, _ => false
  end.

Section Cleaner.

(** The parser behind [pd.to_numeric] and Python's [str] on a float. *)
Variable parse_number : string -> option Q.
Variable str_of_number : Q -> string.

Definition py_str (c : cell) : string :=
  match c with
  | CNum q => str_of_number q
  | CStr s => s
  | CBool true => "True"
  | CBool false => "False"
  | CNaN => "nan"
  end.

(** [pd.to_numeric(.., errors='coerce')] on one cell of an object column. *)
Definition to_numeric_cell (c : cell) : cell :=
  match c with
  | CStr s =>
      match parse_number s with
      | Some q => CNum q
      | None => CNaN
      end
  | CBool b => CNum (bool2Q b)
  | _ => c
  end.

(** [.astype(str).replace('nan', np.nan)] on one cell. *)
Definition astype_str_cell (c : cell) : cell :=
  if String.eqb (py_str c) "nan" then CNaN else CStr (py_str c).

Definition enforce_numeric (w : DataCleaner) (col : string) : DataCleaner :=
  match index_of col (columns (cleaner_df w)) with
  | None => w
  | Some i =>
      match dtype_at (cleaner_df w) i with
      | DObject =>
          mkCleaner (set_column (cleaner_df w) i to_numeric_cell DNumeric)
                    (history w ++ [("Enforced numeric type for " ++ col)%string])
      | _ => w
      end
  end.

Definition enforce_categorical (w : DataCleaner) (col : string) : DataCleaner :=
  match index_of col (columns (cleaner_df w)) with
  | None => w
  | Some i =>
      mkCleaner (set_column (cleaner_df w) i astype_str_cell DObject)
                (history w ++ [("Enforced categorical type for " ++ col)%string])
  end.

Definition enforce_types (e : expected_types) (w : DataCleaner) : outcome :=
  returns (fold_left enforce_categorical (categorical_columns e)
             (fold_left enforce_numeric (numeric_columns e) w)).

Definition drop_constant_columns (constant_cols : list string) (w : DataCleaner)
    : outcome :=
  match constant_cols with
  | [] => returns w
  | _ =>
      if forallb (has_column (cleaner_df w)) constant_cols then
        let mask :=
          map (fun c => negb (existsb (String.eqb (fst c)) constant_cols))
              (columns (cleaner_df w)) in
        returns
          (mkCleaner
             (mkDF (select mask (columns (cleaner_df w)))
                   (map (select mask) (rows (cleaner_df w))))
             (history w
              ++ [("Dropped constant columns: " ++ join_comma constant_cols)%string]))
      else mkOutcome w false (Some KeyError)
  end.

Definition drop_duplicate_rows (df : DataFrame) : DataFrame :=
  if df_empty df then df
  else mkDF (columns df) (keep_first row_eqb [] (rows df)).

Definition drop_duplicates (w : DataCleaner) : outcome :=
  let initial_rows := len (cleaner_df w) in
  let df' := drop_duplicate_rows (cleaner_df w) in
  let dropped := (initial_rows - len df')%nat in
  returns
    (mkCleaner df'
       (if (0 <? dropped)%nat
        then history w ++ [("Dropped " ++ pretty dropped ++ " duplicate rows")%string]
        else history w)).

Definition handle_missing_column (w : DataCleaner) (col_info : column_finding)
    : DataCleaner :=
  let col := cf_column col_info in
  let df := cleaner_df w in
  match index_of col (columns df) with
  | None => w
  | Some i =>
      match cf_severity col_info with
      | ms_error =>
          mkCleaner (filter_rows df (fun r => negb (isna (nth i r CNaN))))
                    (history w
                     ++ [("Dropped rows with missing " ++ col ++ " (High Severity)")%string])
      | _ =>
          if is_numeric (dtype_at df i) then
            let fill_value :=
              match median (numbers (column_at df i)) with
              | Some m => CNum m
              | None => CNaN
              end in
            mkCleaner (set_column df i (fillna fill_value) (dtype_at df i))
                      (history w
                       ++ [("Imputed missing " ++ col ++ " with median ("
                           ++ py_str fill_value ++ ")")%string])
          else
            let fill_value :=
              match mode_head (column_at df i) with
              | Some m => m
              | None => CStr "Unknown"
              end in
            mkCleaner (set_column df i (fillna fill_value) (dtype_at df i))
                      (history w
                       ++ [("Imputed missing " ++ col ++ " with mode ("
                           ++ py_str fill_value ++ ")")%string])
      end
  end.

Definition handle_missing_values (missing_analysis : list column_finding)
    (w : DataCleaner) : outcome :=
  returns (fold_left handle_missing_column missing_analysis w).

(** One turn of the loop of [handle_outliers]; the second component of
    [entry] is the value of [iqr_outliers] in the column's entry, when it has
    one.  [quantile] is computed on a numeric column; on a text or boolean
    column it raises [TypeError].  [self.df[col] = ...] changes the frame in
    place, [self.df = self.df[...]] binds [self.df] to a new frame. *)
Definition handle_outlier_column (method : string) (w : DataCleaner)
    (entry : string * option nat) : outcome :=
  let col := fst entry in
  let df := cleaner_df w in
  match index_of col (columns df) with
  | None => returns w
  | Some i =>
      if (default 0%nat (snd entry) =? 0)%nat then returns w
      else
        match dtype_at df i with
        | DNumeric =>
            let f := fences (numbers (column_at df i)) in
            if String.eqb method "clip" then
              returns
                (mkCleaner
                   (match f with
                    | Some (lower, upper) =>
                        set_column df i (clip_cell lower upper) DNumeric
                    | None => df
                    end)
                   (history w ++ [("Clipped outliers in " ++ col)%string]))
            else if String.eqb method "remove" then
              mkOutcome
                (mkCleaner (filter_rows df (fun r => within f (nth i r CNaN)))
                           (history w
                            ++ [("Removed rows with outliers in " ++ col)%string]))
                true None
            else returns w
        | _ => mkOutcome w false (Some TypeError)
        end
  end.

Fixpoint handle_outliers_from (outlier_summary : list (string * option nat))
    (method : string) (w : DataCleaner) (was_rebound : bool) : outcome :=
  match outlier_summary with
  | [] => mkOutcome w was_rebound None
  | entry :: rest =>
      let o := handle_outlier_column method w entry in
      match raised o with
      | Some e => mkOutcome (after o) (was_rebound || rebound o) (Some e)
      | None =>
          handle_outliers_from rest method (after o) (was_rebound || rebound o)
      end
  end.

Definition handle_outliers (outlier_summary : list (string * option nat))
    (method : string) (w : DataCleaner) : outcome :=
  handle_outliers_from outlier_summary method w false.

(** *** Objects: the frames live in a store, a cleaner holds a reference *)

Record cleaner_object : Type := mkObject {
  self_df : nat;
  self_history : list string
}.

(** [DataCleaner(df)]: [self.df = df.copy()], [self.history = []]. *)
Definition construct (frames : gmap nat DataFrame) (df : nat)
    : option (gmap nat DataFrame * cleaner_object) :=
  match frames !! df with
  | Some d =>
      let fresh_ref := fresh (dom frames) in
      Some (<[fresh_ref := d]> frames, mkObject fresh_ref [])
  | None => None
  end.

Inductive cleaning_op : Type :=
| OpEnforceTypes (e : expected_types)
| OpDropConstantColumns (constant_cols : list string)
| OpDropDuplicates
| OpHandleMissingValues (missing_analysis : list column_finding)
| OpHandleOutliers (outlier_summary : list (string * option nat))
                   (method : string).

Definition apply_op (op : cleaning_op) (w : DataCleaner) : outcome :=
  match op with
  | OpEnforceTypes e => enforce_types e w
  | OpDropConstantColumns cols => drop_constant_columns cols w
  | OpDropDuplicates => drop_duplicates w
  | OpHandleMissingValues findings => handle_missing_values findings w
  | OpHandleOutliers s m => handle_outliers s m w
  end.

(** A method call on the object: it reads the frame [self.df] refers to and
    writes the result back to it, or to a new frame when [self.df] was
    bound anew. *)
Definition call (op : cleaning_op)
    (st : gmap nat DataFrame * cleaner_object)
    : gmap nat DataFrame * cleaner_object * option exn :=
  match fst st !! self_df (snd st) with
  | None => (st, Some KeyError)
  | Some d =>
      let o := apply_op op (mkCleaner d (self_history (snd st))) in
      let target :=
        if rebound o then fresh (dom (fst st)) else self_df (snd st) in
      (<[target := cleaner_df (after o)]> (fst st),
       mkObject target (history (after o)),
       raised o)
  end.

(** A sequence of calls; it stops at the first exception. *)
Fixpoint run (ops : list cleaning_op)
    (st : gmap nat DataFrame * cleaner_object)
    : gmap nat DataFrame * cleaner_object * option exn :=
  match ops with
  | [] => (st, None)
  | op :: ops' =>
      match call op st with
      | (st', None) => run ops' st'
      | r => r
      end
  end.

End Cleaner.

(** ** The fixture of tests/conftest.py *)

Definition base_row (id age : Z) (salary : option Z) (department : string)
    (remote : bool) : list cell :=
  [CNum (inject_Z id); CNum (inject_Z age);
   match salary with Some s => CNum (inject_Z s) | None => CNaN end;
   CStr department; CBool remote].

Definition base_test_data : DataFrame :=
  mkDF [("id", DNumeric); ("age", DNumeric); ("salary", DNumeric);
        ("department", DObject); ("remote", DBool)]
       [base_row 1 20 (Some 50000%Z) "IT" true;
        base_row 2 25 (Some 52000%Z) "IT" true;
        base_row 3 30 (Some 54000%Z) "HR" false;
        base_row 4 35 (Some 56000%Z) "HR" false;
        base_row 5 40 (Some 58000%Z) "Sales" true;
        base_row 6 45 (Some 60000%Z) "Sales" false;
        base_row 7 50 (Some 62000%Z) "IT" true;
        base_row 8 55 (Some 64000%Z) "IT" false;
        base_row 9 60 (Some 66000%Z) "HR" true;
        base_row 10 150 None "IT" true].

(** A frame whose only column is numeric and entirely missing. *)
Definition all_missing_frame : DataFrame :=
  mkDF [("x", DNumeric)] [[CNaN]; [CNaN]].

(** [query] of an evaluator that rejects every expression. *)
Definition query_rejects (df : DataFrame) (expression : string)
    : option DataFrame := None.

(** ** Predicates used in the statements *)

(** A cell and a bound that [<] and [>] accept. *)
Definition comparable (c : cell) (b : scalar) : bool :=
  match c, b with
  | CNaN, _ => true
  | CNum _, SNum _ => true
  | CBool _, SNum _ => true
  | CStr _, SStr _ => true
  | _, _ => false
  end.

(** A column of dtype [d] and a bound that [<] and [>] accept: the bound of
    a numeric or boolean column is a number, and every cell of the column is
    missing or of the bound's kind. *)
Definition series_comparable (d : dtype) (values : list cell) (b : scalar)
    : Prop :=
  match d, b with
  | DNumeric, SStr _ | DBool, SStr _ => False
  | _, _ => Forall (fun c => comparable c b = true) values
  end.

(** Every [min] and [max] bound set on a column of the frame can be compared
    with that column. *)
Definition bounds_comparable (df : DataFrame) (cs : list (string * rules)) : Prop :=
  forall col r i b,
    In (col, r) cs ->
    index_of col (columns df) = Some i ->
    rule_min r = Some b \/ rule_max r = Some b ->
    series_comparable (dtype_at df i) (column_at df i) b.

(** [missing_count / total_rows if total_rows > 0 else 0] for column [i]. *)
Definition missing_fraction (df : DataFrame) (i : nat) : Q :=
  if (0 <? len df)%nat
  then (nat2Q (length (List.filter isna (column_at df i))) / nat2Q (len df))%Q
  else 0%Q.

(** The column names of a frame are pairwise different. *)
Definition unique_names (df : DataFrame) : Prop :=
  List.NoDup (map fst (columns df)).

(** The entry a finding leaves in the action log. *)
Definition logs (f : column_finding) (e : string) : Prop :=
  match cf_severity f with
  | ms_error =>
      e = ("Dropped rows with missing " ++ cf_column f ++ " (High Severity)")%string
  | _ => String.prefix ("Imputed missing " ++ cf_column f ++ " with ")%string e = true
  end.

(** A column capped to the fences computed from its own values. *)
Definition clipped (col_data : list cell) : list cell :=
  match fences (numbers col_data) with
  | Some (lower, upper) => map (clip_cell lower upper) col_data
  | None => col_data
  end.

(** The frames of [before] are still in the store of [st], unchanged, and
    the cleaner's reference is not one of them. *)
Definition preserves (before : gmap nat DataFrame)
    (st : gmap nat DataFrame * cleaner_object) : Prop :=
  (forall l x, before !! l = Some x -> fst st !! l = Some x) /\
  self_df (snd st) ∉ dom before.

(** The entries of an outlier summary that [handle_outliers] acts on. *)
Definition flagged (outlier_summary : list (string * option nat)) (col : string)
    : Prop :=
  exists n, In (col, Some n) outlier_summary /\ n <> 0%nat.

(** ** main.py: the configuration and the cleaning block of [run_audit] *)

Record config : Type := mkConfig {
  cfg_iqr_multiplier : Q;
  cfg_zscore_threshold : Q;
  cfg_isolation_contamination : Q;
  cfg_warning_threshold : Q;
  cfg_critical_threshold : Q;
  cfg_constraints : list (string * rules);
  cfg_expected_types : expected_types
}.

(** The dict [_load_config] returns without a file; the absent
    [expected_types] key reads as [{}]. *)
Definition default_config : config :=
  mkConfig (15 # 10) 3 (1 # 10) (5 # 100) (30 # 100) [] (mkExpected [] []).

(** [results['summary']['per_column_summary']] as [handle_outliers] reads
    it: each column with its [iqr_outliers]. *)
Definition summary_dict (r : outlier_results) : list (string * option nat) :=
  map (fun e => (fst e, Some (iqr_outliers (snd e)))) (per_column_summary r).

(** The next method call, made only when the one before returned. *)
Definition and_then (o : outcome) (k : DataCleaner -> outcome) : outcome :=
  match raised o with
  | Some _ => o
  | None =>
      mkOutcome (after (k (after o))) (rebound o || rebound (k (after o)))
                (raised (k (after o)))
  end.

Section RunAudit.

Variable sqrtQ : Q -> Q.
Variable zscore_count : list Q -> Q -> nat.
Variable isolation_forest : Q -> list (list Q) -> option nat.
Variable parse_number : string -> option Q.
Variable str_of_number : Q -> string.

(** The block under [if clean_data:] in [run_audit], fed with the results of
    the profiler, the missing-value analyzer and the outlier detector on the
    same frame. *)
Definition clean_data (cfg : config) (df : DataFrame) : outcome :=
  let profile := generate_profile sqrtQ df in
  let missing_analysis :=
    analyze df (cfg_warning_threshold cfg) (cfg_critical_threshold cfg) in
  let outlier_results :=
    detect_all zscore_count isolation_forest df (cfg_iqr_multiplier cfg)
      (cfg_zscore_threshold cfg) (cfg_isolation_contamination cfg) in
  and_then
    (and_then
       (and_then
          (and_then
             (enforce_types parse_number str_of_number (cfg_expected_types cfg)
                (mkCleaner df []))
             (drop_constant_columns (constant_columns (metadata profile))))
          drop_duplicates)
       (handle_missing_values str_of_number (column_analysis missing_analysis)))
    (handle_outliers (summary_dict outlier_results) "clip").

End RunAudit.

(** ** More predicates used in the statements *)

(** Every row has one cell per column. *)
Definition well_formed (df : DataFrame) : Prop :=
  Forall (fun r => length r = ncols df) (rows df).

(** The tiers of missingness, in increasing order. *)
Definition severity_rank (s : missing_severity) : nat :=
  match s with
  | ms_none => 0
  | ms_info => 1
  | ms_warning => 2
  | ms_error => 3
  end.

(** A column without a missing cell. *)
Definition complete_column (df : DataFrame) (i : nat) : Prop :=
  Forall (fun c => isna c = false) (column_at df i).

Definition sum_violations (vs : list violation) : nat :=
  list_sum (map v_violations vs).

(** What every violation record satisfies. *)
Definition sound_record (df : DataFrame) (v : violation) : Prop :=
  (1 <= v_violations v)%nat /\
  has_column df (v_column v) = true /\
  (v_constraint v = business_rule <-> v_severity v = sev_warning) /\
  (v_constraint v <> business_rule ->
   (v_violations v <= len df)%nat /\ (0 < v_percentage v <= 100)%Q).

(** The loop state of [validate_all] holds sound records and their total. *)
Definition vstate_sound (df : DataFrame) (st : vstate) : Prop :=
  Forall (sound_record df) (fst st) /\ snd st = sum_violations (fst st).


(** The positions a list of names reaches in a frame. *)
Definition reaches (cols : list string) (df : DataFrame) (i : nat) : Prop :=
  exists c, In c cols /\ index_of c (columns df) = Some i.



(** * Properties *)

(** ** Arithmetic helpers *)

Lemma Qltb_lt (x y : Q) : Qltb x y = true <-> (x < y)%Q.
Proof.
  unfold Qltb. rewrite negb_true_iff. split.
  - intros H. apply Qnot_le_lt. intros Hle.
    apply Qle_bool_iff in Hle. congruence.
  - intros H. destruct (Qle_bool y x) eqn:E; [|reflexivity].
    apply Qle_bool_iff in E. lra.
Qed.

Lemma Qltb_ge (x y : Q) : Qltb x y = false <-> (y <= x)%Q.
Proof.
  unfold Qltb. rewrite negb_false_iff. apply Qle_bool_iff.
Qed.

Lemma nat2Q_nonneg (n : nat) : (0 <= nat2Q n)%Q.
Proof.
  unfold nat2Q, Qle. simpl. lia.
Qed.

Lemma nat2Q_pos (n : nat) : (0 < n)%nat -> (0 < nat2Q n)%Q.
Proof.
  intros H. unfold nat2Q, Qlt. simpl. lia.
Qed.

(** ** The validator *)

Lemma cells_or_1_pos (df : DataFrame) : (0 < cells_or_1 df)%nat.
Proof.
  unfold cells_or_1. destruct (len df * ncols df =? 0)%nat eqn:E.
  - lia.
  - apply Nat.eqb_neq in E. lia.
Qed.

Lemma clamped_score_range (df : DataFrame) (total : nat) :
  (0 <= clamped_score df total <= 100)%Q.
Proof.
  unfold clamped_score.
  assert (Hr : (0 <= nat2Q total / nat2Q (cells_or_1 df))%Q).
  { apply Qle_shift_div_l.
    - apply nat2Q_pos, cells_or_1_pos.
    - rewrite Qmult_0_l. apply nat2Q_nonneg. }
  split.
  - apply Q.le_max_l.
  - apply Q.max_lub; lra.
Qed.

(** The score never exceeds 100 and never falls below -5; without a missing
    cell it stays at or above 0. *)
Lemma score_of_range (df : DataFrame) (total : nat) :
  (-5 <= score_of df total <= 100)%Q /\
  (total_missing df = 0%nat -> (0 <= score_of df total)%Q).
Proof.
  pose proof (clamped_score_range df total) as [H0 H100].
  unfold score_of. split.
  - destruct (0 <? total_missing df)%nat; lra.
  - intros Hm. rewrite Hm. simpl. exact H0.
Qed.

Lemma validate_all_passed (query : DataFrame -> string -> option DataFrame)
    (df : DataFrame) (cs : list (string * rules)) (r : validation_results) :
  validate_all query df cs = Ok r ->
  (validation_passed (summary r) = true
   <-> (80 <= data_quality_score (summary r))%Q) /\
  (-5 <= data_quality_score (summary r) <= 100)%Q.
Proof.
  unfold validate_all. destruct (check_all query df cs ([], 0%nat)) as [st|e];
    simpl; [|discriminate].
  intros [= <-]. simpl. split.
  - apply Qle_bool_iff.
  - apply score_of_range.
Qed.

(** C1, evaluated at the failing input: on the test fixture, whose [salary]
    column has a missing cell, the constraint [age <= 40] is broken by 5 of
    the 50 cells; the score is clamped to 0 and the flat penalty for missing
    data then takes it to -5, below the interval [0, 100]. *)
Theorem validate_all_score_below_zero
    (query : DataFrame -> string -> option DataFrame) :
  exists r,
    validate_all query base_test_data
      [("age"%string, mkRules None (Some (SNum 40)) None)] = Ok r /\
    (data_quality_score (summary r) == -5)%Q /\
    ~ (0 <= data_quality_score (summary r))%Q /\
    validation_passed (summary r) = false.
Proof.
  eexists. split; [vm_compute; reflexivity|]. simpl.
  split; [reflexivity|]. split; [|reflexivity].
  intros H. vm_compute in H. apply H. reflexivity.
Qed.

Lemma check_all_app (query : DataFrame -> string -> option DataFrame)
    (df : DataFrame) (cs1 cs2 : list (string * rules)) (st : vstate) :
  check_all query df (cs1 ++ cs2) st
  = bind (check_all query df cs1 st) (check_all query df cs2).
Proof.
  revert st. induction cs1 as [|cr cs1 IH]; intros st; simpl.
  - reflexivity.
  - destruct (check_column query df cr st) as [st1|e]; simpl.
    + apply IH.
    + reflexivity.
Qed.

Lemma mapM_total {A B : Type} (f : A -> result B) (l : list A) :
  Forall (fun a => exists b, f a = Ok b) l -> exists bs, mapM f l = Ok bs.
Proof.
  induction 1 as [|a l [b Hb] _ [bs Hbs]]; simpl.
  - eexists. reflexivity.
  - rewrite Hb. simpl. rewrite Hbs. simpl. eexists. reflexivity.
Qed.

Lemma mapM_returns {A B : Type} (f : A -> result B) (l : list A) (bs : list B) :
  mapM f l = Ok bs -> Forall (fun a => exists b, f a = Ok b) l.
Proof.
  revert bs. induction l as [|a l IH]; intros bs H; simpl in H.
  - constructor.
  - destruct (f a) as [b|e] eqn:E; simpl in H; [|discriminate H].
    destruct (mapM f l) as [bs'|e] eqn:E'; simpl in H; [|discriminate H].
    constructor; [exists b; exact E|apply (IH bs' eq_refl)].
Qed.

Lemma mapM_raises {A B : Type} (f : A -> result B) (l : list A) (e : exn) :
  mapM f l = Raise e -> exists a, In a l /\ f a = Raise e.
Proof.
  induction l as [|a l IH]; intros H; simpl in H.
  - discriminate H.
  - destruct (f a) as [b|e'] eqn:E; simpl in H.
    + destruct (mapM f l) as [bs'|e'] eqn:E'; simpl in H; [discriminate H|].
      destruct (IH H) as [a' [Hin Ha']]. exists a'. split; [right; exact Hin|exact Ha'].
    + exists a. split; [left; reflexivity|]. injection H as <-. exact E.
Qed.

Lemma cell_lt_returns (c : cell) (b : scalar) :
  (exists x, cell_lt c b = Ok x) <-> comparable c b = true.
Proof.
  destruct c, b; simpl; split;
    try (intros [x H]; first [reflexivity|discriminate H]);
    intros H; first [discriminate H|eexists; reflexivity].
Qed.

Lemma cell_gt_returns (c : cell) (b : scalar) :
  (exists x, cell_gt c b = Ok x) <-> comparable c b = true.
Proof.
  destruct c, b; simpl; split;
    try (intros [x H]; first [reflexivity|discriminate H]);
    intros H; first [discriminate H|eexists; reflexivity].
Qed.

Lemma cell_lt_raises (c : cell) (b : scalar) (e : exn) :
  cell_lt c b = Raise e -> e = TypeError.
Proof.
  destruct c, b; simpl; intros H;
    first [discriminate H|injection H as <-; reflexivity].
Qed.

Lemma cell_gt_raises (c : cell) (b : scalar) (e : exn) :
  cell_gt c b = Raise e -> e = TypeError.
Proof.
  destruct c, b; simpl; intros H;
    first [discriminate H|injection H as <-; reflexivity].
Qed.

Lemma series_compare_returns (compare : cell -> scalar -> result bool)
    (d : dtype) (values : list cell) (b : scalar) :
  (forall c, (exists x, compare c b = Ok x) <-> comparable c b = true) ->
  (exists m, series_compare compare d values b = Ok m)
  <-> series_comparable d values b.
Proof.
  intros Hc.
  assert (Hm : (exists m, mapM (fun c => compare c b) values = Ok m)
               <-> Forall (fun c => comparable c b = true) values).
  { split.
    - intros [m Hm]. eapply List.Forall_impl; [|exact (mapM_returns _ _ _ Hm)].
      intros c. apply Hc.
    - intros H. apply mapM_total. eapply List.Forall_impl; [|exact H].
      intros c. apply Hc. }
  unfold series_compare, series_comparable.
  destruct d, b; try exact Hm;
    (split; [intros [m H]; discriminate H|intros []]).
Qed.

Lemma series_compare_raises (compare : cell -> scalar -> result bool)
    (d : dtype) (values : list cell) (b : scalar) (e : exn) :
  (forall c e', compare c b = Raise e' -> e' = TypeError) ->
  series_compare compare d values b = Raise e -> e = TypeError.
Proof.
  intros Hc. unfold series_compare.
  assert (Hm : mapM (fun c => compare c b) values = Raise e -> e = TypeError).
  { intros H. destruct (mapM_raises _ _ _ H) as [c [_ Hcell]].
    exact (Hc c e Hcell). }
  destruct d, b; try exact Hm; intros H; injection H as <-; reflexivity.
Qed.

Lemma check_min_returns (df : DataFrame) (col : string) (i : nat) (r : rules)
    (st : vstate) :
  (exists st', check_min df col i r st = Ok st')
  <-> (forall b, rule_min r = Some b ->
                 series_comparable (dtype_at df i) (column_at df i) b).
Proof.
  unfold check_min. destruct (rule_min r) as [b|].
  - split.
    + intros [st' H] b' [= <-].
      apply (series_compare_returns cell_lt);
        [intros c; apply cell_lt_returns|].
      fold series_lt.
      destruct (series_lt (dtype_at df i) (column_at df i) b) as [m|e];
        [exists m; reflexivity|discriminate H].
    + intros H.
      destruct (proj2 (series_compare_returns cell_lt (dtype_at df i)
                         (column_at df i) b (fun c => cell_lt_returns c b))
                  (H b eq_refl)) as [m Hm].
      fold series_lt in Hm. rewrite Hm. simpl.
      destruct (df_empty (select_rows df m)); eexists; reflexivity.
  - split; [intros _ b H; discriminate H|intros _; eexists; reflexivity].
Qed.

Lemma check_max_returns (df : DataFrame) (col : string) (i : nat) (r : rules)
    (st : vstate) :
  (exists st', check_max df col i r st = Ok st')
  <-> (forall b, rule_max r = Some b ->
                 series_comparable (dtype_at df i) (column_at df i) b).
Proof.
  unfold check_max. destruct (rule_max r) as [b|].
  - split.
    + intros [st' H] b' [= <-].
      apply (series_compare_returns cell_gt);
        [intros c; apply cell_gt_returns|].
      fold series_gt.
      destruct (series_gt (dtype_at df i) (column_at df i) b) as [m|e];
        [exists m; reflexivity|discriminate H].
    + intros H.
      destruct (proj2 (series_compare_returns cell_gt (dtype_at df i)
                         (column_at df i) b (fun c => cell_gt_returns c b))
                  (H b eq_refl)) as [m Hm].
      fold series_gt in Hm. rewrite Hm. simpl.
      destruct (df_empty (select_rows df m)); eexists; reflexivity.
  - split; [intros _ b H; discriminate H|intros _; eexists; reflexivity].
Qed.

Lemma check_min_raises (df : DataFrame) (col : string) (i : nat) (r : rules)
    (st : vstate) (e : exn) :
  check_min df col i r st = Raise e -> e = TypeError.
Proof.
  unfold check_min. destruct (rule_min r) as [b|]; [|discriminate].
  destruct (series_lt (dtype_at df i) (column_at df i) b) as [m|e'] eqn:E.
  - simpl. destruct (df_empty (select_rows df m)); discriminate.
  - simpl. intros [= <-].
    exact (series_compare_raises cell_lt _ _ b e'
             (fun c => cell_lt_raises c b) E).
Qed.

Lemma check_max_raises (df : DataFrame) (col : string) (i : nat) (r : rules)
    (st : vstate) (e : exn) :
  check_max df col i r st = Raise e -> e = TypeError.
Proof.
  unfold check_max. destruct (rule_max r) as [b|]; [|discriminate].
  destruct (series_gt (dtype_at df i) (column_at df i) b) as [m|e'] eqn:E.
  - simpl. destruct (df_empty (select_rows df m)); discriminate.
  - simpl. intros [= <-].
    exact (series_compare_raises cell_gt _ _ b e'
             (fun c => cell_gt_raises c b) E).
Qed.

Lemma check_column_returns (query : DataFrame -> string -> option DataFrame)
    (df : DataFrame) (cr : string * rules) (st : vstate) :
  (exists st', check_column query df cr st = Ok st')
  <-> (forall i b, index_of (fst cr) (columns df) = Some i ->
                   rule_min (snd cr) = Some b \/ rule_max (snd cr) = Some b ->
                   series_comparable (dtype_at df i) (column_at df i) b).
Proof.
  unfold check_column.
  destruct (index_of (fst cr) (columns df)) as [i|].
  - split.
    + intros [st' H] i' b [= <-] Hb.
      destruct (check_min df (fst cr) i (snd cr) st) as [st1|e] eqn:Emin;
        [|discriminate H].
      simpl in H.
      destruct (check_max df (fst cr) i (snd cr) st1) as [st2|e] eqn:Emax;
        [|discriminate H].
      destruct Hb as [Hb|Hb].
      * exact (proj1 (check_min_returns df (fst cr) i (snd cr) st)
                 (ex_intro _ st1 Emin) b Hb).
      * exact (proj1 (check_max_returns df (fst cr) i (snd cr) st1)
                 (ex_intro _ st2 Emax) b Hb).
    + intros H.
      destruct (proj2 (check_min_returns df (fst cr) i (snd cr) st))
        as [st1 ->].
      { intros b Hb. apply (H i b eq_refl). left. exact Hb. }
      simpl.
      destruct (proj2 (check_max_returns df (fst cr) i (snd cr) st1))
        as [st2 ->].
      { intros b Hb. apply (H i b eq_refl). right. exact Hb. }
      simpl. eexists. reflexivity.
  - split; [intros _ i b H; discriminate H|intros _; eexists; reflexivity].
Qed.

Lemma check_column_raises (query : DataFrame -> string -> option DataFrame)
    (df : DataFrame) (cr : string * rules) (st : vstate) (e : exn) :
  check_column query df cr st = Raise e -> e = TypeError.
Proof.
  unfold check_column.
  destruct (index_of (fst cr) (columns df)) as [i|]; [|discriminate].
  destruct (check_min df (fst cr) i (snd cr) st) as [st1|e1] eqn:Emin; simpl.
  - destruct (check_max df (fst cr) i (snd cr) st1) as [st2|e2] eqn:Emax;
      simpl; [discriminate|].
    intros [= <-]. exact (check_max_raises _ _ _ _ _ _ Emax).
  - intros [= <-]. exact (check_min_raises _ _ _ _ _ _ Emin).
Qed.

Lemma check_all_returns (query : DataFrame -> string -> option DataFrame)
    (df : DataFrame) (cs : list (string * rules)) (st : vstate) :
  (exists st', check_all query df cs st = Ok st') <-> bounds_comparable df cs.
Proof.
  revert st. induction cs as [|cr cs IH]; intros st; simpl.
  - split; [intros _ col r i b []|intros _; eexists; reflexivity].
  - split.
    + intros [st' H].
      destruct (check_column query df cr st) as [st1|e] eqn:E;
        [|discriminate H].
      simpl in H.
      intros col r i b [->|Hin] Hi Hb.
      * exact (proj1 (check_column_returns query df (col, r) st)
                 (ex_intro _ st1 E) i b Hi Hb).
      * exact (proj1 (IH st1) (ex_intro _ st' H) col r i b Hin Hi Hb).
    + intros H.
      destruct (proj2 (check_column_returns query df cr st)) as [st1 ->].
      { intros i b Hi Hb. apply (H (fst cr) (snd cr) i b); auto.
        left. destruct cr; reflexivity. }
      simpl. apply IH. intros col r i b Hin. apply H. right. exact Hin.
Qed.

Lemma check_all_raises (query : DataFrame -> string -> option DataFrame)
    (df : DataFrame) (cs : list (string * rules)) (st : vstate) (e : exn) :
  check_all query df cs st = Raise e -> e = TypeError.
Proof.
  revert st. induction cs as [|cr cs IH]; intros st; simpl; [discriminate|].
  destruct (check_column query df cr st) as [st1|e1] eqn:E; simpl.
  - apply IH.
  - intros [= <-]. exact (check_column_raises _ _ _ _ _ E).
Qed.

Lemma check_column_absent (query : DataFrame -> string -> option DataFrame)
    (df : DataFrame) (col : string) (r : rules) (st : vstate) :
  index_of col (columns df) = None -> check_column query df (col, r) st = Ok st.
Proof.
  intros H. unfold check_column. simpl. rewrite H. reflexivity.
Qed.

Lemma check_column_malformed (query : DataFrame -> string -> option DataFrame)
    (df : DataFrame) (col rel : string) (mn mx : option scalar) (st : vstate) :
  query df ("not (" ++ rel ++ ")")%string = None ->
  check_column query df (col, mkRules mn mx (Some rel)) st
  = check_column query df (col, mkRules mn mx None) st.
Proof.
  intros H. unfold check_column. cbn [fst snd].
  destruct (index_of col (columns df)) as [i|]; [|reflexivity].
  change (check_min df col i (mkRules mn mx (Some rel)) st)
    with (check_min df col i (mkRules mn mx None) st).
  destruct (check_min df col i (mkRules mn mx None) st) as [st1|e];
    [|reflexivity].
  cbn [bind].
  change (check_max df col i (mkRules mn mx (Some rel)) st1)
    with (check_max df col i (mkRules mn mx None) st1).
  destruct (check_max df col i (mkRules mn mx None) st1) as [st2|e];
    [|reflexivity].
  cbn [bind]. unfold check_relationship. cbn [rule_relationship].
  rewrite H. reflexivity.
Qed.

(** C4, as the code has it: [validate_all] returns a result exactly when
    every [min] and [max] bound set on a column of the frame can be compared
    with that column (a number with a numeric or boolean column; with an
    object column, a bound of the kind of each cell that is not missing),
    and raises [TypeError] exactly when some bound cannot; a constraint on a
    column the frame does not have is skipped, leaving the outcome what it
    is without that constraint; and a relationship whose evaluation raises
    is skipped, leaving the outcome what it is without that relationship,
    the other rules being evaluated all the same. *)
Theorem validate_all_skips_and_returns
    (query : DataFrame -> string -> option DataFrame)
    (df : DataFrame) (cs : list (string * rules)) :
  (bounds_comparable df cs <-> exists r, validate_all query df cs = Ok r) /\
  (~ bounds_comparable df cs <-> validate_all query df cs = Raise TypeError) /\
  (forall cs1 cs2 col r,
      index_of col (columns df) = None ->
      validate_all query df (cs1 ++ (col, r) :: cs2)
      = validate_all query df (cs1 ++ cs2)) /\
  (forall cs1 cs2 col mn mx rel,
      query df ("not (" ++ rel ++ ")")%string = None ->
      validate_all query df (cs1 ++ (col, mkRules mn mx (Some rel)) :: cs2)
      = validate_all query df (cs1 ++ (col, mkRules mn mx None) :: cs2)).
Proof.
  assert (Hret : (exists r, validate_all query df cs = Ok r)
                 <-> bounds_comparable df cs).
  { unfold validate_all. split.
    - intros [r H].
      apply (proj1 (check_all_returns query df cs ([], 0%nat))).
      destruct (check_all query df cs ([], 0%nat)) as [st|e];
        [exists st; reflexivity|discriminate H].
    - intros H.
      destruct (proj2 (check_all_returns query df cs ([], 0%nat)) H)
        as [st ->].
      simpl. eexists. reflexivity. }
  split; [split; apply Hret|]. split; [|split].
  - split.
    + intros Hn. unfold validate_all.
      destruct (check_all query df cs ([], 0%nat)) as [st|e] eqn:E.
      * exfalso. apply Hn.
        apply (proj1 (check_all_returns query df cs ([], 0%nat))).
        exists st. exact E.
      * simpl. rewrite (check_all_raises _ _ _ _ _ E). reflexivity.
    + intros H Hc. destruct (proj2 Hret Hc) as [r Hr].
      rewrite Hr in H. discriminate H.
  - intros cs1 cs2 col r Hcol. unfold validate_all.
    rewrite !check_all_app.
    destruct (check_all query df cs1 ([], 0%nat)) as [st|e]; simpl; [|reflexivity].
    rewrite (check_column_absent query df col r st Hcol). reflexivity.
  - intros cs1 cs2 col mn mx rel Hq. unfold validate_all.
    rewrite !check_all_app.
    destruct (check_all query df cs1 ([], 0%nat)) as [st|e]; simpl; [|reflexivity].
    rewrite (check_column_malformed query df col rel mn mx st Hq). reflexivity.
Qed.

Lemma fixture_bounds_comparable :
  bounds_comparable base_test_data
    [("age"%string, mkRules (Some (SNum 18)) (Some (SNum 100)) None);
     ("missing_column"%string, mkRules (Some (SNum 0)) None None);
     ("salary"%string, mkRules (Some (SNum 0)) None (Some "salary >="%string))].
Proof.
  intros col r i b Hin Hi Hb. simpl in Hin.
  destruct Hin as [[= <- <-]|[[= <- <-]|[[= <- <-]|[]]]];
    vm_compute in Hi; try discriminate; injection Hi as <-;
    simpl in Hb; destruct Hb as [[= <-]|Hb]; try discriminate;
    try (injection Hb as <-);
    vm_compute; repeat constructor.
Qed.

Lemma validate_all_skips_and_returns_witness :
  bounds_comparable base_test_data
    [("age"%string, mkRules (Some (SNum 18)) (Some (SNum 100)) None);
     ("missing_column"%string, mkRules (Some (SNum 0)) None None);
     ("salary"%string, mkRules (Some (SNum 0)) None (Some "salary >="%string))] /\
  exists r,
    validate_all query_rejects base_test_data
      [("age"%string, mkRules (Some (SNum 18)) (Some (SNum 100)) None);
       ("missing_column"%string, mkRules (Some (SNum 0)) None None);
       ("salary"%string, mkRules (Some (SNum 0)) None (Some "salary >="%string))]
    = Ok r.
Proof.
  split; [exact fixture_bounds_comparable|].
  exact (proj1 (proj1 (validate_all_skips_and_returns query_rejects
                         base_test_data _))
           fixture_bounds_comparable).
Defined.

(** A text bound on a numeric column is rejected by the column's dtype, also
    when every cell of the column is missing and when the frame has no
    row. *)
Lemma validate_all_text_bound_on_numbers :
  validate_all query_rejects all_missing_frame
    [("x"%string, mkRules (Some (SStr "a")) None None)]
  = Raise TypeError /\
  validate_all query_rejects (mkDF [("x"%string, DNumeric)] [])
    [("x"%string, mkRules None (Some (SStr "a")) None)]
  = Raise TypeError.
Proof. split; vm_compute; reflexivity. Qed.

(** C4, as stated, fails: a numeric [min] bound on the text column
    [department] makes [validate_all] raise [TypeError]. *)
Lemma validate_all_raises_on_text_column :
  validate_all query_rejects base_test_data
    [("department"%string, mkRules (Some (SNum 0)) None None)]
  = Raise TypeError.
Proof. vm_compute. reflexivity. Qed.

(** ** Columns by position *)

Lemma nth_error_combine_seq {A : Type} (l : list A) (s i : nat) (x : A) :
  nth_error l i = Some x ->
  nth_error (combine (seq s (length l)) l) i = Some ((s + i)%nat, x).
Proof.
  revert s i. induction l as [|a l IH]; intros s i H.
  - destruct i; discriminate.
  - destruct i as [|i]; simpl in *.
    + injection H as ->. f_equal. f_equal. lia.
    + rewrite (IH (S s) i H). f_equal. f_equal. lia.
Qed.

Lemma nth_error_indexed {A : Type} (l : list A) (i : nat) (x : A) :
  nth_error l i = Some x -> nth_error (indexed l) i = Some (i, x).
Proof.
  intros H. unfold indexed. rewrite (nth_error_combine_seq l 0 i x H).
  reflexivity.
Qed.

Lemma In_combine_seq {A : Type} (l : list A) (s i : nat) (x : A) :
  In (i, x) (combine (seq s (length l)) l) ->
  (s <= i)%nat /\ nth_error l (i - s) = Some x.
Proof.
  revert s. induction l as [|a l IH]; intros s H; simpl in H.
  - contradiction.
  - destruct H as [[= <- <-]|H].
    + split; [lia|]. replace (s - s)%nat with 0%nat by lia. reflexivity.
    + destruct (IH (S s) H) as [Hle Hn]. split; [lia|].
      replace (i - s)%nat with (S (i - S s)) by lia. exact Hn.
Qed.

Lemma In_indexed {A : Type} (l : list A) (i : nat) (x : A) :
  In (i, x) (indexed l) -> nth_error l i = Some x.
Proof.
  intros H. destruct (In_combine_seq l 0 i x H) as [_ Hn].
  rewrite Nat.sub_0_r in Hn. exact Hn.
Qed.

(** ** The profiler *)

(** The guard of the numeric statistics only sees a frame without rows. *)
Lemma unless_empty_no_rows (x : option Q) : unless_empty [] x = PyNone.
Proof. reflexivity. Qed.

Lemma numbers_all_missing (col_data : list cell) :
  forallb isna col_data = true -> numbers col_data = [].
Proof.
  induction col_data as [|c l IH]; simpl; [reflexivity|].
  destruct c; simpl; try discriminate. exact IH.
Qed.

(** With at least one row, a column that holds only missing cells gets NaN
    for each statistic. *)
Lemma statistics_all_missing (sqrtQ : Q -> Q) (c : cell) (col_data : list cell) :
  forallb isna (c :: col_data) = true ->
  unless_empty (c :: col_data) (mean (numbers (c :: col_data))) = PyNaN /\
  unless_empty (c :: col_data) (std sqrtQ (numbers (c :: col_data))) = PyNaN /\
  unless_empty (c :: col_data) (series_min (numbers (c :: col_data))) = PyNaN /\
  unless_empty (c :: col_data) (series_max (numbers (c :: col_data))) = PyNaN /\
  unless_empty (c :: col_data) (median (numbers (c :: col_data))) = PyNaN.
Proof.
  intros H. rewrite (numbers_all_missing _ H). repeat split; reflexivity.
Qed.

(** C2, evaluated at the failing input: for a frame of two rows whose one
    numeric column is missing in both, the profiler reports the float NaN as
    mean, std, min, max and median, not [None]. *)
Theorem generate_profile_all_missing_is_nan (sqrtQ : Q -> Q) :
  exists st,
    profile_columns (generate_profile sqrtQ all_missing_frame)
    = [("x"%string, st)] /\
    cs_missing_count st = 2%nat /\
    cs_numeric st = Some (mkNumeric PyNaN PyNaN PyNaN PyNaN PyNaN) /\
    cs_numeric st <> Some (mkNumeric PyNone PyNone PyNone PyNone PyNone).
Proof.
  eexists. split; [reflexivity|]. simpl. split; [reflexivity|].
  split; [reflexivity|]. discriminate.
Qed.

(** ** The missing-value analyzer *)

Lemma classify_spec (pct warning_threshold critical_threshold : Q) :
  let s := classify pct warning_threshold critical_threshold in
  (s = ms_error <-> (critical_threshold < pct)%Q) /\
  (s = ms_warning
   <-> ~ (critical_threshold < pct)%Q /\ (warning_threshold < pct)%Q) /\
  (s = ms_info
   <-> ~ (critical_threshold < pct)%Q /\ ~ (warning_threshold < pct)%Q
       /\ (0 < pct)%Q) /\
  (s = ms_none
   <-> ~ (critical_threshold < pct)%Q /\ ~ (warning_threshold < pct)%Q
       /\ ~ (0 < pct)%Q).
Proof.
  unfold classify.
  destruct (Qltb critical_threshold pct) eqn:Ec;
    [apply Qltb_lt in Ec | apply Qltb_ge in Ec].
  { repeat split; intros; try discriminate; try tauto. }
  destruct (Qltb warning_threshold pct) eqn:Ew;
    [apply Qltb_lt in Ew | apply Qltb_ge in Ew].
  { repeat split; intros; try discriminate; try tauto; try lra. }
  destruct (Qltb 0 pct) eqn:E0;
    [apply Qltb_lt in E0 | apply Qltb_ge in E0].
  { repeat split; intros; try discriminate; try tauto; try lra. }
  repeat split; intros; try discriminate; try tauto; try lra.
Qed.

(** C5: for every frame and thresholds with
    [warning_threshold < critical_threshold], the finding of each column
    carries the column's missing count and percentage, and its severity is
    [error] iff the missing fraction exceeds the critical threshold, else
    [warning] iff it exceeds the warning threshold, else [info] iff it is
    positive, else [none]; on the fixture, under the default thresholds,
    [salary] has count 1, percentage 10 and severity [warning]. *)
Theorem analyze_severity (df : DataFrame) (warning_threshold critical_threshold : Q) :
  (warning_threshold < critical_threshold)%Q ->
  (forall i name d,
      nth_error (columns df) i = Some (name, d) ->
      exists f,
        nth_error (column_analysis (analyze df warning_threshold critical_threshold)) i
        = Some f /\
        cf_column f = name /\
        cf_missing_count f = length (List.filter isna (column_at df i)) /\
        cf_missing_percentage f = (missing_fraction df i * 100)%Q /\
        (cf_severity f = ms_error
         <-> (critical_threshold < missing_fraction df i)%Q) /\
        (cf_severity f = ms_warning
         <-> ~ (critical_threshold < missing_fraction df i)%Q
             /\ (warning_threshold < missing_fraction df i)%Q) /\
        (cf_severity f = ms_info
         <-> ~ (critical_threshold < missing_fraction df i)%Q
             /\ ~ (warning_threshold < missing_fraction df i)%Q
             /\ (0 < missing_fraction df i)%Q) /\
        (cf_severity f = ms_none
         <-> ~ (critical_threshold < missing_fraction df i)%Q
             /\ ~ (warning_threshold < missing_fraction df i)%Q
             /\ ~ (0 < missing_fraction df i)%Q)) /\
  (exists f,
      nth_error (column_analysis (analyze base_test_data (5 # 100) (30 # 100))) 2
      = Some f /\
      cf_column f = "salary"%string /\
      cf_missing_count f = 1%nat /\
      (cf_missing_percentage f == 10)%Q /\
      cf_severity f = ms_warning).
Proof.
  intros _. split.
  - intros i name d Hi.
    exists (analyze_column df warning_threshold critical_threshold (i, (name, d))).
    split.
    { unfold analyze. cbn [column_analysis].
      rewrite nth_error_map, (nth_error_indexed _ _ _ Hi). reflexivity. }
    split; [reflexivity|]. split; [reflexivity|]. split; [reflexivity|].
    apply classify_spec.
  - eexists. split; [vm_compute; reflexivity|].
    repeat split.
Qed.

Lemma analyze_severity_witness :
  (5 # 100 < 30 # 100)%Q /\
  exists f,
    nth_error (column_analysis (analyze base_test_data (5 # 100) (30 # 100))) 2
    = Some f /\
    cf_column f = "salary"%string /\
    cf_missing_count f = 1%nat /\
    (cf_missing_percentage f == 10)%Q /\
    cf_severity f = ms_warning.
Proof.
  split; [reflexivity|].
  exact (proj2 (analyze_severity base_test_data (5 # 100) (30 # 100) eq_refl)).
Defined.

(** ** Keeping first occurrences *)

Section KeepFirstFacts.

Context {A : Type} (eqb : A -> A -> bool).

Lemma keep_first_distinct (seen l : list A) :
  Forall (fun x => existsb (eqb x) seen = false) (keep_first eqb seen l) /\
  distinct eqb (keep_first eqb seen l).
Proof.
  revert seen. induction l as [|x l IH]; intros seen; simpl.
  - split; constructor.
  - destruct (existsb (eqb x) seen) eqn:E.
    + apply IH.
    + destruct (IH (x :: seen)) as [Hseen Hd]. simpl in Hseen.
      split; [constructor; [exact E|]|split; [|exact Hd]].
      * eapply List.Forall_impl; [|exact Hseen].
        intros y Hy. apply orb_false_iff in Hy. tauto.
      * eapply List.Forall_impl; [|exact Hseen].
        intros y Hy. apply orb_false_iff in Hy. tauto.
Qed.

Lemma keep_first_fixed (seen l : list A) :
  Forall (fun x => existsb (eqb x) seen = false) l ->
  distinct eqb l ->
  keep_first eqb seen l = l.
Proof.
  revert seen. induction l as [|x l IH]; intros seen Hs Hd; simpl.
  - reflexivity.
  - inversion Hs as [|? ? Hx Hl]; subst. destruct Hd as [Hx' Hd].
    rewrite Hx. f_equal. apply IH; [|exact Hd].
    apply Forall_forall. intros y Hy. simpl.
    rewrite Forall_forall in Hx', Hl.
    rewrite (Hx' y Hy), (Hl y Hy). reflexivity.
Qed.

Lemma keep_first_idempotent (l : list A) :
  keep_first eqb [] (keep_first eqb [] l) = keep_first eqb [] l.
Proof.
  destruct (keep_first_distinct [] l) as [Hs Hd].
  apply keep_first_fixed; assumption.
Qed.

End KeepFirstFacts.

(** ** The cleaner: duplicates *)

Lemma drop_duplicate_rows_idempotent (df : DataFrame) :
  drop_duplicate_rows (drop_duplicate_rows df) = drop_duplicate_rows df.
Proof.
  unfold drop_duplicate_rows at 2 3. destruct (df_empty df) eqn:E.
  - unfold drop_duplicate_rows. rewrite E. reflexivity.
  - unfold drop_duplicate_rows.
    destruct (df_empty (mkDF (columns df) (keep_first row_eqb [] (rows df))));
      [reflexivity|].
    simpl. rewrite keep_first_idempotent. reflexivity.
Qed.

(** C9: a second [drop_duplicates] right after a first leaves the rows (and
    so the row count) as the first left them, and appends nothing to the
    action log. *)
Theorem drop_duplicates_idempotent (w : DataCleaner) :
  let once := drop_duplicates w in
  let twice := drop_duplicates (after once) in
  cleaner_df (after twice) = cleaner_df (after once) /\
  len (cleaner_df (after twice)) = len (cleaner_df (after once)) /\
  history (after twice) = history (after once) /\
  raised once = None /\ raised twice = None.
Proof.
  cbn zeta.
  assert (Hdf : cleaner_df (after (drop_duplicates (after (drop_duplicates w))))
                = cleaner_df (after (drop_duplicates w))).
  { unfold drop_duplicates. cbn [after returns cleaner_df].
    apply drop_duplicate_rows_idempotent. }
  split; [exact Hdf|]. split; [rewrite Hdf; reflexivity|].
  split; [|split; reflexivity].
  unfold drop_duplicates at 1. cbn [after returns history cleaner_df].
  change (drop_duplicate_rows (cleaner_df (after (drop_duplicates w))))
    with (cleaner_df (after (drop_duplicates (after (drop_duplicates w))))).
  rewrite Hdf, Nat.sub_diag. reflexivity.
Qed.

(** ** The cleaner: missing values *)

Lemma update_nth_same {A : Type} (f : A -> A) (l : list A) (i : nat) :
  (forall x, nth_error l i = Some x -> f x = x) -> update_nth i f l = l.
Proof.
  revert i. induction l as [|a l IH]; intros i H; [destruct i; reflexivity|].
  destruct i as [|i]; simpl.
  - rewrite (H a eq_refl). reflexivity.
  - f_equal. apply IH. intros x Hx. apply H. exact Hx.
Qed.

Lemma set_column_columns (df : DataFrame) (i : nat) (f : cell -> cell) :
  columns (set_column df i f (dtype_at df i)) = columns df.
Proof.
  unfold set_column, dtype_at. simpl. apply update_nth_same.
  intros [name d] Hx. simpl.
  rewrite (nth_error_nth _ _ _ Hx). reflexivity.
Qed.

Lemma handle_missing_column_columns (str_of_number : Q -> string)
    (w : DataCleaner) (f : column_finding) :
  columns (cleaner_df (handle_missing_column str_of_number w f))
  = columns (cleaner_df w).
Proof.
  unfold handle_missing_column.
  destruct (index_of (cf_column f) (columns (cleaner_df w))) as [i|];
    [|reflexivity].
  destruct (cf_severity f); try reflexivity;
    destruct (is_numeric (dtype_at (cleaner_df w) i)); cbn [cleaner_df];
    apply set_column_columns.
Qed.

Lemma prefix_append (a s t : string) :
  String.prefix (a ++ s)%string (a ++ t)%string = String.prefix s t.
Proof.
  induction a as [|c a IH]; simpl.
  - reflexivity.
  - destruct (Ascii.ascii_dec c c); [exact IH|contradiction].
Qed.

Lemma handle_missing_column_history (str_of_number : Q -> string)
    (w : DataCleaner) (f : column_finding) :
  if has_column (cleaner_df w) (cf_column f)
  then exists e,
      history (handle_missing_column str_of_number w f) = history w ++ [e]
      /\ logs f e
  else handle_missing_column str_of_number w f = w.
Proof.
  unfold has_column, handle_missing_column, logs.
  destruct (index_of (cf_column f) (columns (cleaner_df w))) as [i|];
    [|reflexivity].
  destruct (cf_severity f);
    try (destruct (is_numeric (dtype_at (cleaner_df w) i)));
    eexists; (split; [reflexivity|]);
    rewrite ?prefix_append; reflexivity.
Qed.

Lemma handle_missing_fold_history (str_of_number : Q -> string)
    (findings : list column_finding) (w : DataCleaner) :
  exists entries,
    history (fold_left (handle_missing_column str_of_number) findings w)
    = history w ++ entries /\
    Forall2 logs
      (List.filter (fun f => has_column (cleaner_df w) (cf_column f)) findings)
      entries.
Proof.
  revert w. induction findings as [|f fs IH]; intros w; simpl.
  - exists []. split; [symmetry; apply app_nil_r|constructor].
  - destruct (IH (handle_missing_column str_of_number w f)) as (es & Hes & Hall).
    assert (Hcols : forall g,
               has_column (cleaner_df (handle_missing_column str_of_number w f))
                          (cf_column g)
               = has_column (cleaner_df w) (cf_column g)).
    { intros g. unfold has_column.
      rewrite handle_missing_column_columns. reflexivity. }
    rewrite (filter_ext _ _ Hcols) in Hall.
    pose proof (handle_missing_column_history str_of_number w f) as Hf.
    destruct (has_column (cleaner_df w) (cf_column f)).
    + destruct Hf as (e & He & Hlog). exists (e :: es). split.
      * rewrite Hes, He, <- app_assoc. reflexivity.
      * constructor; assumption.
    + exists es. split; [|exact Hall]. rewrite Hf in Hes |- *. exact Hes.
Qed.

Lemma update_nth_fillna_same (fill : cell) (i : nat) (r : list cell) :
  isna (nth i r CNaN) = false -> update_nth i (fillna fill) r = r.
Proof.
  intros H. apply update_nth_same. intros x Hx.
  rewrite (nth_error_nth _ _ _ Hx) in H. destruct x; try reflexivity.
  discriminate.
Qed.

Lemma set_column_fillna_same (df : DataFrame) (i : nat) (fill : cell) :
  Forall (fun c => isna c = false) (column_at df i) ->
  set_column df i (fillna fill) (dtype_at df i) = df.
Proof.
  intros H.
  pose proof (set_column_columns df i (fillna fill)) as Hc.
  destruct df as [cols rws]. unfold set_column in *. simpl in *.
  rewrite Hc. f_equal.
  unfold column_at in H. simpl in H. clear Hc.
  induction rws as [|r rws IH]; simpl; [reflexivity|].
  inversion H; subst. f_equal; [|apply IH; assumption].
  apply update_nth_fillna_same. assumption.
Qed.

(** C10: [handle_missing_values] never raises; it appends one entry per
    finding whose column is in the working frame, in order - the drop
    message when the severity is [error], an [Imputed missing ...] message
    otherwise, whatever the severity and the missing count; and when such a
    column has no missing cell the frame stays as it was while the
    [Imputed missing ...] entry is logged all the same. *)
Theorem handle_missing_values_logs_every_finding (str_of_number : Q -> string)
    (findings : list column_finding) (w : DataCleaner) :
  raised (handle_missing_values str_of_number findings w) = None /\
  (exists entries,
      history (after (handle_missing_values str_of_number findings w))
      = history w ++ entries /\
      Forall2 logs
        (List.filter (fun f => has_column (cleaner_df w) (cf_column f)) findings)
        entries) /\
  (forall f i,
      index_of (cf_column f) (columns (cleaner_df w)) = Some i ->
      cf_severity f <> ms_error ->
      Forall (fun c => isna c = false) (column_at (cleaner_df w) i) ->
      cleaner_df (after (handle_missing_values str_of_number [f] w))
      = cleaner_df w /\
      exists e,
        history (after (handle_missing_values str_of_number [f] w))
        = history w ++ [e] /\
        String.prefix ("Imputed missing " ++ cf_column f ++ " with ")%string e
        = true).
Proof.
  split; [reflexivity|]. split.
  - apply handle_missing_fold_history.
  - intros f i Hi Hsev Hfull.
    unfold handle_missing_values. cbn [after returns fold_left]. split.
    + unfold handle_missing_column. rewrite Hi.
      destruct (cf_severity f); try contradiction;
        destruct (is_numeric (dtype_at (cleaner_df w) i)); cbn [cleaner_df];
        apply set_column_fillna_same; exact Hfull.
    + pose proof (handle_missing_column_history str_of_number w f) as Hf.
      unfold has_column in Hf. rewrite Hi in Hf.
      destruct Hf as (e & He & Hlog). exists e. split; [exact He|].
      unfold logs in Hlog. destruct (cf_severity f); try contradiction;
        exact Hlog.
Qed.

(** ** The cleaner: ownership of the working copy *)

Section Ownership.

Variable parse_number : string -> option Q.
Variable str_of_number : Q -> string.

Lemma fresh_not_before (before now : gmap nat DataFrame) :
  (forall l x, before !! l = Some x -> now !! l = Some x) ->
  fresh (dom now) ∉ dom before.
Proof.
  intros Hsub Hin. apply elem_of_dom in Hin as [x Hx].
  apply (is_fresh (dom now)). apply elem_of_dom. exists x.
  apply Hsub. exact Hx.
Qed.

Lemma call_preserves (before : gmap nat DataFrame) (op : cleaning_op)
    (st : gmap nat DataFrame * cleaner_object) :
  preserves before st ->
  preserves before (fst (call parse_number str_of_number op st)).
Proof.
  intros [Hsub Hself]. unfold call.
  destruct (fst st !! self_df (snd st)) as [d|]; [|split; assumption].
  unfold preserves. cbn [fst snd self_df].
  set (o := apply_op parse_number str_of_number op
              (mkCleaner d (self_history (snd st)))).
  assert (Ht : (if rebound o then fresh (dom (fst st)) else self_df (snd st))
               ∉ dom before).
  { destruct (rebound o); [apply fresh_not_before|]; assumption. }
  split; [|exact Ht].
  intros l x Hl. rewrite lookup_insert_ne.
  - apply Hsub. exact Hl.
  - intros Heq. apply Ht. rewrite Heq. apply elem_of_dom. exists x. exact Hl.
Qed.

Lemma run_preserves (before : gmap nat DataFrame) (ops : list cleaning_op)
    (st : gmap nat DataFrame * cleaner_object) :
  preserves before st ->
  preserves before (fst (run parse_number str_of_number ops st)).
Proof.
  revert st. induction ops as [|op ops IH]; intros st H; simpl.
  - exact H.
  - pose proof (call_preserves before op st H) as Hc.
    destruct (call parse_number str_of_number op st) as [st' [e|]].
    + exact Hc.
    + apply IH. exact Hc.
Qed.

(** C8: constructing a cleaner from a frame of the store copies it to a
    new reference; after any sequence of cleaning operations, whether it
    ends normally or by an exception, the frame passed to the constructor
    - and every other frame that existed before - is what it was. *)
Theorem cleaner_leaves_original_unchanged (frames : gmap nat DataFrame)
    (df : nat) (d : DataFrame) (ops : list cleaning_op) :
  frames !! df = Some d ->
  exists frames' obj,
    construct frames df = Some (frames', obj) /\
    self_df obj <> df /\
    frames' !! self_df obj = Some d /\
    frames' !! df = Some d /\
    let final := fst (fst (run parse_number str_of_number ops (frames', obj))) in
    final !! df = Some d /\
    (forall l x, frames !! l = Some x -> final !! l = Some x).
Proof.
  intros Hdf. unfold construct. rewrite Hdf.
  eexists _, _. split; [reflexivity|]. cbn [self_df].
  assert (Hfresh : fresh (dom frames) <> df).
  { intros Heq. apply (is_fresh (dom frames)). rewrite Heq.
    apply elem_of_dom. exists d. exact Hdf. }
  assert (Hinit : preserves frames
                    (<[fresh (dom frames) := d]> frames,
                     mkObject (fresh (dom frames)) [])).
  { split; cbn [fst snd self_df].
    - intros l x Hl. rewrite lookup_insert_ne; [exact Hl|].
      intros Heq. apply (is_fresh (dom frames)). rewrite Heq.
      apply elem_of_dom. exists x. exact Hl.
    - apply is_fresh. }
  split; [exact Hfresh|]. split; [apply lookup_insert_eq|].
  split; [rewrite lookup_insert_ne; assumption|].
  destruct (run_preserves frames ops _ Hinit) as [Hsub _].
  cbn zeta. split; [apply Hsub; exact Hdf|exact Hsub].
Qed.

End Ownership.

Lemma cleaner_leaves_original_unchanged_witness :
  ({[ 0%nat := base_test_data ]} : gmap nat DataFrame) !! 0%nat
  = Some base_test_data /\
  exists frames' obj,
    construct {[ 0%nat := base_test_data ]} 0 = Some (frames', obj) /\
    self_df obj <> 0%nat /\
    frames' !! self_df obj = Some base_test_data /\
    frames' !! 0%nat = Some base_test_data /\
    let final :=
      fst (fst (run (fun _ => None) (fun _ => "0"%string)
                  [OpDropDuplicates;
                   OpHandleOutliers [("age"%string, Some 1%nat)] "remove"]
                  (frames', obj))) in
    final !! 0%nat = Some base_test_data /\
    (forall l x,
        ({[ 0%nat := base_test_data ]} : gmap nat DataFrame) !! l = Some x ->
        final !! l = Some x).
Proof.
  split; [reflexivity|].
  apply (cleaner_leaves_original_unchanged (fun _ => None) (fun _ => "0"%string)
           {[ 0%nat := base_test_data ]} 0%nat base_test_data).
  reflexivity.
Defined.

(** ** Order statistics *)

Lemma insert_sorted_Forall (P : Q -> Prop) (x : Q) (l : list Q) :
  P x -> Forall P l -> Forall P (insert_sorted x l).
Proof.
  intros Hx Hl. induction Hl as [|y l Hy Hl IH]; simpl.
  - constructor; [exact Hx|constructor].
  - destruct (Qle_bool x y); repeat constructor; assumption.
Qed.

Lemma insert_sorted_sorted (x : Q) (l : list Q) :
  StronglySorted Qle l -> StronglySorted Qle (insert_sorted x l).
Proof.
  induction 1 as [|y l Hs IH Hy]; simpl.
  - repeat constructor.
  - destruct (Qle_bool x y) eqn:E.
    + apply Qle_bool_iff in E. constructor; [constructor; assumption|].
      constructor; [exact E|].
      eapply List.Forall_impl; [|exact Hy]. intros z Hz. lra.
    + constructor; [exact IH|]. apply insert_sorted_Forall; [|exact Hy].
      assert (Hlt : (y < x)%Q)
        by (apply Qltb_lt; unfold Qltb; rewrite E; reflexivity).
      lra.
Qed.

Lemma sort_values_sorted (l : list Q) : StronglySorted Qle (sort_values l).
Proof.
  induction l as [|x l IH]; simpl.
  - constructor.
  - apply insert_sorted_sorted. exact IH.
Qed.

Lemma insert_sorted_length (x : Q) (l : list Q) :
  length (insert_sorted x l) = S (length l).
Proof.
  induction l as [|y l IH]; simpl; [reflexivity|].
  destruct (Qle_bool x y); simpl; [reflexivity|]. rewrite IH. reflexivity.
Qed.

Lemma sort_values_length (l : list Q) : length (sort_values l) = length l.
Proof.
  induction l as [|x l IH]; simpl; [reflexivity|].
  rewrite insert_sorted_length, IH. reflexivity.
Qed.

Lemma sorted_nth (s : list Q) (i j : nat) :
  StronglySorted Qle s -> (i <= j)%nat -> (j < length s)%nat ->
  (nth i s 0 <= nth j s 0)%Q.
Proof.
  intros Hs. revert i j. induction Hs as [|x s Hs IH Hx]; intros i j Hij Hj.
  - simpl in Hj. lia.
  - destruct j as [|j]; [replace i with 0%nat by lia; simpl; lra|].
    destruct i as [|i]; simpl.
    + rewrite List.Forall_forall in Hx. apply Hx. apply nth_In. simpl in Hj. lia.
    + apply IH; simpl in Hj; lia.
Qed.

(** The position [(n - 1) * q] and its floor, for [0 <= q <= 1]. *)
Lemma position_floor (n : nat) (q : Q) :
  (0 <= q <= 1)%Q ->
  let pos := (nat2Q (n - 1) * q)%Q in
  let lo := Z.to_nat (Qfloor pos) in
  (lo <= n - 1)%nat /\
  inject_Z (Qfloor pos) = nat2Q lo /\
  (0 <= pos - inject_Z (Qfloor pos) <= 1)%Q.
Proof.
  intros [Hq0 Hq1] pos lo.
  pose proof (nat2Q_nonneg (n - 1)) as Hn.
  assert (Hpos0 : (0 <= pos)%Q) by (unfold pos; nra).
  assert (Hpos1 : (pos <= nat2Q (n - 1))%Q) by (unfold pos; nra).
  assert (Hf0 : (0 <= Qfloor pos)%Z).
  { change 0%Z with (Qfloor 0). apply Qfloor_resp_le. exact Hpos0. }
  assert (Hf1 : (Qfloor pos <= Z.of_nat (n - 1))%Z).
  { rewrite <- (Qfloor_Z (Z.of_nat (n - 1))). apply Qfloor_resp_le.
    exact Hpos1. }
  split; [unfold lo; lia|]. split.
  - unfold lo, nat2Q. rewrite Z2Nat.id by exact Hf0. reflexivity.
  - pose proof (Qfloor_le pos). pose proof (Qlt_floor pos) as Hlt.
    rewrite inject_Z_plus in Hlt. change (inject_Z 1) with 1%Q in Hlt. lra.
Qed.

Lemma interpolate_between (s : list Q) (q : Q) :
  StronglySorted Qle s -> s <> [] -> (0 <= q <= 1)%Q ->
  let lo := Z.to_nat (Qfloor (nat2Q (length s - 1) * q)) in
  (nth lo s 0 <= interpolate s q)%Q /\
  (interpolate s q <= nth (Nat.min (S lo) (length s - 1)) s 0)%Q.
Proof.
  intros Hs Hne Hq lo.
  destruct (position_floor (length s) q Hq) as (Hlo & _ & Hf).
  fold lo in Hlo.
  assert (Hlen : (0 < length s)%nat) by (destruct s; [congruence|simpl; lia]).
  assert (Hab : (nth lo s 0 <= nth (Nat.min (S lo) (length s - 1)) s 0)%Q).
  { apply sorted_nth; [exact Hs|lia|lia]. }
  unfold interpolate. fold lo.
  set (a := nth lo s 0%Q) in *.
  set (b := nth (Nat.min (S lo) (length s - 1)) s 0%Q) in *.
  set (t := (nat2Q (length s - 1) * q - inject_Z (Qfloor (nat2Q (length s - 1) * q)))%Q) in *.
  split; nra.
Qed.

(** A quantile does not decrease with its level. *)
Lemma interpolate_monotone (s : list Q) (p q : Q) :
  StronglySorted Qle s -> s <> [] -> (0 <= p)%Q -> (p <= q)%Q -> (q <= 1)%Q ->
  (interpolate s p <= interpolate s q)%Q.
Proof.
  intros Hs Hne Hp Hpq Hq.
  assert (Hlen : (0 < length s)%nat) by (destruct s; [congruence|simpl; lia]).
  pose proof (nat2Q_nonneg (length s - 1)) as Hn.
  assert (Hpos : (nat2Q (length s - 1) * p <= nat2Q (length s - 1) * q)%Q) by nra.
  pose proof (Qfloor_resp_le _ _ Hpos) as Hfl.
  destruct (position_floor (length s) p) as (Hlo1 & Hi1 & Hf1); [lra|].
  destruct (position_floor (length s) q) as (Hlo2 & Hi2 & Hf2); [lra|].
  destruct (interpolate_between s p Hs Hne) as [_ Hup]; [lra|].
  destruct (interpolate_between s q Hs Hne) as [Hdown _]; [lra|].
  cbn zeta in *.
  set (pp := (nat2Q (length s - 1) * p)%Q) in *.
  set (pq := (nat2Q (length s - 1) * q)%Q) in *.
  destruct (Z.eq_dec (Qfloor pp) (Qfloor pq)) as [Heq|Hne'].
  - unfold interpolate. fold pp pq. rewrite <- Heq.
    set (lo := Z.to_nat (Qfloor pp)) in *.
    assert (Hab : (nth lo s 0 <= nth (Nat.min (S lo) (length s - 1)) s 0)%Q).
    { apply sorted_nth; [exact Hs|lia|lia]. }
    set (a := nth lo s 0%Q) in *.
    set (b := nth (Nat.min (S lo) (length s - 1)) s 0%Q) in *.
    nra.
  - assert (Hlt : (Z.to_nat (Qfloor pp) < Z.to_nat (Qfloor pq))%nat).
    { assert (0 <= Qfloor pp)%Z.
      { change 0%Z with (Qfloor 0). apply Qfloor_resp_le. unfold pp. nra. }
      lia. }
    eapply Qle_trans; [exact Hup|]. eapply Qle_trans; [|exact Hdown].
    apply sorted_nth; [exact Hs|lia|lia].
Qed.

Lemma quantiles_ordered (l : list Q) (q1 q3 : Q) :
  quantile (1 # 4) l = Some q1 -> quantile (3 # 4) l = Some q3 -> (q1 <= q3)%Q.
Proof.
  unfold quantile. destruct l as [|x l]; [discriminate|].
  intros H1 H3. injection H1 as <-. injection H3 as <-.
  apply interpolate_monotone; try lra.
  - apply (sort_values_sorted (x :: l)).
  - intros H. pose proof (sort_values_length (x :: l)) as Hl.
    change (sort_values (x :: l)) with (insert_sorted x (sort_values l)) in Hl.
    rewrite H in Hl. discriminate.
Qed.

Lemma filter_length_le {A : Type} (p q : A -> bool) (l : list A) :
  (forall x, p x = true -> q x = true) ->
  (length (List.filter p l) <= length (List.filter q l))%nat.
Proof.
  intros H. induction l as [|x l IH]; simpl; [lia|].
  destruct (p x) eqn:E.
  - rewrite (H x E). simpl. lia.
  - destruct (q x); simpl; lia.
Qed.

(** ** The outlier detector *)

Lemma iqr_outlier_count_antitone (k1 k2 : Q) (series : list Q) :
  (k1 <= k2)%Q ->
  (iqr_outlier_count k2 series <= iqr_outlier_count k1 series)%nat.
Proof.
  intros Hk. unfold iqr_outlier_count.
  destruct (quantile (1 # 4) series) as [q1|] eqn:E1; [|lia].
  destruct (quantile (3 # 4) series) as [q3|] eqn:E3; [|lia].
  pose proof (quantiles_ordered series q1 q3 E1 E3) as Hq.
  apply filter_length_le. intros x Hx.
  apply orb_true_iff in Hx. apply orb_true_iff.
  destruct Hx as [Hx|Hx]; apply Qltb_lt in Hx; [left|right]; apply Qltb_lt; nra.
Qed.

Section DetectorFacts.

Variable zscore_count : list Q -> Q -> nat.
Variable isolation_forest : Q -> list (list Q) -> option nat.

Lemma detect_columns_antitone (df : DataFrame) (k1 k2 zt : Q)
    (cols : list (nat * (string * dtype))) :
  (k1 <= k2)%Q ->
  Forall2 (fun e1 e2 =>
             fst e1 = fst e2 /\
             (iqr_outliers (snd e2) <= iqr_outliers (snd e1))%nat)
          (detect_columns zscore_count df k1 zt cols)
          (detect_columns zscore_count df k2 zt cols).
Proof.
  intros Hk. induction cols as [|ic cols IH]; simpl; [constructor|].
  unfold detect_column.
  destruct (nunique (dropna_cells (column_at df (fst ic))) <=? 1)%nat;
    [exact IH|].
  constructor; [|exact IH]. simpl. split; [reflexivity|].
  apply iqr_outlier_count_antitone. exact Hk.
Qed.

(** C7: with everything else fixed, raising [iqr_multiplier] keeps the
    columns that get a finding and does not raise the IQR outlier count of
    any of them. *)
Theorem iqr_count_antitone_in_multiplier (df : DataFrame)
    (k1 k2 zscore_threshold contamination : Q) :
  (k1 <= k2)%Q ->
  Forall2 (fun e1 e2 =>
             fst e1 = fst e2 /\
             (iqr_outliers (snd e2) <= iqr_outliers (snd e1))%nat)
    (per_column_summary
       (detect_all zscore_count isolation_forest df k1 zscore_threshold
          contamination))
    (per_column_summary
       (detect_all zscore_count isolation_forest df k2 zscore_threshold
          contamination)).
Proof.
  intros Hk. unfold detect_all.
  destruct (numeric_df_empty df); cbn [per_column_summary]; [constructor|].
  apply detect_columns_antitone. exact Hk.
Qed.

End DetectorFacts.

Lemma iqr_count_antitone_in_multiplier_witness :
  (15 # 10 <= 3)%Q /\
  Forall2 (fun e1 e2 =>
             fst e1 = fst e2 /\
             (iqr_outliers (snd e2) <= iqr_outliers (snd e1))%nat)
    (per_column_summary
       (detect_all (fun _ _ => 0%nat) (fun _ _ => None) base_test_data
          (15 # 10) 3 (1 # 10)))
    (per_column_summary
       (detect_all (fun _ _ => 0%nat) (fun _ _ => None) base_test_data
          3 3 (1 # 10))).
Proof.
  assert (H : (15 # 10 <= 3)%Q) by (unfold Qle; simpl; lia).
  split; [exact H|].
  apply (iqr_count_antitone_in_multiplier (fun _ _ => 0%nat) (fun _ _ => None)
           base_test_data (15 # 10) 3 3 (1 # 10) H).
Defined.

(** ** The outlier detector: which columns get a finding *)

Lemma index_of_nth (name : string) (cols : list (string * dtype)) (i : nat) :
  index_of name cols = Some i -> exists d, nth_error cols i = Some (name, d).
Proof.
  revert i. induction cols as [|[c d] cols IH]; intros i H; simpl in H.
  - discriminate.
  - destruct (String.eqb name c) eqn:E.
    + injection H as <-. apply String.eqb_eq in E. subst. exists d. reflexivity.
    + destruct (index_of name cols) as [j|]; [|discriminate].
      injection H as <-. simpl. apply IH. reflexivity.
Qed.

Lemma index_of_injective (a b : string) (cols : list (string * dtype)) (i : nat) :
  index_of a cols = Some i -> index_of b cols = Some i -> a = b.
Proof.
  intros Ha Hb.
  destruct (index_of_nth a cols i Ha) as [da Hna].
  destruct (index_of_nth b cols i Hb) as [db Hnb]. congruence.
Qed.

Lemma dropna_cells_idempotent (l : list cell) :
  dropna_cells (dropna_cells l) = dropna_cells l.
Proof.
  unfold dropna_cells. induction l as [|c l IH]; simpl; [reflexivity|].
  destruct (negb (isna c)) eqn:E; simpl; rewrite ?E, IH; reflexivity.
Qed.

Lemma nunique_dropna (l : list cell) : nunique (dropna_cells l) = nunique l.
Proof.
  unfold nunique. rewrite dropna_cells_idempotent. reflexivity.
Qed.

Lemma forallb_isna_false (l : list cell) :
  forallb isna l = false <-> Exists (fun c => isna c = false) l.
Proof.
  induction l as [|c l IH]; simpl.
  - split; [discriminate|]. intros H. inversion H.
  - rewrite andb_false_iff, IH. split.
    + intros [H|H]; [left|right]; assumption.
    + intros H. inversion H; subst; [left|right]; assumption.
Qed.

Lemma numeric_df_In (df : DataFrame) (i : nat) (name : string) (d : dtype) :
  In (i, (name, d)) (numeric_df df) <->
  nth_error (columns df) i = Some (name, d) /\ d = DNumeric /\
  Exists (fun c => isna c = false) (column_at df i).
Proof.
  unfold numeric_df. rewrite filter_In. cbn [fst snd].
  rewrite andb_true_iff, negb_true_iff, forallb_isna_false. split.
  - intros (Hin & Hd & He). split; [apply In_indexed; exact Hin|].
    split; [destruct d; try discriminate; reflexivity|exact He].
  - intros (Hn & -> & He). split; [|split; [reflexivity|exact He]].
    eapply nth_error_In. apply nth_error_indexed. exact Hn.
Qed.

Lemma numeric_df_no_rows (df : DataFrame) : len df = 0%nat -> numeric_df df = [].
Proof.
  intros H. unfold numeric_df.
  assert (Hr : rows df = []) by (unfold len in H; destruct (rows df); [reflexivity|discriminate]).
  induction (indexed (columns df)) as [|ic l IH]; simpl; [reflexivity|].
  unfold column_at at 1. rewrite Hr. simpl. rewrite andb_false_r. exact IH.
Qed.

Lemma numeric_df_empty_iff (df : DataFrame) :
  numeric_df_empty df = true <->
  ~ exists i name,
      nth_error (columns df) i = Some (name, DNumeric) /\
      Exists (fun c => isna c = false) (column_at df i).
Proof.
  assert (Hnil : numeric_df_empty df = true <-> numeric_df df = []).
  { unfold numeric_df_empty. rewrite orb_true_iff, !Nat.eqb_eq. split.
    - intros [H|H]; [apply numeric_df_no_rows; exact H|].
      destruct (numeric_df df); [reflexivity|discriminate].
    - intros ->. right. reflexivity. }
  rewrite Hnil. split.
  - intros Hempty (i & name & Hn & He).
    assert (Hin : In (i, (name, DNumeric)) (numeric_df df))
      by (apply numeric_df_In; auto).
    rewrite Hempty in Hin. exact Hin.
  - intros Hno. destruct (numeric_df df) as [|[i [name d]] l] eqn:E;
      [reflexivity|].
    exfalso. apply Hno. exists i, name.
    assert (Hin : In (i, (name, d)) (numeric_df df)) by (rewrite E; left; reflexivity).
    apply numeric_df_In in Hin as (Hn & -> & He). split; assumption.
Qed.

Section DetectorColumns.

Variable zscore_count : list Q -> Q -> nat.
Variable isolation_forest : Q -> list (list Q) -> option nat.

Lemma detect_columns_keys (df : DataFrame) (k zt : Q)
    (cols : list (nat * (string * dtype))) (name : string) :
  In name (map fst (detect_columns zscore_count df k zt cols)) ->
  exists i d, In (i, (name, d)) cols /\ (1 < nunique (column_at df i))%nat.
Proof.
  induction cols as [|[i [c d]] cols IH]; simpl; [contradiction|].
  unfold detect_column. cbn [fst snd]. rewrite nunique_dropna.
  destruct (nunique (column_at df i) <=? 1)%nat eqn:E.
  - intros H. destruct (IH H) as (j & dj & Hin & Hu). eauto.
  - apply Nat.leb_gt in E. simpl. intros [<-|H].
    + exists i, d. split; [left; reflexivity|exact E].
    + destruct (IH H) as (j & dj & Hin & Hu). eauto.
Qed.

(** C6: [detect_all] reports the no-numeric-data condition, with no
    finding, exactly when no numeric column has a cell that is not
    missing; otherwise every finding belongs to a numeric column with more
    than one distinct value, so that - the column names being unique - a
    numeric column with at most one distinct value has none; and a failure
    of the isolation forest leaves a count of zero instead of an
    exception. *)
Theorem detect_all_no_numeric_data (df : DataFrame)
    (iqr_multiplier zscore_threshold contamination : Q) :
  let r := detect_all zscore_count isolation_forest df iqr_multiplier
             zscore_threshold contamination in
  (error r <> None <->
   ~ exists i name,
       nth_error (columns df) i = Some (name, DNumeric) /\
       Exists (fun c => isna c = false) (column_at df i)) /\
  (error r <> None -> per_column_summary r = [] /\ total_ml_outliers r = 0%nat) /\
  (forall name,
      In name (map fst (per_column_summary r)) ->
      exists i,
        nth_error (columns df) i = Some (name, DNumeric) /\
        (1 < nunique (column_at df i))%nat) /\
  (unique_names df ->
   forall i name,
     nth_error (columns df) i = Some (name, DNumeric) ->
     (nunique (column_at df i) <= 1)%nat ->
     ~ In name (map fst (per_column_summary r))) /\
  ((forall data, isolation_forest contamination data = None) ->
   total_ml_outliers r = 0%nat).
Proof.
  cbn zeta.
  assert (Hkeys : forall name,
             In name (map fst (per_column_summary
                (detect_all zscore_count isolation_forest df iqr_multiplier
                   zscore_threshold contamination))) ->
             exists i,
               nth_error (columns df) i = Some (name, DNumeric) /\
               (1 < nunique (column_at df i))%nat).
  { intros name. unfold detect_all.
    destruct (numeric_df_empty df); cbn [per_column_summary];
      [contradiction|].
    intros H. apply detect_columns_keys in H as (i & d & Hin & Hu).
    apply numeric_df_In in Hin as (Hn & -> & _). eauto. }
  split; [|split; [|split; [exact Hkeys|split]]].
  - rewrite <- numeric_df_empty_iff. unfold detect_all.
    destruct (numeric_df_empty df); cbn [error]; split;
      congruence.
  - unfold detect_all. destruct (numeric_df_empty df); cbn [error].
    + intros _. split; reflexivity.
    + congruence.
  - intros Huniq i name Hn Hu Hin.
    destruct (Hkeys name Hin) as (j & Hj & Hgt).
    assert (i = j); [|subst; lia].
    apply (proj1 (NoDup_nth_error (map fst (columns df))) Huniq).
    + rewrite length_map. apply nth_error_Some. congruence.
    + rewrite !nth_error_map, Hn, Hj. reflexivity.
  - intros Hfail. unfold detect_all.
    destruct (numeric_df_empty df); cbn [total_ml_outliers]; [reflexivity|].
    destruct (valid_numeric_data df); [reflexivity|].
    rewrite Hfail. reflexivity.
Qed.

End DetectorColumns.

(** ** The cleaner: outliers *)

Lemma nth_update_nth_other {A : Type} (f : A -> A) (l : list A) (i j : nat) (d : A) :
  i <> j -> nth j (update_nth i f l) d = nth j l d.
Proof.
  revert i j. induction l as [|a l IH]; intros i j Hij.
  - destruct i; reflexivity.
  - destruct i as [|i], j as [|j]; simpl; try reflexivity; try lia.
    apply IH. lia.
Qed.

Lemma nth_update_nth_same {A : Type} (f : A -> A) (l : list A) (i : nat) (d : A) :
  f d = d -> nth i (update_nth i f l) d = f (nth i l d).
Proof.
  intros Hd. revert i. induction l as [|a l IH]; intros i.
  - destruct i; simpl; symmetry; exact Hd.
  - destruct i as [|i]; simpl; [reflexivity|apply IH].
Qed.

Lemma column_at_set_column_other (df : DataFrame) (i j : nat) (f : cell -> cell)
    (d : dtype) :
  i <> j -> column_at (set_column df i f d) j = column_at df j.
Proof.
  intros Hij. unfold column_at, set_column. simpl. rewrite map_map.
  apply map_ext. intros r. apply nth_update_nth_other. exact Hij.
Qed.

Lemma column_at_set_column_same (df : DataFrame) (i : nat) (f : cell -> cell)
    (d : dtype) :
  f CNaN = CNaN -> column_at (set_column df i f d) i = map f (column_at df i).
Proof.
  intros Hf. unfold column_at, set_column. simpl. rewrite !map_map.
  apply map_ext. intros r. apply nth_update_nth_same. exact Hf.
Qed.

Lemma set_column_columns_numeric (df : DataFrame) (i : nat) (f : cell -> cell) :
  dtype_at df i = DNumeric -> columns (set_column df i f DNumeric) = columns df.
Proof.
  intros H. rewrite <- H. apply set_column_columns.
Qed.

(** What one turn of the loop does to a flagged numeric column under
    ['clip']. *)
Lemma clip_turn (w : DataCleaner) (col : string) (n i : nat) :
  index_of col (columns (cleaner_df w)) = Some i ->
  n <> 0%nat ->
  dtype_at (cleaner_df w) i = DNumeric ->
  let o := handle_outlier_column "clip" w (col, Some n) in
  raised o = None /\
  columns (cleaner_df (after o)) = columns (cleaner_df w) /\
  column_at (cleaner_df (after o)) i = clipped (column_at (cleaner_df w) i) /\
  (forall j, i <> j ->
             column_at (cleaner_df (after o)) j = column_at (cleaner_df w) j).
Proof.
  intros Hi Hn Hd. unfold handle_outlier_column. cbn [fst snd]. rewrite Hi.
  replace (default 0%nat (Some n) =? 0)%nat with false
    by (symmetry; apply Nat.eqb_neq; exact Hn).
  rewrite Hd. cbn [String.eqb Ascii.eqb Bool.eqb andb].
  cbn [returns after raised cleaner_df]. unfold clipped.
  destruct (fences (numbers (column_at (cleaner_df w) i))) as [[lo up]|].
  - split; [reflexivity|]. split; [apply set_column_columns_numeric; exact Hd|].
    split; [apply column_at_set_column_same; reflexivity|].
    intros j Hij. apply column_at_set_column_other. exact Hij.
  - repeat split; reflexivity.
Qed.

Lemma skipped_turn (method : string) (w : DataCleaner) (entry : string * option nat) :
  (forall n, snd entry = Some n -> n <> 0%nat ->
             index_of (fst entry) (columns (cleaner_df w)) = None) ->
  handle_outlier_column method w entry = returns w.
Proof.
  intros H. unfold handle_outlier_column.
  destruct (index_of (fst entry) (columns (cleaner_df w))) as [i|] eqn:Hi;
    [|reflexivity].
  destruct (default 0%nat (snd entry) =? 0)%nat eqn:E; [reflexivity|].
  apply Nat.eqb_neq in E. destruct (snd entry) as [n|]; [|contradiction].
  specialize (H n eq_refl E). discriminate.
Qed.

Lemma flagged_cons (entry : string * option nat)
    (rest : list (string * option nat)) (col : string) :
  flagged (entry :: rest) col <->
  (exists n, entry = (col, Some n) /\ n <> 0%nat) \/ flagged rest col.
Proof.
  unfold flagged. simpl. split.
  - intros (n & [H|H] & Hn); [left|right]; eauto.
  - intros [(n & H & Hn)|(n & H & Hn)]; exists n; auto.
Qed.

Lemma flagged_key (summary : list (string * option nat)) (col : string) :
  flagged summary col -> In col (map fst summary).
Proof.
  intros (n & H & _). apply (in_map fst) in H. exact H.
Qed.

Lemma handle_outliers_from_clip (summary : list (string * option nat))
    (w : DataCleaner) (b : bool) :
  List.NoDup (map fst summary) ->
  (forall col i, flagged summary col ->
                 index_of col (columns (cleaner_df w)) = Some i ->
                 dtype_at (cleaner_df w) i = DNumeric) ->
  let o := handle_outliers_from summary "clip" w b in
  raised o = None /\
  columns (cleaner_df (after o)) = columns (cleaner_df w) /\
  (forall col i, flagged summary col ->
                 index_of col (columns (cleaner_df w)) = Some i ->
                 column_at (cleaner_df (after o)) i
                 = clipped (column_at (cleaner_df w) i)) /\
  (forall i, (forall col, flagged summary col ->
                          index_of col (columns (cleaner_df w)) <> Some i) ->
             column_at (cleaner_df (after o)) i = column_at (cleaner_df w) i).
Proof.
  revert w b. induction summary as [|[col0 s0] rest IH]; intros w b Hnd Hnum.
  - cbn. split; [reflexivity|]. split; [reflexivity|]. split.
    + intros col i (n & [] & _).
    + reflexivity.
  - inversion Hnd as [|? ? Hnotin Hnd']; subst. cbn zeta.
    cbn [handle_outliers_from].
    destruct (index_of col0 (columns (cleaner_df w))) as [i0|] eqn:Hi0.
    2: { (* the column is not in the frame *)
      rewrite (skipped_turn "clip" w (col0, s0)).
      2: { intros n _ _. exact Hi0. }
      cbn [raised returns after rebound].
      destruct (IH w (b || false) Hnd') as (Hr & Hc & Hflag & Hrest).
      { intros col i Hf Hi. apply (Hnum col i); [|exact Hi].
        apply flagged_cons. right. exact Hf. }
      split; [exact Hr|]. split; [exact Hc|]. split.
      - intros col i Hf Hi. apply flagged_cons in Hf as [(n & [= <- _] & _)|Hf].
        + congruence.
        + apply (Hflag col i); assumption.
      - intros i Hi. apply Hrest. intros col Hf. apply Hi.
        apply flagged_cons. right. exact Hf. }
    destruct s0 as [[|n]|].
    1, 3: (* no IQR-flagged outlier *)
      rewrite (skipped_turn "clip" w _);
      [|cbn [snd]; intros m Heq Hm; exfalso; congruence];
      cbn [raised returns after rebound];
      destruct (IH w (b || false) Hnd') as (Hr & Hc & Hflag & Hrest);
      [intros col i Hf Hi; apply (Hnum col i); [|exact Hi];
       apply flagged_cons; right; exact Hf|];
      (split; [exact Hr|]); (split; [exact Hc|]); (split;
        [intros col i Hf Hi;
         apply flagged_cons in Hf as [(m & Heq & Hm)|Hf];
         [exfalso; congruence|apply (Hflag col i); assumption]
        |intros i Hi; apply Hrest; intros col Hf; apply Hi;
         apply flagged_cons; right; exact Hf]).
    (* the column is clipped *)
    assert (Hflag0 : flagged ((col0, Some (S n)) :: rest) col0).
    { apply flagged_cons. left. exists (S n). split; [reflexivity|lia]. }
    destruct (clip_turn w col0 (S n) i0 Hi0) as (Hr1 & Hc1 & Hsame1 & Hother1);
      [lia|apply (Hnum col0 i0 Hflag0 Hi0)|].
    set (o1 := handle_outlier_column "clip" w (col0, Some (S n))) in *.
    rewrite Hr1.
    destruct (IH (after o1) (b || rebound o1) Hnd') as (Hr & Hc & Hflag & Hrest).
    { intros col i Hf Hi. rewrite Hc1 in Hi.
      assert (Hd := Hnum col i (proj2 (flagged_cons _ _ _) (or_intror Hf)) Hi).
      unfold dtype_at in *. rewrite Hc1. exact Hd. }
    assert (Hfresh : forall col, flagged rest col ->
                                 index_of col (columns (cleaner_df w)) <> Some i0).
    { intros col Hf Hi. apply Hnotin.
      rewrite (index_of_injective col0 col _ _ Hi0 Hi).
      apply flagged_key. exact Hf. }
    split; [exact Hr|]. split; [rewrite Hc; exact Hc1|]. split.
    + intros col i Hf Hi. apply flagged_cons in Hf as [(m & [= <- _] & _)|Hf].
      * assert (i = i0) by congruence. subst i.
        rewrite Hrest; [exact Hsame1|].
        intros col Hf. rewrite Hc1. apply Hfresh. exact Hf.
      * assert (Hne : i0 <> i).
        { intros ->. apply (Hfresh col Hf). exact Hi. }
        rewrite (Hflag col i Hf); [|rewrite Hc1; exact Hi].
        rewrite (Hother1 i Hne). reflexivity.
    + intros i Hi.
      assert (Hne : i0 <> i).
      { intros ->. apply (Hi col0 Hflag0). exact Hi0. }
      rewrite Hrest; [apply Hother1; exact Hne|].
      intros col Hf. rewrite Hc1. apply Hi. apply flagged_cons. right. exact Hf.
Qed.








(** * Further properties *)

(** ** Counting helpers *)

Lemma nat2Q_le (a b : nat) : (a <= b)%nat -> (nat2Q a <= nat2Q b)%Q.
Proof.
  intros H. unfold nat2Q. rewrite <- Zle_Qle. lia.
Qed.

Lemma nat2Q_lt_0 (a : nat) : (0 < nat2Q a)%Q <-> (0 < a)%nat.
Proof.
  unfold nat2Q. change 0%Q with (inject_Z 0). rewrite <- Zlt_Qlt. lia.
Qed.

Lemma share_range (a b : nat) :
  (a <= b)%nat -> (0 < b)%nat -> (0 <= nat2Q a / nat2Q b * 100 <= 100)%Q.
Proof.
  intros Hab Hb.
  pose proof (nat2Q_le a b Hab) as Hle.
  pose proof (nat2Q_nonneg a) as Ha.
  pose proof (nat2Q_pos b Hb) as Hpos.
  assert (H0 : (0 <= nat2Q a / nat2Q b)%Q).
  { apply Qle_shift_div_l; [exact Hpos|lra]. }
  assert (H1 : (nat2Q a / nat2Q b <= 1)%Q).
  { apply Qle_shift_div_r; [exact Hpos|lra]. }
  lra.
Qed.

Lemma share_positive (a b : nat) :
  (0 < b)%nat -> ((0 < nat2Q a / nat2Q b)%Q <-> (0 < a)%nat).
Proof.
  intros Hb. pose proof (nat2Q_pos b Hb) as Hpos. split.
  - intros H. apply nat2Q_lt_0.
    destruct (Qlt_le_dec 0 (nat2Q a)) as [|Hle]; [assumption|].
    exfalso.
    assert (nat2Q a / nat2Q b <= 0)%Q; [|lra].
    apply Qle_shift_div_r; [exact Hpos|lra].
  - intros H. apply Qlt_shift_div_l; [exact Hpos|].
    apply nat2Q_lt_0 in H. lra.
Qed.

Lemma filter_length_bound {A : Type} (p : A -> bool) (l : list A) :
  (length (List.filter p l) <= length l)%nat.
Proof.
  induction l as [|x l IH]; simpl; [lia|]. destruct (p x); simpl; lia.
Qed.

Lemma column_at_length (df : DataFrame) (i : nat) :
  length (column_at df i) = len df.
Proof.
  unfold column_at, len. apply length_map.
Qed.

Lemma missing_count_le (df : DataFrame) (i : nat) :
  (length (List.filter isna (column_at df i)) <= len df)%nat.
Proof.
  rewrite <- (column_at_length df i). apply filter_length_bound.
Qed.

(** ** The profiler and the cleaner on duplicates *)

Section DuplicateCount.

Context {A : Type} (eqb : A -> A -> bool).

Hypothesis eqb_trans :
  forall a b c, eqb a b = true -> eqb b c = true -> eqb a c = true.

Lemma duplicated_from_ext (s1 s2 l : list A) :
  (forall z, existsb (eqb z) s1 = existsb (eqb z) s2) ->
  duplicated_from eqb s1 l = duplicated_from eqb s2 l.
Proof.
  revert s1 s2. induction l as [|x l IH]; intros s1 s2 H; simpl; [reflexivity|].
  rewrite (H x). f_equal. apply IH. intros z. simpl. rewrite (H z). reflexivity.
Qed.

Lemma seen_again (x : A) (seen : list A) (z : A) :
  existsb (eqb x) seen = true ->
  existsb (eqb z) (x :: seen) = existsb (eqb z) seen.
Proof.
  intros Hx. simpl. destruct (eqb z x) eqn:E; [|reflexivity]. simpl.
  symmetry. apply existsb_exists in Hx as (y & Hy & Hxy).
  apply existsb_exists. exists y. split; [exact Hy|].
  apply (eqb_trans z x y); assumption.
Qed.

Lemma duplicated_keep_first_count (seen l : list A) :
  (count_true (duplicated_from eqb seen l) + length (keep_first eqb seen l)
   = length l)%nat.
Proof.
  revert seen. induction l as [|x l IH]; intros seen; [reflexivity|].
  cbn [duplicated_from keep_first]. unfold count_true in *.
  destruct (existsb (eqb x) seen) eqn:E; cbn [List.filter length].
  - rewrite (duplicated_from_ext (x :: seen) seen l).
    + rewrite <- (IH seen). lia.
    + intros z. apply seen_again. exact E.
  - rewrite <- (IH (x :: seen)). lia.
Qed.

End DuplicateCount.

Lemma cell_eqb_trans (a b c : cell) :
  cell_eqb a b = true -> cell_eqb b c = true -> cell_eqb a c = true.
Proof.
  destruct a, b, c; simpl; try discriminate; try reflexivity.
  - rewrite !Qeq_bool_iff. intros H1 H2. rewrite H1. exact H2.
  - rewrite !String.eqb_eq. congruence.
  - rewrite !Bool.eqb_true_iff. congruence.
Qed.

Lemma row_eqb_trans (a b c : list cell) :
  row_eqb a b = true -> row_eqb b c = true -> row_eqb a c = true.
Proof.
  revert b c. induction a as [|x a IH]; intros [|y b] [|z c]; simpl;
    try discriminate; try reflexivity.
  rewrite !andb_true_iff. intros [H1 H2] [H3 H4]. split.
  - apply (cell_eqb_trans x y z); assumption.
  - apply (IH b c); assumption.
Qed.

Lemma duplicated_count (df : DataFrame) :
  (count_true (duplicated df) + len (drop_duplicate_rows df) = len df)%nat.
Proof.
  unfold duplicated, drop_duplicate_rows. destruct (df_empty df); [reflexivity|].
  unfold len. simpl. apply duplicated_keep_first_count. exact row_eqb_trans.
Qed.

(** X2: the number of duplicate rows the profiler reports is the number of
    rows [drop_duplicates] removes: the cleaner logs that number when it is
    positive and nothing otherwise, and the profiler finds no duplicate in
    what is left. *)
Theorem profiler_duplicates_are_the_rows_dropped (sqrtQ : Q -> Q) (w : DataCleaner) :
  let n := duplicate_rows (metadata (generate_profile sqrtQ (cleaner_df w))) in
  let cleaned := after (drop_duplicates w) in
  (len (cleaner_df cleaned) + n = len (cleaner_df w))%nat /\
  history cleaned
  = (if (n =? 0)%nat then history w
     else history w ++ [("Dropped " ++ pretty n ++ " duplicate rows")%string]) /\
  duplicate_rows (metadata (generate_profile sqrtQ (cleaner_df cleaned))) = 0%nat.
Proof.
  cbn zeta. unfold generate_profile, drop_duplicates.
  cbn [metadata duplicate_rows after returns cleaner_df history].
  pose proof (duplicated_count (cleaner_df w)) as Hc.
  pose proof (duplicated_count (drop_duplicate_rows (cleaner_df w))) as Hc2.
  rewrite drop_duplicate_rows_idempotent in Hc2.
  split; [lia|]. split; [|lia].
  replace (len (cleaner_df w) - len (drop_duplicate_rows (cleaner_df w)))%nat
    with (count_true (duplicated (cleaner_df w))) by lia.
  destruct (count_true (duplicated (cleaner_df w))); reflexivity.
Qed.

(** ** The profiler: constant columns *)

Lemma NoDup_names_same_index (df : DataFrame) (i j : nat) (name : string)
    (d1 d2 : dtype) :
  unique_names df ->
  nth_error (columns df) i = Some (name, d1) ->
  nth_error (columns df) j = Some (name, d2) ->
  i = j.
Proof.
  intros Hu Hi Hj.
  apply (proj1 (NoDup_nth_error (map fst (columns df))) Hu).
  - rewrite length_map. apply nth_error_Some. congruence.
  - rewrite !nth_error_map, Hi, Hj. reflexivity.
Qed.

Lemma constant_columns_In (sqrtQ : Q -> Q) (df : DataFrame) (name : string) :
  In name (constant_columns (metadata (generate_profile sqrtQ df))) <->
  exists i d,
    nth_error (columns df) i = Some (name, d) /\
    (nunique (column_at df i) <= 1)%nat.
Proof.
  unfold generate_profile. cbn [metadata constant_columns].
  rewrite in_map_iff. split.
  - intros ([i [c d]] & Hn & Hin). cbn [fst snd] in Hn. subst c.
    apply filter_In in Hin as [Hin Hu]. cbn [fst] in Hu.
    apply In_indexed in Hin. apply Nat.leb_le in Hu. eauto.
  - intros (i & d & Hn & Hu). exists (i, (name, d)). split; [reflexivity|].
    apply filter_In. split.
    + eapply nth_error_In. apply nth_error_indexed. exact Hn.
    + apply Nat.leb_le. exact Hu.
Qed.

Lemma existsb_eqb_In (name : string) (l : list string) :
  existsb (String.eqb name) l = true <-> In name l.
Proof.
  rewrite existsb_exists. split.
  - intros (x & Hx & E). apply String.eqb_eq in E. subst. exact Hx.
  - intros H. exists name. split; [exact H|apply String.eqb_refl].
Qed.

(** X1: in a frame with pairwise different column names, a column is listed
    under [constant_columns], and flagged [is_constant] in its own record,
    exactly when it has at most one distinct non-missing value; the record
    carries that count of distinct values. *)
Theorem profile_constant_iff_one_value (sqrtQ : Q -> Q) (df : DataFrame)
    (i : nat) (name : string) (d : dtype) :
  unique_names df ->
  nth_error (columns df) i = Some (name, d) ->
  let p := generate_profile sqrtQ df in
  (In name (constant_columns (metadata p))
   <-> (nunique (column_at df i) <= 1)%nat) /\
  exists st,
    nth_error (profile_columns p) i = Some (name, st) /\
    cs_unique_count st = nunique (column_at df i) /\
    (cs_is_constant st = true <-> (nunique (column_at df i) <= 1)%nat).
Proof.
  intros Hu Hi. cbn zeta.
  assert (Hconst : In name (constant_columns (metadata (generate_profile sqrtQ df)))
                   <-> (nunique (column_at df i) <= 1)%nat).
  { rewrite constant_columns_In. split.
    - intros (j & dj & Hj & Hn).
      rewrite (NoDup_names_same_index df i j name d dj Hu Hi Hj). exact Hn.
    - intros Hn. eauto. }
  split; [exact Hconst|].
  eexists. split.
  { unfold generate_profile at 1. cbn [profile_columns].
    rewrite nth_error_map, (nth_error_indexed _ _ _ Hi). reflexivity. }
  cbn [fst snd cs_unique_count cs_is_constant]. split; [reflexivity|].
  rewrite existsb_eqb_In. exact Hconst.
Qed.

Lemma fixture_unique_names : unique_names base_test_data.
Proof.
  unfold unique_names. simpl.
  repeat (constructor; [simpl; intros H; repeat destruct H as [H|H];
                        try discriminate; try contradiction|]).
  constructor.
Qed.

Lemma profile_constant_iff_one_value_witness :
  unique_names base_test_data /\
  nth_error (columns base_test_data) 3 = Some ("department"%string, DObject) /\
  (In "department"%string
      (constant_columns (metadata (generate_profile (fun x => x) base_test_data)))
   <-> (nunique (column_at base_test_data 3) <= 1)%nat).
Proof.
  split; [exact fixture_unique_names|]. split; [reflexivity|].
  exact (proj1 (profile_constant_iff_one_value (fun x => x) base_test_data 3
                  "department"%string DObject fixture_unique_names eq_refl)).
Defined.

(** ** The profiler and the analyzer agree *)

(** X3: for each column the profiler and the missing-value analyzer report
    the same dtype and the same missing count, and the same missing
    percentage when the frame has rows; on a frame without rows the
    profiler's percentage is NaN while the analyzer's is 0. *)
Theorem profiler_and_analyzer_agree (sqrtQ : Q -> Q) (df : DataFrame)
    (warning_threshold critical_threshold : Q) (i : nat) (name : string)
    (d : dtype) :
  nth_error (columns df) i = Some (name, d) ->
  exists st f,
    nth_error (profile_columns (generate_profile sqrtQ df)) i = Some (name, st) /\
    nth_error (column_analysis (analyze df warning_threshold critical_threshold)) i
    = Some f /\
    cf_column f = name /\
    cs_dtype st = cf_dtype f /\
    cs_missing_count st = cf_missing_count f /\
    ((0 < len df)%nat ->
     cs_missing_percentage st = PyFloat (cf_missing_percentage f)) /\
    (len df = 0%nat ->
     cs_missing_percentage st = PyNaN /\ (cf_missing_percentage f == 0)%Q
     /\ cf_missing_count f = 0%nat).
Proof.
  intros Hi. eexists _, _. split.
  { unfold generate_profile. cbn [profile_columns].
    rewrite nth_error_map, (nth_error_indexed _ _ _ Hi). reflexivity. }
  split.
  { unfold analyze. cbn [column_analysis].
    rewrite nth_error_map, (nth_error_indexed _ _ _ Hi). reflexivity. }
  unfold profile_column, analyze_column.
  cbn [fst snd cf_column cs_dtype cf_dtype cs_missing_count cf_missing_count
       cs_missing_percentage cf_missing_percentage].
  split; [reflexivity|]. split; [reflexivity|]. split; [reflexivity|]. split.
  - intros Hlen. destruct (len df) eqn:E; [lia|]. reflexivity.
  - intros Hlen. pose proof (missing_count_le df i) as Hle.
    rewrite Hlen in *. cbn [Nat.eqb Nat.ltb Nat.leb].
    split; [reflexivity|]. split; [reflexivity|lia].
Qed.

Lemma profiler_and_analyzer_agree_witness :
  nth_error (columns base_test_data) 2 = Some ("salary"%string, DNumeric) /\
  exists st f,
    nth_error (profile_columns (generate_profile (fun x => x) base_test_data)) 2
    = Some ("salary"%string, st) /\
    nth_error (column_analysis (analyze base_test_data (5 # 100) (30 # 100))) 2
    = Some f /\
    cs_missing_count st = cf_missing_count f.
Proof.
  split; [reflexivity|].
  destruct (profiler_and_analyzer_agree (fun x => x) base_test_data
              (5 # 100) (30 # 100) 2 "salary"%string DNumeric eq_refl)
    as (st & f & H1 & H2 & _ & _ & H3 & _).
  exists st, f. repeat split; assumption.
Defined.

(** ** The missing-value analyzer: tiers *)

Ltac case_Qltb :=
  repeat match goal with
         | |- context [Qltb ?a ?b] =>
             let E := fresh "E" in
             destruct (Qltb a b) eqn:E;
             [apply Qltb_lt in E | apply Qltb_ge in E]
         end.

Lemma classify_monotone (p1 p2 warning_threshold critical_threshold : Q) :
  (p1 <= p2)%Q ->
  (severity_rank (classify p1 warning_threshold critical_threshold)
   <= severity_rank (classify p2 warning_threshold critical_threshold))%nat.
Proof.
  intros H. unfold classify. case_Qltb; simpl; try lia; exfalso; lra.
Qed.

Lemma missing_fraction_monotone (df : DataFrame) (i j : nat) :
  (length (List.filter isna (column_at df i))
   <= length (List.filter isna (column_at df j)))%nat ->
  (missing_fraction df i <= missing_fraction df j)%Q.
Proof.
  intros H. unfold missing_fraction.
  destruct (0 <? len df)%nat eqn:E; [|lra].
  apply Nat.ltb_lt in E. pose proof (nat2Q_pos _ E) as Hpos.
  pose proof (nat2Q_le _ _ H) as Hle.
  unfold Qdiv. apply Qmult_le_compat_r; [exact Hle|].
  apply Qlt_le_weak, Qinv_lt_0_compat. exact Hpos.
Qed.

Lemma column_analysis_nth (df : DataFrame) (warning_threshold critical_threshold : Q)
    (i : nat) (f : column_finding) :
  nth_error (column_analysis (analyze df warning_threshold critical_threshold)) i
  = Some f ->
  exists name d,
    nth_error (columns df) i = Some (name, d) /\
    f = analyze_column df warning_threshold critical_threshold (i, (name, d)).
Proof.
  unfold analyze. cbn [column_analysis]. rewrite nth_error_map.
  destruct (nth_error (indexed (columns df)) i) as [[k [name d]]|] eqn:E;
    [|discriminate].
  intros [= <-]. pose proof (nth_error_In _ _ E) as Hin.
  apply In_indexed in Hin.
  assert (Hi : nth_error (columns df) i = Some (name, d)).
  { destruct (nth_error (columns df) i) as [x|] eqn:Ei.
    - rewrite (nth_error_indexed _ _ _ Ei) in E. congruence.
    - apply nth_error_None in Ei.
      assert (Hlt : (i < length (indexed (columns df)))%nat)
        by (apply nth_error_Some; congruence).
      unfold indexed in Hlt. rewrite length_combine, length_seq in Hlt. lia. }
  rewrite (nth_error_indexed _ _ _ Hi) in E. injection E as <-.
  exists name, d. split; [exact Hi|reflexivity].
Qed.

(** X4: within one analysis the severity never goes down as the missing
    count goes up, for any pair of thresholds: of two columns, the one with
    more missing cells has the same or a higher tier
    ([none < info < warning < error]). *)
Theorem severity_monotone_in_missing_count (df : DataFrame)
    (warning_threshold critical_threshold : Q) (i j : nat) (fi fj : column_finding) :
  nth_error (column_analysis (analyze df warning_threshold critical_threshold)) i
  = Some fi ->
  nth_error (column_analysis (analyze df warning_threshold critical_threshold)) j
  = Some fj ->
  (cf_missing_count fi <= cf_missing_count fj)%nat ->
  (severity_rank (cf_severity fi) <= severity_rank (cf_severity fj))%nat.
Proof.
  intros Hi Hj Hle.
  apply column_analysis_nth in Hi as (ni & di & _ & ->).
  apply column_analysis_nth in Hj as (nj & dj & _ & ->).
  unfold analyze_column in *. cbn [cf_missing_count cf_severity fst snd] in *.
  apply classify_monotone. apply (missing_fraction_monotone df i j). exact Hle.
Qed.

Lemma severity_monotone_in_missing_count_witness :
  exists fi fj,
    nth_error (column_analysis (analyze base_test_data (5 # 100) (30 # 100))) 1
    = Some fi /\
    nth_error (column_analysis (analyze base_test_data (5 # 100) (30 # 100))) 2
    = Some fj /\
    (cf_missing_count fi <= cf_missing_count fj)%nat /\
    (severity_rank (cf_severity fi) <= severity_rank (cf_severity fj))%nat.
Proof.
  eexists _, _. split; [reflexivity|]. split; [reflexivity|].
  assert (H : (0 <= 1)%nat) by lia.
  split; [exact H|].
  exact (severity_monotone_in_missing_count base_test_data (5 # 100) (30 # 100)
           1 2 _ _ eq_refl eq_refl H).
Defined.

(** X5: with thresholds that are not negative, a column's severity is
    [none] exactly when it has no missing cell, and exactly then it gets no
    remediation strategy; whatever the thresholds, the recommendations are
    the findings with at least one missing cell, in column order. *)
Theorem no_missing_iff_severity_none (df : DataFrame)
    (warning_threshold critical_threshold : Q) :
  (0 <= warning_threshold)%Q ->
  (0 <= critical_threshold)%Q ->
  let r := analyze df warning_threshold critical_threshold in
  (forall f, In f (column_analysis r) ->
             (cf_severity f = ms_none <-> cf_missing_count f = 0%nat) /\
             (cf_strategies f = [] <-> cf_missing_count f = 0%nat)) /\
  recommendations r
  = List.filter (fun f => (0 <? cf_missing_count f)%nat) (column_analysis r).
Proof.
  intros Hw Hc. cbn zeta.
  assert (Hfrac : forall i, (0 < missing_fraction df i)%Q
                            <-> (0 < length (List.filter isna (column_at df i)))%nat).
  { intros i. unfold missing_fraction. pose proof (missing_count_le df i) as Hle.
    destruct (0 <? len df)%nat eqn:E.
    - apply Nat.ltb_lt in E. apply share_positive. exact E.
    - apply Nat.ltb_ge in E. split; [lra|lia]. }
  split.
  - intros f Hin. unfold analyze in Hin. cbn [column_analysis] in Hin.
    apply in_map_iff in Hin as ([i [name d]] & <- & _).
    unfold analyze_column. cbn [cf_severity cf_missing_count cf_strategies fst snd].
    fold (missing_fraction df i).
    pose proof (Hfrac i) as Hi.
    assert (Hnone : classify (missing_fraction df i) warning_threshold
                      critical_threshold = ms_none
                    <-> length (List.filter isna (column_at df i)) = 0%nat).
    { unfold classify.
      destruct (Qltb critical_threshold (missing_fraction df i)) eqn:E1;
        [apply Qltb_lt in E1; split; [discriminate|intros H0; rewrite H0 in Hi;
          assert (0 < missing_fraction df i)%Q by lra; apply Hi in H; lia]|].
      destruct (Qltb warning_threshold (missing_fraction df i)) eqn:E2;
        [apply Qltb_lt in E2; split; [discriminate|intros H0; rewrite H0 in Hi;
          assert (0 < missing_fraction df i)%Q by lra; apply Hi in H; lia]|].
      destruct (Qltb 0 (missing_fraction df i)) eqn:E3.
      - apply Qltb_lt in E3. apply Hi in E3. split; [discriminate|lia].
      - apply Qltb_ge in E3. split; [intros _|reflexivity].
        destruct (length (List.filter isna (column_at df i))); [reflexivity|].
        assert (0 < missing_fraction df i)%Q by (apply Hi; lia). lra. }
    split; [exact Hnone|]. rewrite <- Hnone.
    destruct (classify (missing_fraction df i) warning_threshold critical_threshold);
      simpl; split; try reflexivity; try discriminate;
      destruct (is_numeric d); discriminate.
  - unfold analyze. cbn [recommendations column_analysis].
    apply filter_ext_in. intros f Hin.
    apply in_map_iff in Hin as ([i [name d]] & <- & _).
    unfold analyze_column. cbn [cf_missing_percentage cf_missing_count fst snd].
    fold (missing_fraction df i). pose proof (Hfrac i) as Hi.
    destruct (0 <? length (List.filter isna (column_at df i)))%nat eqn:E.
    + apply Nat.ltb_lt in E. apply Hi in E. apply Qltb_lt. lra.
    + apply Nat.ltb_ge in E. apply Qltb_ge.
      assert (~ (0 < missing_fraction df i)%Q) by (rewrite Hi; lia). lra.
Qed.

Lemma no_missing_iff_severity_none_witness :
  (0 <= 5 # 100)%Q /\ (0 <= 30 # 100)%Q /\
  recommendations (analyze base_test_data (5 # 100) (30 # 100))
  = List.filter (fun f => (0 <? cf_missing_count f)%nat)
      (column_analysis (analyze base_test_data (5 # 100) (30 # 100))).
Proof.
  assert (Hw : (0 <= 5 # 100)%Q) by (unfold Qle; simpl; lia).
  assert (Hc : (0 <= 30 # 100)%Q) by (unfold Qle; simpl; lia).
  split; [exact Hw|]. split; [exact Hc|].
  exact (proj2 (no_missing_iff_severity_none base_test_data (5 # 100) (30 # 100)
                  Hw Hc)).
Defined.

(** ** The missing-value analyzer: percentages *)

Lemma total_missing_bound (df : DataFrame) :
  well_formed df -> (total_missing df <= len df * ncols df)%nat.
Proof.
  unfold well_formed, total_missing, len.
  induction (rows df) as [|r rs IH]; intros H; simpl; [lia|].
  inversion H as [|? ? Hr Hrs]; subst.
  pose proof (filter_length_bound isna r). specialize (IH Hrs). lia.
Qed.

(** X6: every percentage the analyzer reports lies in [0, 100]: the missing
    percentage of each column, the percentage of complete rows, and - when
    every row has one cell per column - the overall missing percentage. *)
Theorem analyzer_percentages_in_range (df : DataFrame)
    (warning_threshold critical_threshold : Q) :
  let r := analyze df warning_threshold critical_threshold in
  (forall f, In f (column_analysis r) ->
             (0 <= cf_missing_percentage f <= 100)%Q) /\
  (0 <= complete_rows_percentage r <= 100)%Q /\
  (well_formed df -> (0 <= overall_missing_percentage r <= 100)%Q).
Proof.
  cbn zeta. split; [|split].
  - intros f Hin. unfold analyze in Hin. cbn [column_analysis] in Hin.
    apply in_map_iff in Hin as ([i [name d]] & <- & _).
    unfold analyze_column. cbn [cf_missing_percentage fst snd].
    destruct (0 <? len df)%nat eqn:E; [|lra].
    apply Nat.ltb_lt in E. apply share_range; [apply missing_count_le|exact E].
  - unfold analyze. cbn [complete_rows_percentage].
    destruct (0 <? len df)%nat eqn:E; [|lra].
    apply Nat.ltb_lt in E. apply share_range; [apply filter_length_bound|exact E].
  - intros Hwf. unfold analyze. cbn [overall_missing_percentage].
    destruct (0 <? len df * ncols df)%nat eqn:E; [|lra].
    apply Nat.ltb_lt in E.
    apply share_range; [apply total_missing_bound; exact Hwf|exact E].
Qed.

(** ** The validator: what the records say *)

Lemma select_length {A : Type} (mask : list bool) (l : list A) :
  (length (select mask l) <= length l)%nat.
Proof.
  revert l. induction mask as [|b mask IH]; intros [|x l]; simpl; try lia.
  - destruct b; simpl; lia.
  - destruct b; simpl; specialize (IH l); lia.
Qed.

Lemma not_empty_len (df : DataFrame) : df_empty df = false -> (1 <= len df)%nat.
Proof.
  unfold df_empty. rewrite orb_false_iff, Nat.eqb_neq. lia.
Qed.

Lemma percentage_range (k n : nat) :
  (1 <= k)%nat -> (k <= n)%nat -> (0 < percentage k n <= 100)%Q.
Proof.
  intros Hk Hn. unfold percentage.
  assert (Hpos : (0 < n)%nat) by lia.
  pose proof (share_range k n Hn Hpos) as [_ Hup].
  split; [|exact Hup].
  assert (0 < nat2Q k / nat2Q n)%Q by (apply share_positive; lia). lra.
Qed.

Lemma sum_violations_app (vs : list violation) (v : violation) :
  sum_violations (vs ++ [v]) = (sum_violations vs + v_violations v)%nat.
Proof.
  unfold sum_violations. rewrite map_app, list_sum_app. simpl. lia.
Qed.

Lemma bound_record_sound (df : DataFrame) (col : string) (i : nat)
    (mask : list bool) (k : constraint_kind) (det : violation_detail) :
  index_of col (columns df) = Some i ->
  k <> business_rule ->
  df_empty (select_rows df mask) = false ->
  sound_record df
    (mkViolation col k (len (select_rows df mask))
       (percentage (len (select_rows df mask)) (len df)) det sev_error).
Proof.
  intros Hi Hk He. pose proof (not_empty_len _ He) as H1.
  assert (Hle : (len (select_rows df mask) <= len df)%nat)
    by (unfold len, select_rows; simpl; apply select_length).
  unfold sound_record. cbn [v_violations v_column v_constraint v_severity v_percentage].
  split; [exact H1|]. split; [unfold has_column; rewrite Hi; reflexivity|].
  split; [split; [contradiction|discriminate]|].
  intros _. split; [exact Hle|]. apply percentage_range; assumption.
Qed.

Lemma div_le_iff (a c x : Q) :
  (0 < c)%Q -> ((a / c <= x)%Q <-> (a <= x * c)%Q).
Proof.
  intros Hc. split.
  - intros H.
    assert (Heq : (a / c * c == a)%Q) by (field; intros H0; rewrite H0 in Hc; lra).
    rewrite <- Heq. apply Qmult_le_compat_r; [exact H|lra].
  - intros H. apply Qle_shift_div_r; assumption.
Qed.

Section ValidatorRecords.

Variable query : DataFrame -> string -> option DataFrame.

Lemma check_min_sound (df : DataFrame) (col : string) (i : nat) (r : rules)
    (st st' : vstate) :
  index_of col (columns df) = Some i ->
  vstate_sound df st ->
  check_min df col i r st = Ok st' ->
  vstate_sound df st'.
Proof.
  intros Hi [Hall Hsum]. unfold check_min.
  destruct (rule_min r) as [b|]; [|intros [= <-]; split; assumption].
  destruct (series_lt (dtype_at df i) (column_at df i) b) as [mask|e];
    [|discriminate].
  cbn [bind].
  destruct (df_empty (select_rows df mask)) eqn:E; cbn [negb];
    intros [= <-]; [split; assumption|].
  split; cbn [fst snd].
  - apply Forall_app. split; [exact Hall|]. constructor; [|constructor].
    apply (bound_record_sound df col i); [exact Hi|discriminate|exact E].
  - rewrite sum_violations_app, Hsum. reflexivity.
Qed.

Lemma check_max_sound (df : DataFrame) (col : string) (i : nat) (r : rules)
    (st st' : vstate) :
  index_of col (columns df) = Some i ->
  vstate_sound df st ->
  check_max df col i r st = Ok st' ->
  vstate_sound df st'.
Proof.
  intros Hi [Hall Hsum]. unfold check_max.
  destruct (rule_max r) as [b|]; [|intros [= <-]; split; assumption].
  destruct (series_gt (dtype_at df i) (column_at df i) b) as [mask|e];
    [|discriminate].
  cbn [bind].
  destruct (df_empty (select_rows df mask)) eqn:E; cbn [negb];
    intros [= <-]; [split; assumption|].
  split; cbn [fst snd].
  - apply Forall_app. split; [exact Hall|]. constructor; [|constructor].
    apply (bound_record_sound df col i); [exact Hi|discriminate|exact E].
  - rewrite sum_violations_app, Hsum. reflexivity.
Qed.

Lemma check_relationship_sound (df : DataFrame) (col : string) (i : nat)
    (r : rules) (st : vstate) :
  index_of col (columns df) = Some i ->
  vstate_sound df st ->
  vstate_sound df (check_relationship query df col r st).
Proof.
  intros Hi [Hall Hsum]. unfold check_relationship.
  destruct (rule_relationship r) as [rel|]; [|split; assumption].
  destruct (query df ("not (" ++ rel ++ ")")%string) as [rel_invalid|];
    [|split; assumption].
  destruct (df_empty rel_invalid) eqn:E; cbn [negb]; [split; assumption|].
  split; cbn [fst snd].
  - apply Forall_app. split; [exact Hall|]. constructor; [|constructor].
    unfold sound_record.
    cbn [v_violations v_column v_constraint v_severity v_percentage].
    split; [apply not_empty_len; exact E|].
    split; [unfold has_column; rewrite Hi; reflexivity|].
    split; [split; reflexivity|]. intros H. contradiction.
  - rewrite sum_violations_app, Hsum. reflexivity.
Qed.

Lemma check_all_sound (df : DataFrame) (cs : list (string * rules))
    (st st' : vstate) :
  vstate_sound df st ->
  check_all query df cs st = Ok st' ->
  vstate_sound df st' /\
  (length (fst st') <= length (fst st) + 3 * length cs)%nat.
Proof.
  revert st. induction cs as [|[col r] cs IH]; intros st Hs; simpl.
  - intros [= <-]. split; [exact Hs|lia].
  - unfold check_column. cbn [fst snd].
    destruct (index_of col (columns df)) as [i|] eqn:Hi.
    + destruct (check_min df col i r st) as [st1|e] eqn:E1; [|discriminate].
      cbn [bind].
      destruct (check_max df col i r st1) as [st2|e] eqn:E2; [|discriminate].
      cbn [bind]. intros H.
      pose proof (check_min_sound df col i r st st1 Hi Hs E1) as Hs1.
      pose proof (check_max_sound df col i r st1 st2 Hi Hs1 E2) as Hs2.
      pose proof (check_relationship_sound df col i r st2 Hi Hs2) as Hs3.
      destruct (IH _ Hs3 H) as [Hfin Hlen]. split; [exact Hfin|].
      assert (L1 : (length (fst st1) <= S (length (fst st)))%nat).
      { revert E1. unfold check_min. destruct (rule_min r); [|intros [= <-]; lia].
        destruct (series_lt _ _ _); [|discriminate]. cbn [bind].
        destruct (negb _); intros [= <-]; cbn [fst];
          rewrite ?length_app; simpl; lia. }
      assert (L2 : (length (fst st2) <= S (length (fst st1)))%nat).
      { revert E2. unfold check_max. destruct (rule_max r); [|intros [= <-]; lia].
        destruct (series_gt _ _ _); [|discriminate]. cbn [bind].
        destruct (negb _); intros [= <-]; cbn [fst];
          rewrite ?length_app; simpl; lia. }
      assert (L3 : (length (fst (check_relationship query df col r st2))
                    <= S (length (fst st2)))%nat).
      { unfold check_relationship. destruct (rule_relationship r); [|lia].
        destruct (query _ _); [|lia].
        destruct (negb _); cbn [fst]; rewrite ?length_app; simpl; lia. }
      lia.
    + cbn [bind]. intros H. destruct (IH _ Hs H) as [Hfin Hlen].
      split; [exact Hfin|lia].
Qed.

Lemma count_severity_split (vs : list violation) :
  (count_severity sev_error vs + count_severity sev_warning vs = length vs)%nat.
Proof.
  unfold count_severity. induction vs as [|v vs IH]; simpl; [reflexivity|].
  destruct (v_severity v); simpl; lia.
Qed.

(** X7: when [validate_all] returns, every violation record names a column
    of the frame and counts at least one row; a [min_value] or [max_value]
    record has severity [error], counts at most [len(df)] rows and a
    percentage in (0, 100]; a [business_rule] record has severity [warning];
    there are at most three records per constraint, [total_issues] is their
    number and the two severity counts add up to it. *)
Theorem validate_all_records_sound (df : DataFrame)
    (cs : list (string * rules)) (r : validation_results) :
  validate_all query df cs = Ok r ->
  Forall (sound_record df) (constraint_violations r) /\
  (length (constraint_violations r) <= 3 * length cs)%nat /\
  total_issues (summary r) = length (constraint_violations r) /\
  (breakdown_error (summary r) + breakdown_warning (summary r)
   = total_issues (summary r))%nat /\
  categorical_consistency r = [].
Proof.
  unfold validate_all.
  destruct (check_all query df cs ([], 0%nat)) as [st|e] eqn:E; [|discriminate].
  cbn [bind]. intros [= <-].
  cbn [constraint_violations summary total_issues breakdown_error
       breakdown_warning categorical_consistency].
  destruct (check_all_sound df cs ([], 0%nat) st) as [[Hall _] Hlen];
    [split; [constructor|reflexivity]|exact E|].
  split; [exact Hall|]. split; [simpl in Hlen; lia|]. split; [reflexivity|].
  split; [apply count_severity_split|reflexivity].
Qed.

(** X8: when [validate_all] returns, the check passes exactly when the rows
    counted by the violation records, taken together, are at most 2% of the
    cells of the frame ([len(df) * len(df.columns)], or 1 when that is 0) -
    at most 1.5% when some cell of the frame is missing. *)
Theorem validation_passes_iff_few_violations (df : DataFrame)
    (cs : list (string * rules)) (r : validation_results) :
  validate_all query df cs = Ok r ->
  let total := sum_violations (constraint_violations r) in
  validation_passed (summary r) = true <->
  (if (0 <? total_missing df)%nat
   then (1000 * total <= 15 * cells_or_1 df)%nat
   else (1000 * total <= 20 * cells_or_1 df)%nat).
Proof.
  unfold validate_all.
  destruct (check_all query df cs ([], 0%nat)) as [st|e] eqn:E; [|discriminate].
  cbn [bind]. intros [= <-]. cbn zeta.
  cbn [constraint_violations summary validation_passed].
  destruct (check_all_sound df cs ([], 0%nat) st) as [[_ Hsum] _];
    [split; [constructor|reflexivity]|exact E|].
  rewrite <- Hsum. rewrite Qle_bool_iff.
  pose proof (cells_or_1_pos df) as Hc.
  pose proof (nat2Q_pos _ Hc) as Hcq.
  pose proof (nat2Q_nonneg (snd st)) as Ht.
  set (t := snd st) in *. set (c := cells_or_1 df) in *.
  assert (Hratio : forall m : nat,
             (nat2Q t / nat2Q c * 1000 <= nat2Q m)%Q
             <-> (1000 * t <= m * c)%nat).
  { intros m.
    assert (Hnat : (nat2Q t * 1000 <= nat2Q m * nat2Q c)%Q
                   <-> (1000 * t <= m * c)%nat).
    { unfold nat2Q. change 1000%Q with (inject_Z 1000).
      rewrite <- !inject_Z_mult, <- Zle_Qle. lia. }
    rewrite <- Hnat.
    rewrite <- (div_le_iff (nat2Q t * 1000) (nat2Q c) (nat2Q m) Hcq).
    assert (Heq : (nat2Q t * 1000 / nat2Q c == nat2Q t / nat2Q c * 1000)%Q).
    { field. intros H0. rewrite H0 in Hcq. lra. }
    rewrite Heq. reflexivity. }
  assert (Hr0 : (0 <= nat2Q t / nat2Q c)%Q).
  { apply Qle_shift_div_l; [exact Hcq|lra]. }
  unfold score_of, clamped_score. fold t c.
  destruct (0 <? total_missing df)%nat.
  - rewrite <- (Hratio 15%nat). change (nat2Q 15) with 15%Q.
    destruct (Q.max_spec 0 (100 - nat2Q t / nat2Q c * 1000)) as [[Hlt ->]|[Hge ->]];
      split; intros; lra.
  - rewrite <- (Hratio 20%nat). change (nat2Q 20) with 20%Q.
    destruct (Q.max_spec 0 (100 - nat2Q t / nat2Q c * 1000)) as [[Hlt ->]|[Hge ->]];
      split; intros; lra.
Qed.

End ValidatorRecords.

Lemma validate_all_records_sound_witness :
  exists r,
    validate_all query_rejects base_test_data
      [("age"%string, mkRules (Some (SNum 18)) (Some (SNum 100)) None)] = Ok r /\
    Forall (sound_record base_test_data) (constraint_violations r) /\
    length (constraint_violations r) = 1%nat.
Proof.
  eexists. split; [vm_compute; reflexivity|].
  split; [|reflexivity].
  exact (proj1 (validate_all_records_sound query_rejects base_test_data
                  [("age"%string, mkRules (Some (SNum 18)) (Some (SNum 100)) None)]
                  _ eq_refl)).
Defined.

Lemma validation_passes_iff_few_violations_witness :
  exists r,
    validate_all query_rejects base_test_data
      [("age"%string, mkRules (Some (SNum 18)) (Some (SNum 100)) None)] = Ok r /\
    (validation_passed (summary r) = true <->
     (1000 * sum_violations (constraint_violations r)
      <= 15 * cells_or_1 base_test_data)%nat).
Proof.
  eexists. split; [vm_compute; reflexivity|].
  exact (validation_passes_iff_few_violations query_rejects base_test_data
           [("age"%string, mkRules (Some (SNum 18)) (Some (SNum 100)) None)]
           _ eq_refl).
Defined.

(** ** The outlier detector: what a finding says *)

Lemma numbers_length (l : list cell) : (length (numbers l) <= length l)%nat.
Proof.
  induction l as [|c l IH]; simpl; [lia|]. destruct c; simpl; lia.
Qed.

Lemma iqr_outlier_count_bound (k : Q) (series : list Q) :
  (iqr_outlier_count k series <= length series)%nat.
Proof.
  unfold iqr_outlier_count.
  destruct (quantile (1 # 4) series); [|lia].
  destruct (quantile (3 # 4) series); [|lia].
  apply filter_length_bound.
Qed.

Section DetectorFindings.

Variable zscore_count : list Q -> Q -> nat.
Variable isolation_forest : Q -> list (list Q) -> option nat.

Lemma detect_columns_In (df : DataFrame) (k zt : Q)
    (cols : list (nat * (string * dtype))) (name : string) (f : column_outliers) :
  In (name, f) (detect_columns zscore_count df k zt cols) ->
  exists i d, In (i, (name, d)) cols /\
              detect_column zscore_count df k zt (i, (name, d)) = Some (name, f).
Proof.
  induction cols as [|[i [c d]] cols IH]; simpl; [contradiction|].
  destruct (detect_column zscore_count df k zt (i, (c, d))) as [[n g]|] eqn:E.
  - intros [[= <- <-]|H].
    + assert (n = c).
      { unfold detect_column in E. cbn [fst snd] in E.
        destruct (_ <=? 1)%nat; [discriminate|]. congruence. }
      subst n. exists i, d. split; [left; reflexivity|exact E].
    + destruct (IH H) as (j & dj & Hin & Hd). exists j, dj. auto.
  - intros H. destruct (IH H) as (j & dj & Hin & Hd). exists j, dj. auto.
Qed.

(** X9: every per-column finding of [detect_all] has an isolation count of
    0 and an IQR count of at most the rows of the frame; its severity is
    [low] exactly when the IQR count is 0 and [high] exactly when the count
    exceeds 5% of the rows; so the entries [handle_outliers] acts on are
    those whose severity is not [low]. *)
Theorem finding_severity_follows_iqr_count (df : DataFrame)
    (iqr_multiplier zscore_threshold contamination : Q)
    (name : string) (f : column_outliers) :
  let r := detect_all zscore_count isolation_forest df iqr_multiplier
             zscore_threshold contamination in
  In (name, f) (per_column_summary r) ->
  isolation_outliers f = 0%nat /\
  (iqr_outliers f <= len df)%nat /\
  (severity f = os_low <-> iqr_outliers f = 0%nat) /\
  (severity f = os_high
   <-> ((5 # 100) * nat2Q (len df) < nat2Q (iqr_outliers f))%Q) /\
  (In (name, Some (iqr_outliers f)) (summary_dict r) /\
   (severity f <> os_low <-> iqr_outliers f <> 0%nat)).
Proof.
  cbn zeta. intros Hin.
  assert (Hsum : In (name, Some (iqr_outliers f))
                    (summary_dict
                       (detect_all zscore_count isolation_forest df
                          iqr_multiplier zscore_threshold contamination))).
  { unfold summary_dict. apply in_map_iff. exists (name, f). auto. }
  unfold detect_all in Hin.
  destruct (numeric_df_empty df); cbn [per_column_summary] in Hin;
    [contradiction|].
  apply detect_columns_In in Hin as (i & d & _ & Hd).
  unfold detect_column in Hd. cbn [fst snd] in Hd.
  destruct (nunique (dropna_cells (column_at df i)) <=? 1)%nat; [discriminate|].
  injection Hd as <-.
  cbn [isolation_outliers iqr_outliers severity] in *.
  set (n := iqr_outlier_count iqr_multiplier
              (numbers (dropna_cells (column_at df i)))) in *.
  assert (Hn : (n <= len df)%nat).
  { unfold n. etransitivity; [apply iqr_outlier_count_bound|].
    etransitivity; [apply numbers_length|].
    unfold dropna_cells. etransitivity; [apply filter_length_bound|].
    rewrite column_at_length. lia. }
  pose proof (nat2Q_nonneg (len df)) as Hlen.
  assert (Hsev : (if Qltb ((5 # 100) * nat2Q (len df)) (nat2Q n) then os_high
                  else if (0 <? n)%nat then os_medium else os_low) = os_low
                 <-> n = 0%nat).
  { destruct (Qltb ((5 # 100) * nat2Q (len df)) (nat2Q n)) eqn:E.
    - apply Qltb_lt in E. split; [discriminate|].
      intros ->. change (nat2Q 0) with 0%Q in E. lra.
    - destruct n; simpl; split; try reflexivity; try discriminate. }
  split; [reflexivity|]. split; [exact Hn|]. split; [exact Hsev|]. split.
  - destruct (Qltb ((5 # 100) * nat2Q (len df)) (nat2Q n)) eqn:E.
    + apply Qltb_lt in E. split; [intros _; exact E|reflexivity].
    + apply Qltb_ge in E. split.
      * destruct (0 <? n)%nat; discriminate.
      * intros H. lra.
  - split; [exact Hsum|]. rewrite Hsev. reflexivity.
Qed.

Lemma detect_columns_length (df : DataFrame) (k zt : Q)
    (cols : list (nat * (string * dtype))) :
  length (detect_columns zscore_count df k zt cols)
  = length (List.filter (fun ic => (1 <? nunique (column_at df (fst ic)))%nat) cols).
Proof.
  induction cols as [|ic cols IH]; simpl; [reflexivity|].
  unfold detect_column. rewrite nunique_dropna.
  destruct (nunique (column_at df (fst ic))) as [|[|n]]; simpl; auto.
Qed.

Lemma detect_columns_columns (df : DataFrame) (k zt : Q)
    (cols : list (nat * (string * dtype))) :
  map fst (detect_columns zscore_count df k zt cols)
  = map (fun ic : nat * (string * dtype) => fst (snd ic))
        (List.filter (fun ic => (1 <? nunique (column_at df (fst ic)))%nat) cols).
Proof.
  induction cols as [|ic cols IH]; simpl; [reflexivity|].
  unfold detect_column. rewrite nunique_dropna.
  destruct (nunique (column_at df (fst ic))) as [|[|n]]; simpl;
    rewrite IH; reflexivity.
Qed.

Lemma nunique_all_missing (l : list cell) :
  forallb isna l = true -> nunique l = 0%nat.
Proof.
  intros H. unfold nunique.
  assert (Hd : dropna_cells l = []).
  { unfold dropna_cells. induction l as [|c l IH]; simpl in *; [reflexivity|].
    apply andb_true_iff in H as [Hc Hl]. rewrite Hc. simpl. exact (IH Hl). }
  rewrite Hd. reflexivity.
Qed.

Lemma numeric_df_varying (df : DataFrame) :
  List.filter (fun ic => (1 <? nunique (column_at df (fst ic)))%nat)
              (numeric_df df)
  = List.filter
      (fun ic => is_numeric (snd (snd ic))
                 && (1 <? nunique (column_at df (fst ic)))%nat)
      (indexed (columns df)).
Proof.
  unfold numeric_df.
  induction (indexed (columns df)) as [|ic l IH]; simpl; [reflexivity|].
  destruct (is_numeric (snd (snd ic))); simpl; [|exact IH].
  destruct (forallb isna (column_at df (fst ic))) eqn:E; simpl.
  - rewrite (nunique_all_missing _ E). simpl. exact IH.
  - rewrite IH. reflexivity.
Qed.

(** X10: when [detect_all] finds numeric data, the columns it hands to the
    isolation forest are the columns of its per-column findings, in the
    order of the frame: the numeric columns with more than one distinct
    value, each with its missing cells filled by the column's median; the
    total is the forest's count on these columns, 0 when the forest fails;
    and when no column gets a finding the forest is not consulted: the total
    is 0 whatever it would answer. *)
Theorem isolation_forest_sees_the_columns_with_findings (df : DataFrame)
    (iqr_multiplier zscore_threshold contamination : Q) :
  let r := detect_all zscore_count isolation_forest df iqr_multiplier
             zscore_threshold contamination in
  let varying :=
    List.filter
      (fun ic : nat * (string * dtype) =>
         is_numeric (snd (snd ic))
         && (1 <? nunique (column_at df (fst ic)))%nat)
      (indexed (columns df)) in
  let given :=
    map (fun ic : nat * (string * dtype) => fill_median (column_at df (fst ic)))
        varying in
  (error r = None ->
   map fst (per_column_summary r)
   = map (fun ic : nat * (string * dtype) => fst (snd ic)) varying /\
   valid_numeric_data df = given /\
   length (valid_numeric_data df) = length (per_column_summary r) /\
   total_ml_outliers r
   = match varying with
     | [] => 0%nat
     | _ :: _ =>
         match isolation_forest contamination (transpose (len df) given) with
         | Some n => n
         | None => 0%nat
         end
     end) /\
  (per_column_summary r = [] -> total_ml_outliers r = 0%nat).
Proof.
  cbn zeta. unfold detect_all.
  assert (Hvalid : valid_numeric_data df
            = map (fun ic : nat * (string * dtype) =>
                     fill_median (column_at df (fst ic)))
                (List.filter
                   (fun ic : nat * (string * dtype) =>
                      is_numeric (snd (snd ic))
                      && (1 <? nunique (column_at df (fst ic)))%nat)
                   (indexed (columns df)))).
  { unfold valid_numeric_data. rewrite numeric_df_varying. reflexivity. }
  assert (Hlen : length (valid_numeric_data df)
                 = length (detect_columns zscore_count df iqr_multiplier
                             zscore_threshold (numeric_df df))).
  { unfold valid_numeric_data. rewrite length_map, detect_columns_length.
    reflexivity. }
  destruct (numeric_df_empty df) eqn:Ee;
    cbn [error per_column_summary total_ml_outliers].
  - split; [discriminate|reflexivity].
  - split.
    + intros _. split.
      { rewrite detect_columns_columns, numeric_df_varying. reflexivity. }
      split; [exact Hvalid|]. split; [exact Hlen|].
      rewrite Hvalid.
      destruct (List.filter
                  (fun ic : nat * (string * dtype) =>
                     is_numeric (snd (snd ic))
                     && (1 <? nunique (column_at df (fst ic)))%nat)
                  (indexed (columns df))); reflexivity.
    + intros Hnil. rewrite Hnil in Hlen.
      destruct (valid_numeric_data df); [reflexivity|discriminate].
Qed.

End DetectorFindings.

Lemma finding_severity_follows_iqr_count_witness :
  exists f,
    In ("age"%string, f)
       (per_column_summary
          (detect_all (fun _ _ => 0%nat) (fun _ _ => None) base_test_data
             (15 # 10) 3 (1 # 10))) /\
    iqr_outliers f = 1%nat /\
    (severity f = os_high
     <-> ((5 # 100) * nat2Q (len base_test_data) < nat2Q (iqr_outliers f))%Q).
Proof.
  assert (Hin : In ("age"%string, mkOutliers 1 0 0 os_high)
                   (per_column_summary
                      (detect_all (fun _ _ => 0%nat) (fun _ _ => None)
                         base_test_data (15 # 10) 3 (1 # 10)))).
  { vm_compute. right. left. reflexivity. }
  exists (mkOutliers 1 0 0 os_high). split; [exact Hin|]. split; [reflexivity|].
  exact (proj1 (proj2 (proj2 (proj2
           (finding_severity_follows_iqr_count (fun _ _ => 0%nat)
              (fun _ _ => None) base_test_data (15 # 10) 3 (1 # 10)
              "age"%string (mkOutliers 1 0 0 os_high) Hin))))).
Defined.

(** ** The cleaner: dropping columns *)

Lemma index_of_Some_In (name : string) (cols : list (string * dtype)) :
  (exists i, index_of name cols = Some i) <-> In name (map fst cols).
Proof.
  induction cols as [|[c d] cols IH]; simpl.
  - split; [intros [i H]; discriminate|contradiction].
  - destruct (String.eqb name c) eqn:E.
    + apply String.eqb_eq in E. subst. split; [auto|eauto].
    + apply String.eqb_neq in E. split.
      * intros [i H]. right. apply IH.
        destruct (index_of name cols); [eauto|discriminate].
      * intros [H|H]; [congruence|]. apply IH in H as [i ->]. eauto.
Qed.

Lemma has_column_In (df : DataFrame) (name : string) :
  has_column df name = true <-> In name (map fst (columns df)).
Proof.
  unfold has_column. rewrite <- index_of_Some_In.
  destruct (index_of name (columns df)); split; eauto; try discriminate.
  intros [i H]. discriminate.
Qed.

Lemma select_map_filter {A : Type} (p : A -> bool) (l : list A) :
  select (map p l) l = List.filter p l.
Proof.
  induction l as [|x l IH]; simpl; [reflexivity|].
  destruct (p x); rewrite IH; reflexivity.
Qed.

(** The cell of a kept column is found at the column's new position. *)
Lemma select_keeps_cell (keep : string -> bool) (cols : list (string * dtype))
    (name : string) (i j : nat) (r : list cell) :
  keep name = true ->
  index_of name cols = Some i ->
  index_of name (select (map (fun c => keep (fst c)) cols) cols) = Some j ->
  nth j (select (map (fun c => keep (fst c)) cols) r) CNaN = nth i r CNaN.
Proof.
  intros Hk. revert i j r.
  induction cols as [|[c d] cols IH]; intros i j r Hi Hj; [discriminate|].
  cbn [map fst select index_of] in *.
  destruct (String.eqb name c) eqn:E.
  - apply String.eqb_eq in E. subst c. rewrite Hk in *.
    cbn [index_of] in Hj. rewrite String.eqb_refl in Hj.
    injection Hi as <-. injection Hj as <-. destruct r; reflexivity.
  - destruct (index_of name cols) as [i'|] eqn:Ei; [|discriminate].
    injection Hi as <-.
    destruct (keep c) eqn:Ec.
    + cbn [index_of] in Hj. rewrite E in Hj.
      destruct (index_of name (select (map (fun c0 => keep (fst c0)) cols) cols))
        as [j'|] eqn:Ej; [|discriminate].
      injection Hj as <-. destruct r as [|x r]; [destruct i'; reflexivity|].
      cbn [select nth]. apply IH; reflexivity.
    + destruct r as [|x r].
      * destruct (map _ cols); destruct j, i'; reflexivity.
      * cbn [select nth]. apply IH; [reflexivity|exact Hj].
Qed.

Lemma select_keeps_dtype (keep : string -> bool) (cols : list (string * dtype))
    (name : string) (i j : nat) :
  keep name = true ->
  index_of name cols = Some i ->
  index_of name (select (map (fun c => keep (fst c)) cols) cols) = Some j ->
  nth j (select (map (fun c => keep (fst c)) cols) cols) (EmptyString, DObject)
  = nth i cols (EmptyString, DObject).
Proof.
  intros Hk. revert i j.
  induction cols as [|[c d] cols IH]; intros i j Hi Hj; [discriminate|].
  cbn [map fst select index_of] in *.
  destruct (String.eqb name c) eqn:E.
  - apply String.eqb_eq in E. subst c. rewrite Hk in *.
    cbn [index_of] in Hj. rewrite String.eqb_refl in Hj.
    injection Hi as <-. injection Hj as <-. reflexivity.
  - destruct (index_of name cols) as [i'|] eqn:Ei; [|discriminate].
    injection Hi as <-.
    destruct (keep c) eqn:Ec.
    + cbn [index_of] in Hj. rewrite E in Hj.
      destruct (index_of name (select (map (fun c0 => keep (fst c0)) cols) cols))
        as [j'|] eqn:Ej; [|discriminate].
      injection Hj as <-. cbn [nth]. apply IH; reflexivity.
    + cbn [nth]. apply IH; [reflexivity|exact Hj].
Qed.

Lemma dropped_has_column (df : DataFrame) (constant_cols : list string)
    (name : string) :
  let keep := fun n => negb (existsb (String.eqb n) constant_cols) in
  has_column
    (mkDF (select (map (fun c => keep (fst c)) (columns df)) (columns df))
          (map (select (map (fun c => keep (fst c)) (columns df))) (rows df)))
    name
  = has_column df name && negb (existsb (String.eqb name) constant_cols).
Proof.
  cbn zeta. apply eq_true_iff_eq.
  rewrite andb_true_iff, !has_column_In. cbn [columns].
  rewrite select_map_filter. rewrite !in_map_iff. split.
  - intros ([c d] & <- & Hin). apply filter_In in Hin as [Hin Hk].
    cbn [fst] in *. split; [|exact Hk]. exists (c, d). auto.
  - intros [([c d] & <- & Hin) Hk]. exists (c, d). split; [reflexivity|].
    apply filter_In. auto.
Qed.

(** X11: [drop_constant_columns] with an empty list does nothing; with a
    name that is not a column it raises [KeyError] and leaves the frame and
    the log as they were; otherwise it logs one entry, keeps every row, and
    the frame then has exactly the columns that were not named, each with
    the dtype and the cells it had. *)
Theorem drop_constant_columns_removes_named (constant_cols : list string)
    (w : DataCleaner) :
  let o := drop_constant_columns constant_cols w in
  (constant_cols = [] -> o = returns w) /\
  (forallb (has_column (cleaner_df w)) constant_cols = false ->
   after o = w /\ raised o = Some KeyError) /\
  (constant_cols <> [] ->
   forallb (has_column (cleaner_df w)) constant_cols = true ->
   raised o = None /\
   history (after o)
   = history w ++ [("Dropped constant columns: " ++ join_comma constant_cols)%string] /\
   len (cleaner_df (after o)) = len (cleaner_df w) /\
   (forall name,
       has_column (cleaner_df (after o)) name
       = has_column (cleaner_df w) name
         && negb (existsb (String.eqb name) constant_cols)) /\
   (forall name i j,
       index_of name (columns (cleaner_df w)) = Some i ->
       index_of name (columns (cleaner_df (after o))) = Some j ->
       dtype_at (cleaner_df (after o)) j = dtype_at (cleaner_df w) i /\
       column_at (cleaner_df (after o)) j = column_at (cleaner_df w) i)).
Proof.
  cbn zeta. split; [|split].
  - intros ->. reflexivity.
  - intros Hf. unfold drop_constant_columns.
    destruct constant_cols as [|c cs]; [discriminate|].
    rewrite Hf. split; reflexivity.
  - intros Hne Hf. unfold drop_constant_columns.
    destruct constant_cols as [|c cs]; [contradiction|].
    rewrite Hf. cbn [returns after raised history cleaner_df].
    set (cols := c :: cs) in *.
    split; [reflexivity|]. split; [reflexivity|].
    split; [unfold len; cbn [rows]; apply length_map|].
    split; [intros name; apply (dropped_has_column (cleaner_df w) cols name)|].
    intros name i j Hi Hj.
    assert (Hk : negb (existsb (String.eqb name) cols) = true).
    { pose proof (dropped_has_column (cleaner_df w) cols name) as H.
      cbn zeta in H.
      assert (Hhas : has_column
                       (mkDF (select (map (fun c0 => negb (existsb (String.eqb (fst c0)) cols))
                                          (columns (cleaner_df w)))
                                     (columns (cleaner_df w)))
                             (map (select (map (fun c0 => negb (existsb (String.eqb (fst c0)) cols))
                                               (columns (cleaner_df w))))
                                  (rows (cleaner_df w))))
                       name = true)
        by (unfold has_column; rewrite Hj; reflexivity).
      pose proof (eq_trans (eq_sym H) Hhas) as Hand.
      apply andb_true_iff in Hand. tauto. }
    cbn [columns] in Hj. split.
    + unfold dtype_at. cbn [columns]. f_equal.
      apply (select_keeps_dtype
               (fun n => negb (existsb (String.eqb n) cols))
               (columns (cleaner_df w)) name i j); assumption.
    + unfold column_at. cbn [rows]. rewrite map_map. apply map_ext.
      intros r.
      apply (select_keeps_cell
               (fun n => negb (existsb (String.eqb n) cols))
               (columns (cleaner_df w)) name i j r); assumption.
Qed.

(** ** The cleaner: no missing cell is left *)

Lemma update_nth_length {A : Type} (f : A -> A) (l : list A) (i : nat) :
  length (update_nth i f l) = length l.
Proof.
  revert i. induction l as [|a l IH]; intros [|i]; simpl; auto.
Qed.

Lemma nth_update_nth_in {A : Type} (f : A -> A) (l : list A) (i : nat) (d : A) :
  (i < length l)%nat -> nth i (update_nth i f l) d = f (nth i l d).
Proof.
  revert i. induction l as [|a l IH]; intros [|i] H; simpl in *; try lia.
  - reflexivity.
  - apply IH. lia.
Qed.

Lemma index_of_lt (name : string) (cols : list (string * dtype)) (i : nat) :
  index_of name cols = Some i -> (i < length cols)%nat.
Proof.
  intros H. destruct (index_of_nth name cols i H) as [d Hd].
  apply nth_error_Some. congruence.
Qed.

Lemma set_column_well_formed (df : DataFrame) (i : nat) (f : cell -> cell)
    (d : dtype) :
  well_formed df -> well_formed (set_column df i f d).
Proof.
  unfold well_formed, set_column, ncols. cbn [rows columns].
  rewrite update_nth_length. intros H.
  apply Forall_map. eapply List.Forall_impl; [|exact H].
  intros r Hr. cbn beta. rewrite update_nth_length. exact Hr.
Qed.

Lemma filter_rows_well_formed (df : DataFrame) (keep : list cell -> bool) :
  well_formed df -> well_formed (filter_rows df keep).
Proof.
  unfold well_formed, filter_rows, ncols. cbn [rows columns]. intros H.
  apply List.Forall_forall. intros r Hr. apply filter_In in Hr as [Hr _].
  rewrite List.Forall_forall in H. apply H. exact Hr.
Qed.


Lemma complete_filter_rows (df : DataFrame) (keep : list cell -> bool) (i : nat) :
  complete_column df i -> complete_column (filter_rows df keep) i.
Proof.
  unfold complete_column, column_at, filter_rows. cbn [rows].
  rewrite !List.Forall_forall. intros H c Hc.
  apply in_map_iff in Hc as (r & <- & Hr). apply filter_In in Hr as [Hr _].
  apply H. apply in_map_iff. exists r. auto.
Qed.








Section MissingValues.

Variable str_of_number : Q -> string.

Lemma step_well_formed (w : DataCleaner) (f : column_finding) :
  well_formed (cleaner_df w) -> well_formed (cleaner_df (handle_missing_column str_of_number w f)).
Proof.
  intros H. unfold handle_missing_column.
  destruct (index_of (cf_column f) (columns (cleaner_df w))) as [i|];
    [|exact H].
  destruct (cf_severity f);
    try (destruct (is_numeric (dtype_at (cleaner_df w) i)));
    cbn [cleaner_df];
    first [apply set_column_well_formed | apply filter_rows_well_formed];
    exact H.
Qed.



Lemma steps_columns (findings : list column_finding) (w : DataCleaner) :
  columns (cleaner_df (fold_left (handle_missing_column str_of_number) findings w)) = columns (cleaner_df w).
Proof.
  revert w. induction findings as [|f fs IH]; intros w; simpl; [reflexivity|].
  rewrite IH. apply handle_missing_column_columns.
Qed.

Lemma steps_well_formed (findings : list column_finding) (w : DataCleaner) :
  well_formed (cleaner_df w) ->
  well_formed (cleaner_df (fold_left (handle_missing_column str_of_number) findings w)).
Proof.
  revert w. induction findings as [|f fs IH]; intros w H; simpl; [exact H|].
  apply IH. apply step_well_formed. exact H.
Qed.




End MissingValues.



(** ** The cleaner: removing rows with outliers *)

Lemma remove_turn (w : DataCleaner) (col : string) (n i : nat) :
  index_of col (columns (cleaner_df w)) = Some i ->
  n <> 0%nat ->
  dtype_at (cleaner_df w) i = DNumeric ->
  handle_outlier_column "remove" w (col, Some n)
  = mkOutcome
      (mkCleaner
         (filter_rows (cleaner_df w)
            (fun r => within (fences (numbers (column_at (cleaner_df w) i)))
                             (nth i r CNaN)))
         (history w ++ [("Removed rows with outliers in " ++ col)%string]))
      true None.
Proof.
  intros Hi Hn Hd. unfold handle_outlier_column. cbn [fst snd]. rewrite Hi.
  replace (default 0%nat (Some n) =? 0)%nat with false
    by (symmetry; apply Nat.eqb_neq; exact Hn).
  rewrite Hd. reflexivity.
Qed.

Lemma within_complete (df : DataFrame) (f : option (Q * Q)) (i : nat) :
  complete_column (filter_rows df (fun r => within f (nth i r CNaN))) i.
Proof.
  unfold complete_column, column_at, filter_rows. cbn [rows].
  apply List.Forall_forall. intros c Hc.
  apply in_map_iff in Hc as (r & <- & Hr). apply filter_In in Hr as [_ Hr].
  unfold within in Hr. destruct f as [[lo up]|]; [|discriminate].
  destruct (nth i r CNaN); try discriminate. reflexivity.
Qed.

Lemma handle_outliers_from_remove (summary : list (string * option nat))
    (w : DataCleaner) (b : bool) :
  (forall col i, flagged summary col ->
                 index_of col (columns (cleaner_df w)) = Some i ->
                 dtype_at (cleaner_df w) i = DNumeric) ->
  let o := handle_outliers_from summary "remove" w b in
  raised o = None /\
  columns (cleaner_df (after o)) = columns (cleaner_df w) /\
  incl (rows (cleaner_df (after o))) (rows (cleaner_df w)) /\
  (forall col i, flagged summary col ->
                 index_of col (columns (cleaner_df w)) = Some i ->
                 complete_column (cleaner_df (after o)) i) /\
  (forall i, complete_column (cleaner_df w) i ->
             complete_column (cleaner_df (after o)) i) /\
  (rebound o = true <->
   b = true \/ exists col, flagged summary col
                           /\ has_column (cleaner_df w) col = true).
Proof.
  revert w b. induction summary as [|[col0 s0] rest IH]; intros w b Hnum.
  - cbn. split; [reflexivity|]. split; [reflexivity|].
    split; [apply incl_refl|]. split; [intros col i (n & [] & _)|].
    split; [auto|]. split; [auto|].
    intros [H|(col & (n & [] & _) & _)]; exact H.
  - cbn zeta. cbn [handle_outliers_from].
    assert (Hskip : handle_outlier_column "remove" w (col0, s0) = returns w ->
              let o := handle_outliers_from rest "remove" w (b || false) in
              (forall col, flagged ((col0, s0) :: rest) col ->
                           has_column (cleaner_df w) col = true ->
                           flagged rest col) ->
              raised o = None /\
              columns (cleaner_df (after o)) = columns (cleaner_df w) /\
              incl (rows (cleaner_df (after o))) (rows (cleaner_df w)) /\
              (forall col i, flagged ((col0, s0) :: rest) col ->
                             index_of col (columns (cleaner_df w)) = Some i ->
                             complete_column (cleaner_df (after o)) i) /\
              (forall i, complete_column (cleaner_df w) i ->
                         complete_column (cleaner_df (after o)) i) /\
              (rebound o = true <->
               b = true \/ exists col, flagged ((col0, s0) :: rest) col
                                       /\ has_column (cleaner_df w) col = true)).
    { intros _ o Hrest.
      destruct (IH w (b || false)) as (Hr & Hc & Hincl & Hflag & Hkeep & Hreb).
      { intros col i Hf. apply Hnum. apply flagged_cons. right. exact Hf. }
      fold o in Hr, Hc, Hincl, Hflag, Hkeep, Hreb.
      split; [exact Hr|]. split; [exact Hc|]. split; [exact Hincl|].
      split; [|split; [exact Hkeep|]].
      - intros col i Hf Hi. apply (Hflag col i); [|exact Hi].
        apply Hrest; [exact Hf|]. unfold has_column. rewrite Hi. reflexivity.
      - rewrite Hreb, orb_false_r. split.
        + intros [H|(col & Hf & Hc')]; [left; exact H|right].
          exists col. split; [apply flagged_cons; right; exact Hf|exact Hc'].
        + intros [H|(col & Hf & Hc')]; [left; exact H|right].
          exists col. split; [apply Hrest; assumption|exact Hc']. }
    destruct (index_of col0 (columns (cleaner_df w))) as [i0|] eqn:Hi0.
    2: { assert (Hs : handle_outlier_column "remove" w (col0, s0) = returns w).
         { apply skipped_turn. intros n _ _. exact Hi0. }
         rewrite Hs. cbn [raised returns after rebound].
         apply Hskip; [exact Hs|].
         intros col Hf Hc. apply flagged_cons in Hf as [(n & Heq & _)|Hf];
           [|exact Hf].
         injection Heq as <- _. unfold has_column in Hc. rewrite Hi0 in Hc.
         discriminate. }
    destruct s0 as [[|n]|].
    1: { assert (Hs : handle_outlier_column "remove" w (col0, Some 0%nat)
                      = returns w)
           by (apply skipped_turn; cbn [snd]; intros m Heq Hm; congruence).
         rewrite Hs. cbn [raised returns after rebound].
         apply Hskip; [exact Hs|].
         intros col Hf Hc. apply flagged_cons in Hf as [(m & Heq & Hm)|Hf];
           [exfalso; congruence|exact Hf]. }
    2: { assert (Hs : handle_outlier_column "remove" w (col0, None) = returns w)
           by (apply skipped_turn; cbn [snd]; intros m Heq Hm; discriminate).
         rewrite Hs. cbn [raised returns after rebound].
         apply Hskip; [exact Hs|].
         intros col Hf Hc. apply flagged_cons in Hf as [(m & Heq & Hm)|Hf];
           [exfalso; congruence|exact Hf]. }
    assert (Hflag0 : flagged ((col0, Some (S n)) :: rest) col0).
    { apply flagged_cons. left. exists (S n). split; [reflexivity|lia]. }
    rewrite (remove_turn w col0 (S n) i0 Hi0);
      [|lia|apply (Hnum col0 i0 Hflag0 Hi0)].
    cbn [raised after rebound].
    set (w1 := mkCleaner _ _).
    destruct (IH w1 (b || true)) as (Hr & Hc & Hincl & Hflag & Hkeep & Hreb).
    { intros col i Hf Hi. cbn [w1 cleaner_df filter_rows columns] in Hi.
      unfold dtype_at. cbn [w1 cleaner_df filter_rows columns].
      apply (Hnum col i); [apply flagged_cons; right; exact Hf|exact Hi]. }
    split; [exact Hr|]. split; [exact Hc|]. split.
    { intros r Hin. apply Hincl in Hin.
      cbn [w1 cleaner_df filter_rows rows] in Hin.
      apply filter_In in Hin as [Hin _]. exact Hin. }
    split; [|split].
    + intros col i Hf Hi. apply flagged_cons in Hf as [(m & Heq & _)|Hf].
      * injection Heq as <- _. assert (i = i0) by congruence. subst i.
        apply Hkeep. apply within_complete.
      * apply (Hflag col i Hf). exact Hi.
    + intros i Hcomp. apply Hkeep. apply complete_filter_rows. exact Hcomp.
    + rewrite Hreb, orb_true_r. split; [|auto]. intros _. right.
      exists col0. split; [exact Hflag0|]. unfold has_column. rewrite Hi0.
      reflexivity.
Qed.

(** X13: under ['remove'], when the flagged columns are numeric,
    [handle_outliers] ends normally, keeps the columns, and only drops rows;
    afterwards no flagged column of the frame has a missing cell - a row
    whose flagged cell is missing is dropped along with the outliers - and
    [self.df] is bound to a new frame exactly when some flagged column is in
    the frame. *)
Theorem handle_outliers_remove_drops_rows
    (outlier_summary : list (string * option nat)) (w : DataCleaner) :
  (forall col i, flagged outlier_summary col ->
                 index_of col (columns (cleaner_df w)) = Some i ->
                 dtype_at (cleaner_df w) i = DNumeric) ->
  let o := handle_outliers outlier_summary "remove" w in
  raised o = None /\
  columns (cleaner_df (after o)) = columns (cleaner_df w) /\
  incl (rows (cleaner_df (after o))) (rows (cleaner_df w)) /\
  (forall col i, flagged outlier_summary col ->
                 index_of col (columns (cleaner_df w)) = Some i ->
                 complete_column (cleaner_df (after o)) i) /\
  (rebound o = true <->
   exists col, flagged outlier_summary col
               /\ has_column (cleaner_df w) col = true).
Proof.
  intros Hnum. cbn zeta. unfold handle_outliers.
  destruct (handle_outliers_from_remove outlier_summary w false Hnum)
    as (Hr & Hc & Hincl & Hflag & _ & Hreb).
  split; [exact Hr|]. split; [exact Hc|]. split; [exact Hincl|].
  split; [exact Hflag|]. rewrite Hreb. split.
  - intros [H|H]; [discriminate|exact H].
  - auto.
Qed.

Lemma handle_outliers_remove_drops_rows_witness :
  (forall col i, flagged [("salary"%string, Some 1%nat)] col ->
                 index_of col (columns base_test_data) = Some i ->
                 dtype_at base_test_data i = DNumeric) /\
  complete_column
    (cleaner_df
       (after (handle_outliers [("salary"%string, Some 1%nat)] "remove"
                 (mkCleaner base_test_data []))))
    2.
Proof.
  assert (Hnum : forall col i,
             flagged [("salary"%string, Some 1%nat)] col ->
             index_of col (columns (cleaner_df (mkCleaner base_test_data [])))
             = Some i ->
             dtype_at (cleaner_df (mkCleaner base_test_data [])) i = DNumeric).
  { intros col i (n & [[= <- <-]|[]] & _) Hi. vm_compute in Hi.
    injection Hi as <-. reflexivity. }
  split; [exact Hnum|].
  destruct (handle_outliers_remove_drops_rows [("salary"%string, Some 1%nat)]
              (mkCleaner base_test_data []) Hnum) as (_ & _ & _ & H & _).
  apply (H "salary"%string 2%nat).
  - exists 1%nat. split; [left; reflexivity|discriminate].
  - reflexivity.
Defined.

Lemma handle_outliers_from_skips (summary : list (string * option nat))
    (method : string) (w : DataCleaner) (b : bool) :
  (forall entry, In entry summary ->
                 handle_outlier_column method w entry = returns w) ->
  handle_outliers_from summary method w b = mkOutcome w b None.
Proof.
  revert b. induction summary as [|e rest IH]; intros b H; [reflexivity|].
  cbn [handle_outliers_from]. rewrite (H e (or_introl eq_refl)).
  cbn [raised returns after rebound]. rewrite orb_false_r.
  apply IH. intros entry Hin. apply H. right. exact Hin.
Qed.

(** X14: [handle_outliers] changes nothing, logs nothing and raises nothing
    when no flagged column of the summary is in the frame (entries with a
    count of 0 or without [iqr_outliers] are not flagged), whatever the
    method; and also, the flagged columns being numeric, when the method is
    neither ['clip'] nor ['remove']. *)
Theorem handle_outliers_nothing_to_do
    (outlier_summary : list (string * option nat)) (method : string)
    (w : DataCleaner) :
  ((forall col, flagged outlier_summary col ->
                has_column (cleaner_df w) col = false) ->
   handle_outliers outlier_summary method w = mkOutcome w false None) /\
  (method <> "clip"%string -> method <> "remove"%string ->
   (forall col i, flagged outlier_summary col ->
                  index_of col (columns (cleaner_df w)) = Some i ->
                  dtype_at (cleaner_df w) i = DNumeric) ->
   handle_outliers outlier_summary method w = mkOutcome w false None).
Proof.
  split.
  - intros H. unfold handle_outliers. apply handle_outliers_from_skips.
    intros [col s] Hin. apply skipped_turn. cbn [fst snd]. intros n -> Hn.
    assert (Hf : flagged outlier_summary col) by (exists n; auto).
    specialize (H col Hf). unfold has_column in H.
    destruct (index_of col (columns (cleaner_df w))); [discriminate|reflexivity].
  - intros Hclip Hremove Hnum. unfold handle_outliers.
    apply handle_outliers_from_skips. intros [col s] Hin.
    unfold handle_outlier_column. cbn [fst snd].
    destruct (index_of col (columns (cleaner_df w))) as [i|] eqn:Hi;
      [|reflexivity].
    destruct (default 0%nat s =? 0)%nat eqn:E; [reflexivity|].
    apply Nat.eqb_neq in E. destruct s as [n|]; [|contradiction].
    assert (Hf : flagged outlier_summary col) by (exists n; auto).
    rewrite (Hnum col i Hf Hi).
    apply String.eqb_neq in Hclip, Hremove. rewrite Hclip, Hremove.
    reflexivity.
Qed.

(** ** The cleaner: enforcing types *)

Lemma index_of_names (name : string) (c1 c2 : list (string * dtype)) :
  map fst c1 = map fst c2 -> index_of name c1 = index_of name c2.
Proof.
  revert c2. induction c1 as [|[a d] c1 IH]; intros [|[b e] c2] H;
    try discriminate; [reflexivity|].
  simpl in *. injection H as -> H. rewrite (IH c2 H). reflexivity.
Qed.

Lemma set_column_names (df : DataFrame) (i : nat) (f : cell -> cell) (d : dtype) :
  map fst (columns (set_column df i f d)) = map fst (columns df).
Proof.
  unfold set_column. cbn [columns]. revert i.
  induction (columns df) as [|c cols IH]; intros [|i]; simpl; try reflexivity.
  rewrite IH. reflexivity.
Qed.

Lemma set_column_len (df : DataFrame) (i : nat) (f : cell -> cell) (d : dtype) :
  len (set_column df i f d) = len df.
Proof.
  unfold len, set_column. cbn [rows]. apply length_map.
Qed.

Lemma dtype_at_set_column_other (df : DataFrame) (i j : nat) (f : cell -> cell)
    (d : dtype) :
  i <> j -> dtype_at (set_column df i f d) j = dtype_at df j.
Proof.
  intros H. unfold dtype_at, set_column. cbn [columns].
  rewrite nth_update_nth_other; [reflexivity|exact H].
Qed.

Lemma dtype_at_set_column_same (df : DataFrame) (i : nat) (f : cell -> cell)
    (d : dtype) :
  (i < ncols df)%nat -> dtype_at (set_column df i f d) i = d.
Proof.
  intros H. unfold dtype_at, set_column. cbn [columns].
  rewrite nth_update_nth_in; [reflexivity|exact H].
Qed.


Lemma index_of_dec (name : string) (cols : list (string * dtype)) (i : nat) :
  index_of name cols = Some i \/ index_of name cols <> Some i.
Proof.
  destruct (index_of name cols) as [j|]; [|right; discriminate].
  destruct (Nat.eq_dec j i); [left|right]; congruence.
Qed.


Section EnforceTypes.

Variable parse_number : string -> option Q.
Variable str_of_number : Q -> string.

Lemma enforce_numeric_turn (w : DataCleaner) (col : string) :
  let w1 := enforce_numeric parse_number w col in
  map fst (columns (cleaner_df w1)) = map fst (columns (cleaner_df w)) /\
  len (cleaner_df w1) = len (cleaner_df w) /\
  forall i,
    (index_of col (columns (cleaner_df w)) = Some i ->
     dtype_at (cleaner_df w) i = DObject ->
     column_at (cleaner_df w1) i
     = map (to_numeric_cell parse_number) (column_at (cleaner_df w) i) /\
     dtype_at (cleaner_df w1) i = DNumeric) /\
    (index_of col (columns (cleaner_df w)) <> Some i
     \/ dtype_at (cleaner_df w) i <> DObject ->
     column_at (cleaner_df w1) i = column_at (cleaner_df w) i /\
     dtype_at (cleaner_df w1) i = dtype_at (cleaner_df w) i).
Proof.
  cbn zeta. unfold enforce_numeric.
  destruct (index_of col (columns (cleaner_df w))) as [i0|] eqn:Hi0.
  2: { split; [reflexivity|]. split; [reflexivity|]. intros i.
       split; [discriminate|auto]. }
  pose proof (index_of_lt _ _ _ Hi0) as Hlt.
  destruct (dtype_at (cleaner_df w) i0) eqn:Hd.
  1, 3: split; [reflexivity|]; split; [reflexivity|]; intros i;
    (split; [intros [= <-] H; congruence|auto]).
  cbn [cleaner_df]. split; [apply set_column_names|].
  split; [apply set_column_len|]. intros i. split.
  - intros [= <-] _. split.
    + apply column_at_set_column_same. reflexivity.
    + apply dtype_at_set_column_same. exact Hlt.
  - intros H. assert (Hne : i0 <> i).
    { intros ->. destruct H as [H|H]; [apply H; reflexivity|apply H; exact Hd]. }
    split.
    + apply column_at_set_column_other. exact Hne.
    + apply dtype_at_set_column_other. exact Hne.
Qed.

Lemma enforce_numeric_fold (cols : list string) (w : DataCleaner) :
  let w1 := fold_left (enforce_numeric parse_number) cols w in
  map fst (columns (cleaner_df w1)) = map fst (columns (cleaner_df w)) /\
  len (cleaner_df w1) = len (cleaner_df w) /\
  forall i,
    (reaches cols (cleaner_df w) i ->
     dtype_at (cleaner_df w) i = DObject ->
     column_at (cleaner_df w1) i
     = map (to_numeric_cell parse_number) (column_at (cleaner_df w) i) /\
     dtype_at (cleaner_df w1) i = DNumeric) /\
    (~ reaches cols (cleaner_df w) i \/ dtype_at (cleaner_df w) i <> DObject ->
     column_at (cleaner_df w1) i = column_at (cleaner_df w) i /\
     dtype_at (cleaner_df w1) i = dtype_at (cleaner_df w) i).
Proof.
  revert w. induction cols as [|c0 cols IH]; intros w; cbn zeta.
  - split; [reflexivity|]. split; [reflexivity|]. intros i. split.
    + intros (c & [] & _).
    + auto.
  - cbn [fold_left].
    destruct (enforce_numeric_turn w c0) as (Hn0 & Hl0 & Ht).
    destruct (IH (enforce_numeric parse_number w c0)) as (Hn & Hl & Hrest).
    set (w' := enforce_numeric parse_number w c0) in *.
    assert (Hreach : forall i, reaches cols (cleaner_df w') i
                               <-> reaches cols (cleaner_df w) i).
    { intros i. unfold reaches.
      split; intros (c & Hc & Hi); exists c; (split; [exact Hc|]);
        [rewrite <- (index_of_names c _ _ Hn0)|rewrite (index_of_names c _ _ Hn0)];
        exact Hi. }
    split; [congruence|]. split; [congruence|]. intros i.
    destruct (Hrest i) as [Hhit Hmiss]. destruct (Ht i) as [Ht1 Ht2].
    split.
    + intros (c & [<-|Hc] & Hi) Hd.
      * destruct (Ht1 Hi Hd) as [Hcol Hdt].
        destruct Hmiss as [Hc1 Hd1]; [right; congruence|].
        split; congruence.
      * destruct (index_of_dec c0 (columns (cleaner_df w)) i) as [Hi0|Hi0].
        -- destruct (Ht1 Hi0 Hd) as [Hcol Hdt].
           destruct Hmiss as [Hc1 Hd1]; [right; congruence|].
           split; congruence.
        -- destruct Ht2 as [Hcol Hdt]; [left; exact Hi0|].
           destruct Hhit as [Hc1 Hd1];
             [apply Hreach; exists c; auto|congruence|].
           split; congruence.
    + intros Hno.
      assert (Hturn : index_of c0 (columns (cleaner_df w)) <> Some i
                      \/ dtype_at (cleaner_df w) i <> DObject).
      { destruct Hno as [Hno|Hno]; [left|right; exact Hno].
        intros Hi. apply Hno. exists c0. split; [left; reflexivity|exact Hi]. }
      destruct (Ht2 Hturn) as [Hcol Hdt].
      destruct Hmiss as [Hc1 Hd1].
      { destruct Hno as [Hno|Hno]; [left|right; congruence].
        intros Hr. apply Hno. apply Hreach in Hr as (c & Hc & Hi).
        exists c. split; [right; exact Hc|exact Hi]. }
      split; congruence.
Qed.


Lemma fold_left_fixed {A B : Type} (f : A -> B -> A) (l : list B) (a : A) :
  (forall b, In b l -> f a b = a) -> fold_left f l a = a.
Proof.
  induction l as [|b l IH]; intros H; [reflexivity|].
  cbn [fold_left]. rewrite (H b (or_introl eq_refl)).
  apply IH. intros b' Hb'. apply H. right. exact Hb'.
Qed.

(** X15: [enforce_types] with numeric column names turns every named object
    column into a numeric one, each cell going through the parser (what does
    not parse becomes missing), and leaves every other column, the column
    names and the row count as they were; a second call with the same names
    changes nothing and logs nothing. *)
Theorem enforce_types_numeric_converts_once (cols : list string) (w : DataCleaner) :
  let e := mkExpected cols [] in
  let once := after (enforce_types parse_number str_of_number e w) in
  let twice := after (enforce_types parse_number str_of_number e once) in
  twice = once /\
  map fst (columns (cleaner_df once)) = map fst (columns (cleaner_df w)) /\
  len (cleaner_df once) = len (cleaner_df w) /\
  (forall i,
      reaches cols (cleaner_df w) i ->
      dtype_at (cleaner_df w) i = DObject ->
      column_at (cleaner_df once) i
      = map (to_numeric_cell parse_number) (column_at (cleaner_df w) i) /\
      dtype_at (cleaner_df once) i = DNumeric) /\
  (forall i,
      ~ reaches cols (cleaner_df w) i \/ dtype_at (cleaner_df w) i <> DObject ->
      column_at (cleaner_df once) i = column_at (cleaner_df w) i /\
      dtype_at (cleaner_df once) i = dtype_at (cleaner_df w) i).
Proof.
  cbn zeta. unfold enforce_types.
  cbn [after returns numeric_columns categorical_columns fold_left].
  destruct (enforce_numeric_fold cols w) as (Hn & Hl & Hpos).
  set (w1 := fold_left (enforce_numeric parse_number) cols w) in *.
  split; [|split; [exact Hn|split; [exact Hl|split; intros i; apply Hpos]]].
  apply fold_left_fixed. intros c Hc. unfold enforce_numeric.
  destruct (index_of c (columns (cleaner_df w1))) as [i|] eqn:Hi; [|reflexivity].
  rewrite (index_of_names c _ _ Hn) in Hi.
  assert (Hr : reaches cols (cleaner_df w) i) by (exists c; auto).
  destruct (Hpos i) as [Hhit Hmiss].
  destruct (dtype_at (cleaner_df w) i) eqn:Hd.
  - destruct Hmiss as [_ ->]; [right; discriminate|reflexivity].
  - destruct (Hhit Hr eq_refl) as [_ ->]. reflexivity.
  - destruct Hmiss as [_ ->]; [right; discriminate|reflexivity].
Qed.








End EnforceTypes.

(** ** main.py: the cleaning block as a whole *)

Lemma and_then_returned (o : outcome) (k : DataCleaner -> outcome) :
  raised o = None ->
  and_then o k
  = mkOutcome (after (k (after o))) (rebound o || rebound (k (after o)))
              (raised (k (after o))).
Proof.
  intros H. unfold and_then. rewrite H. reflexivity.
Qed.

Lemma map_snd_combine_seq {A : Type} (l : list A) (s : nat) :
  map snd (combine (seq s (length l)) l) = l.
Proof.
  revert s. induction l as [|a l IH]; intros s; simpl; [reflexivity|].
  rewrite IH. reflexivity.
Qed.

Lemma indexed_names (cols : list (string * dtype)) :
  map (fun ic : nat * (string * dtype) => fst (snd ic)) (indexed cols)
  = map fst cols.
Proof.
  unfold indexed. rewrite <- (map_map snd fst), map_snd_combine_seq.
  reflexivity.
Qed.

Lemma NoDup_map_filter {A B : Type} (g : A -> B) (p : A -> bool) (l : list A) :
  List.NoDup (map g l) -> List.NoDup (map g (List.filter p l)).
Proof.
  induction l as [|a l IH]; simpl; [auto|]. intros H.
  inversion H as [|? ? Hnotin Hnd]; subst. destruct (p a); simpl.
  - constructor; [|apply IH; exact Hnd]. intros Hin. apply Hnotin.
    apply in_map_iff in Hin as (x & Hx & Hin). apply filter_In in Hin as [Hin _].
    apply in_map_iff. exists x. auto.
  - apply IH. exact Hnd.
Qed.

Lemma dtype_at_nth_error (df : DataFrame) (i : nat) (name : string) (d : dtype) :
  nth_error (columns df) i = Some (name, d) -> dtype_at df i = d.
Proof.
  intros H. unfold dtype_at. rewrite (nth_error_nth _ _ _ H). reflexivity.
Qed.

Lemma constant_columns_present (sqrtQ : Q -> Q) (df : DataFrame) :
  forallb (has_column df) (constant_columns (metadata (generate_profile sqrtQ df)))
  = true.
Proof.
  apply forallb_forall. intros name Hin.
  apply constant_columns_In in Hin as (i & d & Hn & _).
  apply has_column_In. apply in_map_iff. exists (name, d). split; [reflexivity|].
  eapply nth_error_In. exact Hn.
Qed.

(** What the later steps need to know of [drop_constant_columns]. *)
Lemma drop_constant_columns_keeps_dtypes (constant_cols : list string)
    (w : DataCleaner) :
  forallb (has_column (cleaner_df w)) constant_cols = true ->
  let o := drop_constant_columns constant_cols w in
  raised o = None /\ rebound o = false /\
  len (cleaner_df (after o)) = len (cleaner_df w) /\
  forall name j,
    index_of name (columns (cleaner_df (after o))) = Some j ->
    exists i, index_of name (columns (cleaner_df w)) = Some i /\
              dtype_at (cleaner_df (after o)) j = dtype_at (cleaner_df w) i.
Proof.
  intros Hf. cbn zeta. unfold drop_constant_columns.
  destruct constant_cols as [|c cs].
  { cbn [returns raised rebound after]. repeat split. eauto. }
  rewrite Hf. cbn [returns raised rebound after cleaner_df].
  set (cols := c :: cs) in *.
  split; [reflexivity|]. split; [reflexivity|].
  split; [unfold len; cbn [rows]; apply length_map|].
  intros name j Hj.
  pose proof (dropped_has_column (cleaner_df w) cols name) as H. cbn zeta in H.
  assert (Hhas : has_column
                   (mkDF (select (map (fun c0 => negb (existsb (String.eqb (fst c0)) cols))
                                      (columns (cleaner_df w)))
                                 (columns (cleaner_df w)))
                         (map (select (map (fun c0 => negb (existsb (String.eqb (fst c0)) cols))
                                           (columns (cleaner_df w))))
                              (rows (cleaner_df w))))
                   name = true)
    by (unfold has_column; rewrite Hj; reflexivity).
  pose proof (eq_trans (eq_sym H) Hhas) as Hand.
  apply andb_true_iff in Hand as [Hin Hk].
  unfold has_column in Hin.
  destruct (index_of name (columns (cleaner_df w))) as [i|] eqn:Hi;
    [|discriminate].
  exists i. split; [reflexivity|].
  cbn [columns] in Hj. unfold dtype_at. cbn [columns]. f_equal.
  apply (select_keeps_dtype (fun n => negb (existsb (String.eqb n) cols))
           (columns (cleaner_df w)) name i j); assumption.
Qed.

Lemma clip_never_rebinds (summary : list (string * option nat))
    (w : DataCleaner) (b : bool) :
  rebound (handle_outliers_from summary "clip" w b) = b.
Proof.
  revert w b. induction summary as [|e rest IH]; intros w b; [reflexivity|].
  cbn [handle_outliers_from].
  assert (Hturn : rebound (handle_outlier_column "clip" w e) = false).
  { unfold handle_outlier_column.
    destruct (index_of (fst e) (columns (cleaner_df w))); [|reflexivity].
    destruct (default 0%nat (snd e) =? 0)%nat; [reflexivity|].
    destruct (dtype_at (cleaner_df w) n); reflexivity. }
  destruct (raised (handle_outlier_column "clip" w e)).
  - cbn [rebound]. rewrite Hturn. apply orb_false_r.
  - rewrite IH, Hturn. apply orb_false_r.
Qed.

Lemma clip_keeps_len (summary : list (string * option nat))
    (w : DataCleaner) (b : bool) :
  len (cleaner_df (after (handle_outliers_from summary "clip" w b)))
  = len (cleaner_df w).
Proof.
  revert w b. induction summary as [|e rest IH]; intros w b; [reflexivity|].
  cbn [handle_outliers_from].
  assert (Hturn : len (cleaner_df (after (handle_outlier_column "clip" w e)))
                  = len (cleaner_df w)).
  { unfold handle_outlier_column.
    destruct (index_of (fst e) (columns (cleaner_df w))); [|reflexivity].
    destruct (default 0%nat (snd e) =? 0)%nat; [reflexivity|].
    destruct (dtype_at (cleaner_df w) n); try reflexivity.
    cbn [String.eqb Ascii.eqb Bool.eqb andb returns after cleaner_df].
    destruct (fences _) as [[lo up]|]; [apply set_column_len|reflexivity]. }
  destruct (raised (handle_outlier_column "clip" w e)).
  - cbn [after]. exact Hturn.
  - rewrite IH. exact Hturn.
Qed.

Lemma missing_steps_len (str_of_number : Q -> string)
    (findings : list column_finding) (w : DataCleaner) :
  (len (cleaner_df (fold_left (handle_missing_column str_of_number) findings w))
   <= len (cleaner_df w))%nat.
Proof.
  revert w. induction findings as [|f fs IH]; intros w; [cbn; lia|].
  cbn [fold_left]. etransitivity; [apply IH|].
  unfold handle_missing_column.
  destruct (index_of (cf_column f) (columns (cleaner_df w))) as [i|];
    [|lia].
  destruct (cf_severity f);
    try (destruct (is_numeric (dtype_at (cleaner_df w) i)));
    cbn [cleaner_df]; rewrite ?set_column_len;
    first [lia | unfold len, filter_rows; cbn [rows]; apply filter_length_bound].
Qed.

Lemma drop_duplicate_rows_len (df : DataFrame) :
  (len (drop_duplicate_rows df) <= len df)%nat.
Proof.
  pose proof (duplicated_count df). lia.
Qed.

Lemma drop_duplicate_rows_columns (df : DataFrame) :
  columns (drop_duplicate_rows df) = columns df.
Proof.
  unfold drop_duplicate_rows. destruct (df_empty df); reflexivity.
Qed.

Section CleaningBlock.

Variable sqrtQ : Q -> Q.
Variable zscore_count : list Q -> Q -> nat.
Variable isolation_forest : Q -> list (list Q) -> option nat.
Variable parse_number : string -> option Q.
Variable str_of_number : Q -> string.

Lemma detect_columns_names (df : DataFrame) (k zt : Q)
    (cols : list (nat * (string * dtype))) :
  map fst (detect_columns zscore_count df k zt cols)
  = map (fun ic : nat * (string * dtype) => fst (snd ic))
        (List.filter
           (fun ic => negb (nunique (dropna_cells (column_at df (fst ic))) <=? 1)%nat)
           cols).
Proof.
  induction cols as [|ic cols IH]; simpl; [reflexivity|].
  unfold detect_column.
  destruct (nunique (dropna_cells (column_at df (fst ic))) <=? 1)%nat; simpl;
    rewrite IH; reflexivity.
Qed.

Lemma summary_dict_keys (df : DataFrame) (k zt c : Q) :
  unique_names df ->
  List.NoDup
    (map fst (summary_dict (detect_all zscore_count isolation_forest df k zt c))).
Proof.
  intros Hu. unfold summary_dict. rewrite map_map. cbn [fst].
  change (fun x : string * column_outliers => fst x) with (@fst string column_outliers).
  unfold detect_all. destruct (numeric_df_empty df); cbn [per_column_summary];
    [constructor|].
  rewrite detect_columns_names. apply NoDup_map_filter. unfold numeric_df.
  apply NoDup_map_filter. rewrite indexed_names. exact Hu.
Qed.

Lemma summary_dict_flagged_numeric (df : DataFrame) (k zt c : Q) (name : string) :
  flagged (summary_dict (detect_all zscore_count isolation_forest df k zt c)) name ->
  exists i, nth_error (columns df) i = Some (name, DNumeric).
Proof.
  intros (n & Hin & _). unfold summary_dict in Hin.
  apply in_map_iff in Hin as ([nm f] & [= <- _] & Hin).
  assert (Hk : In nm (map fst (per_column_summary
                 (detect_all zscore_count isolation_forest df k zt c))))
    by (apply in_map_iff; exists (nm, f); auto).
  unfold detect_all in Hk. destruct (numeric_df_empty df);
    cbn [per_column_summary] in Hk; [contradiction|].
  apply detect_columns_keys in Hk as (i & d & Hi & _).
  apply numeric_df_In in Hi as (Hn & -> & _). eauto.
Qed.

(** X17: with no expected types configured (as in the default
    configuration) and pairwise different column names, the whole cleaning
    block of [run_audit] - constant columns of the profile dropped,
    duplicates dropped, missing values handled from the analysis, outliers
    clipped from the detector's summary - ends without an exception, never
    binds [self.df] to a new frame, and adds neither a row nor a column. *)
Theorem clean_data_never_raises (cfg : config) (df : DataFrame) :
  unique_names df ->
  cfg_expected_types cfg = mkExpected [] [] ->
  let o := clean_data sqrtQ zscore_count isolation_forest parse_number
             str_of_number cfg df in
  raised o = None /\
  rebound o = false /\
  (len (cleaner_df (after o)) <= len df)%nat /\
  (forall name, has_column (cleaner_df (after o)) name = true ->
                has_column df name = true).
Proof.
  intros Hu He. cbn zeta. unfold clean_data. rewrite He.
  set (consts := constant_columns (metadata (generate_profile sqrtQ df))).
  set (findings := column_analysis
                     (analyze df (cfg_warning_threshold cfg)
                        (cfg_critical_threshold cfg))).
  set (r := detect_all zscore_count isolation_forest df (cfg_iqr_multiplier cfg)
              (cfg_zscore_threshold cfg) (cfg_isolation_contamination cfg)).
  (* enforce_types *)
  set (o1 := enforce_types parse_number str_of_number (mkExpected [] [])
               (mkCleaner df [])).
  assert (H1 : o1 = returns (mkCleaner df [])) by reflexivity.
  (* drop_constant_columns *)
  destruct (drop_constant_columns_keeps_dtypes consts (after o1))
    as (Hr2 & Hb2 & Hl2 & Hd2).
  { rewrite H1. apply constant_columns_present. }
  rewrite (and_then_returned o1) by (rewrite H1; reflexivity).
  set (o2 := mkOutcome _ _ _).
  assert (A2 : after o2 = after (drop_constant_columns consts (after o1)))
    by reflexivity.
  assert (R2 : raised o2 = None) by exact Hr2.
  assert (B2 : rebound o2 = false)
    by (unfold o2; cbn [rebound]; rewrite Hb2, H1; reflexivity).
  (* drop_duplicates *)
  rewrite (and_then_returned o2 _ R2).
  set (o3 := mkOutcome _ _ _).
  assert (A3 : cleaner_df (after o3) = drop_duplicate_rows (cleaner_df (after o2)))
    by reflexivity.
  assert (R3 : raised o3 = None) by reflexivity.
  assert (B3 : rebound o3 = false)
    by (unfold o3; cbn [rebound]; rewrite B2; reflexivity).
  (* handle_missing_values *)
  rewrite (and_then_returned o3 _ R3).
  set (o4 := mkOutcome _ _ _).
  assert (A4 : after o4
               = fold_left (handle_missing_column str_of_number) findings
                   (after o3)) by reflexivity.
  assert (R4 : raised o4 = None) by reflexivity.
  assert (B4 : rebound o4 = false)
    by (unfold o4; cbn [rebound]; rewrite B3; reflexivity).
  assert (C4 : columns (cleaner_df (after o4))
               = columns (cleaner_df (after (drop_constant_columns consts (after o1))))).
  { rewrite A4, steps_columns, A3, drop_duplicate_rows_columns, A2. reflexivity. }
  (* handle_outliers *)
  rewrite (and_then_returned o4 _ R4). cbn [raised rebound after].
  unfold handle_outliers. rewrite clip_never_rebinds, B4.
  destruct (handle_outliers_from_clip (summary_dict r) (after o4) false)
    as (Hr5 & Hc5 & _ & _).
  { apply summary_dict_keys. exact Hu. }
  { intros col j Hf Hj.
    destruct (summary_dict_flagged_numeric df _ _ _ col Hf) as [i Hi].
    rewrite C4 in Hj. destruct (Hd2 col j Hj) as (i' & Hi' & Hdt).
    unfold dtype_at in *. rewrite C4, Hdt.
    rewrite H1 in Hi'. cbn [after returns cleaner_df] in Hi'.
    destruct (index_of_nth col (columns df) i' Hi') as [d' Hn'].
    rewrite (NoDup_names_same_index df i' i col d' DNumeric Hu Hn' Hi).
    rewrite H1. cbn [after returns cleaner_df].
    rewrite (nth_error_nth _ _ _ Hi). reflexivity. }
  split; [exact Hr5|]. split; [reflexivity|]. split.
  - rewrite clip_keeps_len, A4.
    pose proof (missing_steps_len str_of_number findings (after o3)) as Hs.
    pose proof (drop_duplicate_rows_len (cleaner_df (after o2))) as Hdd.
    rewrite <- A3 in Hdd. rewrite A2, Hl2, H1 in Hdd.
    cbn [after returns cleaner_df] in Hdd. lia.
  - intros name Hhas. unfold has_column in Hhas.
    rewrite Hc5, C4 in Hhas.
    destruct (index_of name (columns (cleaner_df
                (after (drop_constant_columns consts (after o1)))))) as [j|] eqn:Hj;
      [|discriminate].
    destruct (Hd2 name j Hj) as (i & Hi & _).
    rewrite H1 in Hi. cbn [after returns cleaner_df] in Hi.
    unfold has_column. rewrite Hi. reflexivity.
Qed.

End CleaningBlock.

Lemma clean_data_never_raises_witness :
  unique_names base_test_data /\
  cfg_expected_types default_config = mkExpected [] [] /\
  raised (clean_data (fun x => x) (fun _ _ => 0%nat) (fun _ _ => None)
            (fun _ => None) (fun _ => "0"%string) default_config base_test_data)
  = None.
Proof.
  split; [exact fixture_unique_names|]. split; [reflexivity|].
  exact (proj1 (clean_data_never_raises (fun x => x) (fun _ _ => 0%nat)
                  (fun _ _ => None) (fun _ => None) (fun _ => "0"%string)
                  default_config base_test_data fixture_unique_names eq_refl)).
Defined.

(** ** Edge cases: no constraint, no row *)

(** X18: with an empty constraint mapping (the default configuration)
    [validate_all] reports no issue and passes for every frame, with a score
    of 100 when no cell is missing and of 95 otherwise. *)
Theorem validate_all_without_constraints
    (query : DataFrame -> string -> option DataFrame) (df : DataFrame) :
  exists r,
    validate_all query df [] = Ok r /\
    constraint_violations r = [] /\
    total_issues (summary r) = 0%nat /\
    validation_passed (summary r) = true /\
    (data_quality_score (summary r)
     == if (0 <? total_missing df)%nat then 95 else 100)%Q.
Proof.
  eexists. split; [reflexivity|].
  cbn [constraint_violations summary total_issues validation_passed
       data_quality_score fst snd length].
  assert (Hc : (clamped_score df 0 == 100)%Q).
  { unfold clamped_score.
    assert (H0 : (nat2Q 0 / nat2Q (cells_or_1 df) == 0)%Q)
      by (unfold Qdiv; change (nat2Q 0) with 0%Q; apply Qmult_0_l).
    destruct (Q.max_spec 0 (100 - nat2Q 0 / nat2Q (cells_or_1 df) * 1000))
      as [[_ ->]|[Hge ->]]; lra. }
  split; [reflexivity|]. split; [reflexivity|].
  assert (Hs : (score_of df 0
                == if (0 <? total_missing df)%nat then 95 else 100)%Q).
  { unfold score_of. destruct (0 <? total_missing df)%nat; lra. }
  split; [|exact Hs].
  apply Qle_bool_iff. rewrite Hs. destruct (0 <? total_missing df)%nat; lra.
Qed.

(** X19: for a frame without rows the profiler reports no row and no
    duplicate, lists every column as constant, and gives each column a
    missing count and a distinct count of 0, a missing percentage of NaN
    (0 / 0) and, when it is numeric, [None] for each of mean, std, min, max
    and median. *)
Theorem generate_profile_without_rows (sqrtQ : Q -> Q) (df : DataFrame) :
  len df = 0%nat ->
  let p := generate_profile sqrtQ df in
  total_rows (metadata p) = 0%nat /\
  duplicate_rows (metadata p) = 0%nat /\
  constant_columns (metadata p) = map fst (columns df) /\
  forall i name d,
    nth_error (columns df) i = Some (name, d) ->
    exists st,
      nth_error (profile_columns p) i = Some (name, st) /\
      cs_missing_count st = 0%nat /\
      cs_unique_count st = 0%nat /\
      cs_missing_percentage st = PyNaN /\
      cs_is_constant st = true /\
      (d = DNumeric ->
       cs_numeric st = Some (mkNumeric PyNone PyNone PyNone PyNone PyNone)).
Proof.
  intros Hlen. cbn zeta.
  assert (Hrows : rows df = [])
    by (unfold len in Hlen; destruct (rows df); [reflexivity|discriminate]).
  assert (Hcol : forall i, column_at df i = [])
    by (intros i; unfold column_at; rewrite Hrows; reflexivity).
  assert (Hconst : constant_columns (metadata (generate_profile sqrtQ df))
                   = map fst (columns df)).
  { unfold generate_profile. cbn [metadata constant_columns].
    rewrite <- indexed_names. f_equal.
    induction (indexed (columns df)) as [|ic l IH]; [reflexivity|].
    cbn [List.filter]. rewrite Hcol. cbn. f_equal. exact IH. }
  split; [exact Hlen|]. split.
  { unfold generate_profile. cbn [metadata duplicate_rows].
    unfold duplicated, df_empty. rewrite Hlen. reflexivity. }
  split; [exact Hconst|].
  intros i name d Hi. eexists. split.
  { unfold generate_profile at 1. cbn [profile_columns].
    rewrite nth_error_map, (nth_error_indexed _ _ _ Hi). reflexivity. }
  fold (constant_columns (metadata (generate_profile sqrtQ df))).
  unfold profile_column.
  cbn [fst snd cs_missing_count cs_unique_count cs_missing_percentage
       cs_is_constant cs_numeric].
  rewrite Hcol, Hlen. cbn [List.filter length Nat.eqb unless_empty].
  split; [reflexivity|]. split; [reflexivity|]. split; [reflexivity|].
  assert (Hin : In (name, d) (columns df)) by (eapply nth_error_In; exact Hi).
  split.
  - change (map (fun ic : nat * (string * dtype) => fst (snd ic))
              (List.filter (fun ic => (nunique (column_at df (fst ic)) <=? 1)%nat)
                 (indexed (columns df))))
      with (constant_columns (metadata (generate_profile sqrtQ df))).
    rewrite Hconst. apply existsb_eqb_In. apply in_map_iff.
    exists (name, d). auto.
  - intros ->.
    assert (He : existsb (String.eqb name) (names_of DNumeric (columns df)) = true).
    { apply existsb_eqb_In. unfold names_of. apply in_map_iff.
      exists (name, DNumeric). split; [reflexivity|]. apply filter_In. auto. }
    rewrite He. reflexivity.
Qed.

Lemma generate_profile_without_rows_witness :
  len (mkDF [("x"%string, DNumeric)] []) = 0%nat /\
  constant_columns
    (metadata (generate_profile (fun x => x) (mkDF [("x"%string, DNumeric)] [])))
  = ["x"%string].
Proof.
  split; [reflexivity|].
  exact (proj1 (proj2 (proj2
           (generate_profile_without_rows (fun x => x)
              (mkDF [("x"%string, DNumeric)] []) eq_refl)))).
Defined.
